(** * STrace: manifest-free ETW logging (EtwLogger.cpp)

    A shallow embedding of [EtwLogger.cpp] and the properties of it that
    the specification states.  The C++ code is rendered function by
    function; what it does to kernel memory, to the provider cache and
    through the ETW primitives is threaded through an explicit machine
    state. *)

From Stdlib Require Import ZArith Lia.
From stdpp Require Import base numbers option list gmap strings.

Local Open Scope Z_scope.

(** ** Integer types *)

(** Fixed-width unsigned conversions, as C performs them.  Quantities of
    type [size_t] that count bytes (string lengths, offsets, allocation
    sizes) are [nat]: they would only wrap at 2^64 bytes. *)
Definition uint8_t (z : Z) : Z := z mod 2 ^ 8.
Definition uint16_t (z : Z) : Z := z mod 2 ^ 16.
Definition ULONG (z : Z) : Z := z mod 2 ^ 32.

Definition NTSTATUS := Z.
Definition STATUS_SUCCESS : NTSTATUS := 0.
Definition STATUS_UNSUCCESSFUL : NTSTATUS := 0xC0000001.

Definition NULL : Z := 0.
Definition PASSIVE_LEVEL : Z := 0.

(** Little-endian image of an integer in [n] bytes. *)
Fixpoint le_bytes (n : nat) (v : Z) : list Z :=
  match n with
  | O => []
  | S n' => v mod 256 :: le_bytes n' (v / 256)
  end.

(** The integer a little-endian byte sequence stands for. *)
Fixpoint le_value (bs : list Z) : Z :=
  match bs with
  | [] => 0
  | b :: bs' => b + 256 * le_value bs'
  end.

(** ** ETW_FIELD_TYPE *)

Definition EtwFieldNull : Z := 0.
Definition EtwFieldUnicodeString : Z := 1.
Definition EtwFieldAnsiString : Z := 2.
Definition EtwFieldInt8 : Z := 3.
Definition EtwFieldUInt8 : Z := 4.
Definition EtwFieldInt16 : Z := 5.
Definition EtwFieldUInt16 : Z := 6.
Definition EtwFieldInt32 : Z := 7.
Definition EtwFieldUInt32 : Z := 8.
Definition EtwFieldInt64 : Z := 9.
Definition EtwFieldUInt64 : Z := 10.
Definition EtwFieldFloat : Z := 11.
Definition EtwFieldDouble : Z := 12.
Definition EtwFieldBool32 : Z := 13.
Definition EtwFieldBinary : Z := 14.
Definition EtwFieldGuid : Z := 15.
Definition EtwFieldPointer : Z := 16.
Definition EtwFieldFiletime : Z := 17.
Definition EtwFieldSystemTime : Z := 18.
Definition EtwFieldSid : Z := 19.
Definition EtwFieldHexInt32 : Z := 20.
Definition EtwFieldHexInt64 : Z := 21.
Definition EtwFieldPid : Z := Z.lor EtwFieldInt32 (Z.shiftl 0x05 8).

(** ** C strings

    A [const char*] argument is given by the bytes found at the pointer.
    The string is what precedes the first NUL; a list without NUL stands
    for bytes that are followed by the terminator. *)

Fixpoint strlen (s : list Z) : nat :=
  match s with
  | [] => O
  | c :: s' => if c =? 0 then O else S (strlen s')
  end.

(** The characters of the string, without the terminator. *)
Definition c_str (s : list Z) : list Z := take (strlen s) s.

(** [strcmp]: the difference of the first pair of characters that differ,
    0 when both strings end together. *)
Fixpoint strcmp (a b : list Z) : Z :=
  match a with
  | [] => 0 - hd 0 b
  | c :: a' =>
      if c =? hd 0 b
      then (if c =? 0 then 0 else strcmp a' (tl b))
      else c - hd 0 b
  end.

(** Whether a region of memory holds a terminator at all. *)
Definition has_nul (r : list Z) : bool := existsb (fun c => c =? 0) r.

(** ** Data structures *)

Record GUID := mkGUID {
  Data1 : Z;
  Data2 : Z;
  Data3 : Z;
  Data4 : list Z }.

(** [EVENT_DATA_DESCRIPTOR]: [Ptr] is the address of a memory object,
    [Size] its length, [Type'] the first byte of the [Reserved] union. *)
Record EVENT_DATA_DESCRIPTOR := mkDataDesc {
  Ptr : Z;
  Size : Z;
  Type' : Z }.

Definition EVENT_DATA_DESCRIPTOR_TYPE_NONE : Z := 0.
Definition EVENT_DATA_DESCRIPTOR_TYPE_EVENT_METADATA : Z := 1.
Definition EVENT_DATA_DESCRIPTOR_TYPE_PROVIDER_METADATA : Z := 2.

(** [memset(&desc, 0, sizeof(EVENT_DATA_DESCRIPTOR))]. *)
Definition zero_descriptor : EVENT_DATA_DESCRIPTOR := mkDataDesc 0 0 0.

(** [EventDataDescCreate]: sets the pointer and the size, clears the rest. *)
Definition EventDataDescCreate (DataPtr : Z) (DataSize : Z) : EVENT_DATA_DESCRIPTOR :=
  mkDataDesc DataPtr DataSize 0.

Record EVENT_DESCRIPTOR := mkEventDesc {
  Id : Z;
  Version : Z;
  Channel : Z;
  Level : Z;
  Opcode : Z;
  Task : Z;
  Keyword : Z }.

Record EtwProviderEvent := mkEvent {
  m_eventMetadataDesc : EVENT_DATA_DESCRIPTOR }.

(** [EtwProvider]. The source keeps the caller's [LPCGUID] in [m_guid]
    and reads the [GUID] through it; here [m_guid] is the [GUID] read.
    Nothing in the module writes a [GUID], so within a call the two
    agree. A caller that rewrites a [GUID] object between calls changes
    the identifier of every provider that points at it; no step of the
    relations below does that, and a statement that covers several calls
    holds for callers that leave those objects alone. *)
Record EtwProvider := mkProvider {
  m_guid : GUID;
  m_regHandle : Z;
  m_providerMetadataDesc : EVENT_DATA_DESCRIPTOR;
  m_events : list EtwProviderEvent }.

(** The variadic tail of [EtwTrace]: per field a name, a type tag read as
    [int], and a value read as [size_t]. The argument [numberOfFields] is
    the length of the list. *)
Definition va_list := list (list Z * Z * Z).

(** ** The machine

    Calls into the tracing subsystem, recorded newest first. *)
Inductive etw_call :=
| Call_EtwRegister (ProviderId : GUID)
| Call_EtwSetInformation (RegHandle : Z) (InformationClass : Z)
    (EventInformation : list Z) (InformationLength : Z)
| Call_EtwWrite (RegHandle : Z) (EventDescriptor : EVENT_DESCRIPTOR)
    (UserDataCount : Z) (UserData : list EVENT_DATA_DESCRIPTOR).

(** Memory is a finite map from the address of an object to its bytes; it
    holds the caller's objects as well as the pool allocations.  Address 0
    is [NULL] and never holds an object that the allocator returned. *)
Record machine := Machine {
  irql : Z;
  mem : gmap Z (list Z);
  pool_requests : nat;
  etw_calls : list etw_call;
  g_ProviderCache : list EtwProvider }.

Definition set_mem (m : gmap Z (list Z)) (s : machine) : machine :=
  Machine (irql s) m (pool_requests s) (etw_calls s) (g_ProviderCache s).
Definition set_pool_requests (n : nat) (s : machine) : machine :=
  Machine (irql s) (mem s) n (etw_calls s) (g_ProviderCache s).
Definition set_etw_calls (l : list etw_call) (s : machine) : machine :=
  Machine (irql s) (mem s) (pool_requests s) l (g_ProviderCache s).
Definition set_g_ProviderCache (c : list EtwProvider) (s : machine) : machine :=
  Machine (irql s) (mem s) (pool_requests s) (etw_calls s) c.
Definition set_irql (l : Z) (s : machine) : machine :=
  Machine l (mem s) (pool_requests s) (etw_calls s) (g_ProviderCache s).

(** What the kernel decides: whether the k-th pool request (of a given
    size) is granted and what the fresh memory holds, what lies on the
    stack behind the local variable of [WriteEvent], and what the ETW
    primitives return given the calls made so far. *)
Record Kernel := mkKernel {
  pool_grants : nat -> nat -> bool;
  pool_garbage : nat -> list Z;
  stack_beyond : list Z;
  EtwRegister_returns : list etw_call -> GUID -> NTSTATUS * Z;
  EtwSetInformation_returns : list etw_call -> Z -> Z -> list Z -> Z -> NTSTATUS;
  EtwWrite_returns :
    list etw_call -> Z -> EVENT_DESCRIPTOR -> Z -> list EVENT_DATA_DESCRIPTOR -> NTSTATUS }.

(** ** State and undefined behaviour *)

(** A call either completes with a value and a machine state, or runs
    into undefined behaviour (an access outside a memory object). *)
Inductive outcome (A : Type) : Type :=
| Done (a : A) (s : machine)
| Undefined.
Arguments Done {A} a s.
Arguments Undefined {A}.

Definition M (A : Type) : Type := machine -> outcome A.

Definition ret {A} (a : A) : M A := fun s => Done a s.

Definition bind {A B} (m : M A) (k : A -> M B) : M B :=
  fun s => match m s with
           | Done a s' => k a s'
           | Undefined => Undefined
           end.

Notation "x <- e ;; k" := (bind e (fun x => k))
  (at level 20, e at level 99, k at level 200, only parsing).
Notation "' p <- e ;; k" := (bind e (fun x => let 'p := x in k))
  (at level 20, p pattern, e at level 99, k at level 200, only parsing).
Notation "e ;;; k" := (bind e (fun _ => k))
  (at level 20, k at level 200, only parsing).

(** An address that is not [NULL] and holds no object. *)
Definition fresh_address (m : gmap Z (list Z)) : Z := fresh ({[NULL]} ∪ dom m).

Section Model.

Context (K : Kernel).

(** ** Kernel services *)

(** [KeGetCurrentIrql()]. *)
Definition KeGetCurrentIrql : M Z := fun s => Done (irql s) s.

(** [ExAllocatePoolWithTag(NonPagedPoolNx, NumberOfBytes, tag)]: [NULL]
    when the kernel denies the request, otherwise the address of a new
    object of [NumberOfBytes] bytes with unspecified contents. The address
    is not [NULL] and not the address of any object in memory. *)
Definition ExAllocatePoolWithTag (NumberOfBytes : nat) : M Z := fun s =>
  let k := pool_requests s in
  if pool_grants K k NumberOfBytes then
    let p := fresh_address (mem s) in
    Done p (set_pool_requests (S k)
             (set_mem (<[p := resize NumberOfBytes 0 (pool_garbage K k)]> (mem s)) s))
  else Done NULL (set_pool_requests (S k) s).

(** Writing [bs] at [offset] into the object at address [p]; undefined
    when the object does not exist or the bytes do not fit into it. *)
Definition poke (p : Z) (offset : nat) (bs : list Z) : M unit := fun s =>
  match mem s !! p with
  | Some obj =>
      if (offset + length bs <=? length obj)%nat
      then Done tt (set_mem (<[p := take offset obj ++ bs
                                       ++ drop (offset + length bs) obj]> (mem s)) s)
      else Undefined
  | None => Undefined
  end.

(** Reading [n] bytes at [offset] of the object at address [p]. *)
Definition peek (p : Z) (offset n : nat) : M (list Z) := fun s =>
  match mem s !! p with
  | Some obj =>
      if (offset + n <=? length obj)%nat
      then Done (take n (drop offset obj)) s
      else Undefined
  | None => Undefined
  end.

Definition memset (p : Z) (c : Z) (n : nat) : M unit := poke p 0 (replicate n c).

(** [strcpy(p + offset, src)]: the characters and the terminator. *)
Definition strcpy (p : Z) (offset : nat) (src : list Z) : M unit :=
  poke p offset (c_str src ++ [0]).

(** [EtwRegister(ProviderId, NULL, NULL, &RegHandle)]: status and handle. *)
Definition EtwRegister (ProviderId : GUID) : M (NTSTATUS * Z) := fun s =>
  Done (EtwRegister_returns K (etw_calls s) ProviderId)
       (set_etw_calls (Call_EtwRegister ProviderId :: etw_calls s) s).

Definition EventProviderSetTraits : Z := 2.

(** [EtwSetInformation(RegHandle, InformationClass, EventInformation,
    InformationLength)]; the subsystem reads [InformationLength] bytes at
    [EventInformation]. *)
Definition EtwSetInformation (RegHandle : Z) (InformationClass : Z)
    (EventInformation : Z) (InformationLength : Z) : M NTSTATUS :=
  info <- peek EventInformation 0 (Z.to_nat InformationLength) ;;
  fun s =>
    Done (EtwSetInformation_returns K (etw_calls s) RegHandle InformationClass
            info InformationLength)
         (set_etw_calls (Call_EtwSetInformation RegHandle InformationClass
                           info InformationLength :: etw_calls s) s).

(** [EtwWrite(RegHandle, EventDescriptor, NULL, UserDataCount, UserData)]. *)
Definition EtwWrite (RegHandle : Z) (EventDescriptor : EVENT_DESCRIPTOR)
    (UserDataCount : Z) (UserData : list EVENT_DATA_DESCRIPTOR) : M NTSTATUS := fun s =>
  Done (EtwWrite_returns K (etw_calls s) RegHandle EventDescriptor UserDataCount UserData)
       (set_etw_calls (Call_EtwWrite RegHandle EventDescriptor UserDataCount UserData
                         :: etw_calls s) s).

(** ** EtwProviderEvent *)

(** Modelled from the spec: [struct EventMetadata] is declared in
    EtwLogger.h, which is not among the sources. The spec lays the blob
    out as [u16 totalLength][u8 tag][NUL-terminated eventName] followed by
    the fields, which gives these offsets. *)
Definition offsetof_TotalLength : nat := 0.
Definition offsetof_Tag : nat := 2.
Definition offsetof_EventName : nat := 3.

(** [strlen(eventName) + 1 + sizeof(uint16_t) + sizeof(uint8_t)]. *)
Definition eventMetadataHeaderLength (eventName : list Z) : nat :=
  (strlen eventName + 1 + 2 + 1)%nat.

(** The first loop of [Initialize]: the running sum is a [uint16_t] and
    every summand is converted to [uint16_t]. *)
Fixpoint measure_fields (fields : va_list) (eventMetadataLength : Z) : Z :=
  match fields with
  | [] => eventMetadataLength
  | (fieldName, _, _) :: rest =>
      measure_fields rest
        (uint16_t (eventMetadataLength
                   + uint16_t (Z.of_nat (strlen fieldName + 1 + 1))))
  end.

(** The value of the local [eventMetadataLength] after the first loop. *)
Definition eventMetadataLength (eventName : list Z) (fields : va_list) : Z :=
  measure_fields fields (uint16_t (Z.of_nat (eventMetadataHeaderLength eventName))).

(** The second loop of [Initialize]. *)
Fixpoint write_fields (eventMetadata : Z) (fields : va_list)
    (currentLocation : nat) : M unit :=
  match fields with
  | [] => ret tt
  | (fieldName, fieldType, _) :: rest =>
      strcpy eventMetadata currentLocation fieldName ;;;
      poke eventMetadata (currentLocation + (strlen fieldName + 1)) [uint8_t fieldType] ;;;
      write_fields eventMetadata rest (currentLocation + (strlen fieldName + 1 + 1))
  end.

Definition EtwProviderEvent_new : EtwProviderEvent := mkEvent zero_descriptor.

Definition EtwProviderEvent_Initialize (eventName : list Z) (fields : va_list)
    (this : EtwProviderEvent) : M (NTSTATUS * EtwProviderEvent) :=
  let eventMetadataLength := eventMetadataLength eventName fields in
  eventMetadata <- ExAllocatePoolWithTag (Z.to_nat eventMetadataLength) ;;
  if eventMetadata =? NULL then ret (STATUS_UNSUCCESSFUL, this) else
  memset eventMetadata 0 (Z.to_nat eventMetadataLength) ;;;
  poke eventMetadata offsetof_TotalLength (le_bytes 2 eventMetadataLength) ;;;
  poke eventMetadata offsetof_Tag [0] ;;;
  strcpy eventMetadata offsetof_EventName eventName ;;;
  write_fields eventMetadata fields (eventMetadataHeaderLength eventName) ;;;
  TotalLength <- peek eventMetadata offsetof_TotalLength 2 ;;
  let desc := EventDataDescCreate eventMetadata (le_value TotalLength) in
  ret (STATUS_SUCCESS,
       mkEvent (mkDataDesc (Ptr desc) (Size desc)
                  EVENT_DATA_DESCRIPTOR_TYPE_EVENT_METADATA)).

(** The bytes from [EventName] to the end of the metadata object, when
    the object exists and holds a terminator there. *)
Definition event_name_region (s : machine) (this : EtwProviderEvent) : option (list Z) :=
  match mem s !! Ptr (m_eventMetadataDesc this) with
  | Some obj =>
      if has_nul (drop offsetof_EventName obj)
      then Some (drop offsetof_EventName obj)
      else None
  | None => None
  end.

(** [Name()]: the pointer to [EventName] inside the metadata object. *)
Definition EtwProviderEvent_Name (this : EtwProviderEvent) : M (list Z) := fun s =>
  match event_name_region s this with
  | Some r => Done r s
  | None => Undefined
  end.

Definition EtwProviderEvent_MetadataDescriptor (this : EtwProviderEvent)
  : EVENT_DATA_DESCRIPTOR := m_eventMetadataDesc this.

(** ** EtwProvider *)

Definition EtwProvider_new (providerGuid : GUID) : EtwProvider :=
  mkProvider providerGuid 0 zero_descriptor [].

Definition set_m_regHandle (h : Z) (this : EtwProvider) : EtwProvider :=
  mkProvider (m_guid this) h (m_providerMetadataDesc this) (m_events this).
Definition set_m_providerMetadataDesc (d : EVENT_DATA_DESCRIPTOR) (this : EtwProvider)
  : EtwProvider :=
  mkProvider (m_guid this) (m_regHandle this) d (m_events this).
Definition set_m_events (l : list EtwProviderEvent) (this : EtwProvider) : EtwProvider :=
  mkProvider (m_guid this) (m_regHandle this) (m_providerMetadataDesc this) l.

(** Modelled from the spec: [struct ProviderMetadata] is declared in
    EtwLogger.h as well; the spec lays the blob out as
    [u16 totalLength][NUL-terminated providerName]. *)
Definition offsetof_ProviderName : nat := 2.

(** [(uint16_t)((strlen(providerName) + 1) + sizeof(uint16_t))]. *)
Definition providerMetadataLength (providerName : list Z) : Z :=
  uint16_t (Z.of_nat ((strlen providerName + 1) + 2)).

Definition EtwProvider_Initialize (providerName : list Z) (this : EtwProvider)
  : M (NTSTATUS * EtwProvider) :=
  '(status, handle) <- EtwRegister (m_guid this) ;;
  let this := set_m_regHandle handle this in
  if negb (status =? STATUS_SUCCESS) then ret (status, this) else
  let providerMetadataLength := providerMetadataLength providerName in
  providerMetadata <- ExAllocatePoolWithTag (Z.to_nat providerMetadataLength) ;;
  if providerMetadata =? NULL then ret (STATUS_UNSUCCESSFUL, this) else
  memset providerMetadata 0 (Z.to_nat providerMetadataLength) ;;;
  poke providerMetadata offsetof_TotalLength (le_bytes 2 providerMetadataLength) ;;;
  strcpy providerMetadata offsetof_ProviderName providerName ;;;
  status <- EtwSetInformation (m_regHandle this) EventProviderSetTraits
              providerMetadata providerMetadataLength ;;
  if negb (status =? STATUS_SUCCESS) then ret (status, this) else
  TotalLength <- peek providerMetadata offsetof_TotalLength 2 ;;
  let desc := EventDataDescCreate providerMetadata (le_value TotalLength) in
  ret (STATUS_SUCCESS,
       set_m_providerMetadataDesc
         (mkDataDesc (Ptr desc) (Size desc)
            EVENT_DATA_DESCRIPTOR_TYPE_PROVIDER_METADATA) this).

(** The loop of [FindEvent] over [m_events]; [None] is [NULL]. *)
Fixpoint find_event (eventName : list Z) (events : list EtwProviderEvent)
  : M (option EtwProviderEvent) :=
  match events with
  | [] => ret None
  | e :: rest =>
      name <- EtwProviderEvent_Name e ;;
      if strcmp eventName name =? 0 then ret (Some e)
      else find_event eventName rest
  end.

Definition EtwProvider_FindEvent (eventName : list Z) (this : EtwProvider)
  : M (option EtwProviderEvent) :=
  find_event eventName (m_events this).

Definition EtwProvider_AddEvent (eventName : list Z) (fields : va_list)
    (this : EtwProvider) : M (NTSTATUS * EtwProvider) :=
  found <- EtwProvider_FindEvent eventName this ;;
  match found with
  | None =>
      '(status, event) <- EtwProviderEvent_Initialize eventName fields
                            EtwProviderEvent_new ;;
      if negb (status =? STATUS_SUCCESS) then ret (status, this)
      else ret (status, set_m_events (m_events this ++ [event]) this)
  | Some _ => ret (STATUS_SUCCESS, this)
  end.

(** What the second argument of [CreateTraceProperty] points at: the local
    variable [fieldValue] of [WriteEvent], or the address the value holds. *)
Inductive pointer :=
| AddressOfLocal (fieldValue : Z)
| Address (p : Z).

(** The bytes at a pointer up to the end of what can be read there. The
    local is a [size_t] of 8 bytes followed by the rest of the stack. *)
Definition object_at (q : pointer) (s : machine) : option (list Z) :=
  match q with
  | AddressOfLocal v => Some (le_bytes 8 v ++ stack_beyond K)
  | Address p => mem s !! p
  end.

(** [strlen((char* )q)] on memory: undefined without a terminator. *)
Definition strlen_at (q : pointer) : M nat := fun s =>
  match object_at q s with
  | Some r => if has_nul r then Done (strlen r) s else Undefined
  | None => Undefined
  end.

(** The [n] bytes that [memcpy] reads at [q]. *)
Definition load (q : pointer) (n : nat) : M (list Z) := fun s =>
  match object_at q s with
  | Some r => if (n <=? length r)%nat then Done (take n r) s else Undefined
  | None => Undefined
  end.

Definition memcpy (dst : Z) (src : pointer) (n : nat) : M unit :=
  bs <- load src n ;;
  poke dst 0 bs.

Definition SizeOfField (fieldType : Z) (fieldValue : pointer) : M nat :=
  match Z.land fieldType 0x000000FF with
  | 2 (* EtwFieldAnsiString *) => n <- strlen_at fieldValue ;; ret (n + 1)%nat
  | 3 (* EtwFieldInt8 *) => ret 1%nat
  | 4 (* EtwFieldUInt8 *) => ret 1%nat
  | 5 (* EtwFieldInt16 *) => ret 2%nat
  | 6 (* EtwFieldUInt16 *) => ret 2%nat
  | 7 (* EtwFieldInt32 *) => ret 4%nat
  | 8 (* EtwFieldUInt32 *) => ret 4%nat
  | 9 (* EtwFieldInt64 *) => ret 8%nat
  | 10 (* EtwFieldUInt64 *) => ret 8%nat
  | 11 (* EtwFieldFloat *) => ret 4%nat
  | 12 (* EtwFieldDouble *) => ret 8%nat
  | 13 (* EtwFieldBool32 *) => ret 4%nat
  | 15 (* EtwFieldGuid *) => ret 16%nat
  | _ => ret 0%nat
  end.

Definition CreateTraceProperty (fieldType : Z) (fieldValue : pointer)
  : M EVENT_DATA_DESCRIPTOR :=
  let fieldDesc := zero_descriptor in
  fieldSize <- SizeOfField fieldType fieldValue ;;
  newSpace <- ExAllocatePoolWithTag fieldSize ;;
  if newSpace =? NULL then ret fieldDesc else
  memcpy newSpace fieldValue fieldSize ;;;
  ret (EventDataDescCreate newSpace (ULONG (Z.of_nat fieldSize))).

(** The loop of [WriteEvent] from field [i] on: either the filled array,
    or the status of the early return. *)
Fixpoint describe_fields (fields : va_list) (i : nat)
    (dataDescriptors : list EVENT_DATA_DESCRIPTOR)
  : M (NTSTATUS + list EVENT_DATA_DESCRIPTOR) :=
  match fields with
  | [] => ret (inr dataDescriptors)
  | (_, fieldType, fieldValue) :: rest =>
      d <- CreateTraceProperty fieldType
             (if negb (fieldType =? EtwFieldAnsiString)
              then AddressOfLocal fieldValue
              else Address fieldValue) ;;
      let dataDescriptors := <[(i + 2)%nat := d]> dataDescriptors in
      if Ptr d =? NULL then ret (inl STATUS_UNSUCCESSFUL)
      else describe_fields rest (S i) dataDescriptors
  end.

Definition sizeof_EVENT_DATA_DESCRIPTOR : nat := 16.

(** The array [dataDescriptors] is kept as a list of descriptors; its pool
    object of [allocSize] bytes is allocated and cleared, and is never
    freed. *)
Definition EtwProvider_WriteEvent (eventName : list Z)
    (eventDescriptor : EVENT_DESCRIPTOR) (fields : va_list) (this : EtwProvider)
  : M NTSTATUS :=
  found <- EtwProvider_FindEvent eventName this ;;
  match found with
  | None => ret STATUS_UNSUCCESSFUL
  | Some event =>
      let numberOfFields := length fields in
      let numberOfDescriptors := (numberOfFields + 2)%nat in
      let allocSize := (numberOfDescriptors * sizeof_EVENT_DATA_DESCRIPTOR)%nat in
      dataDescriptors_p <- ExAllocatePoolWithTag allocSize ;;
      if dataDescriptors_p =? NULL then ret STATUS_UNSUCCESSFUL else
      memset dataDescriptors_p 0 allocSize ;;;
      let dataDescriptors := replicate numberOfDescriptors zero_descriptor in
      let dataDescriptors := <[0%nat := m_providerMetadataDesc this]> dataDescriptors in
      let dataDescriptors :=
        <[1%nat := EtwProviderEvent_MetadataDescriptor event]> dataDescriptors in
      filled <- describe_fields fields 0 dataDescriptors ;;
      match filled with
      | inl status => ret status
      | inr dataDescriptors =>
          EtwWrite (m_regHandle this) eventDescriptor
            (Z.of_nat numberOfDescriptors) dataDescriptors
      end
  end.

(** ** The provider cache and the entry point *)

(** [GUID]s are compared by value: the caller's [GUID] objects, which the
    providers point at, are taken to be constant. *)
Definition guid_matches (a b : GUID) : bool :=
  (Data1 a =? Data1 b) &&
  (Data2 a =? Data2 b) &&
  (Data3 a =? Data3 b) &&
  (nth 0 (Data4 a) 0 =? nth 0 (Data4 b) 0) &&
  (nth 1 (Data4 a) 0 =? nth 1 (Data4 b) 0) &&
  (nth 2 (Data4 a) 0 =? nth 2 (Data4 b) 0) &&
  (nth 3 (Data4 a) 0 =? nth 3 (Data4 b) 0) &&
  (nth 4 (Data4 a) 0 =? nth 4 (Data4 b) 0) &&
  (nth 5 (Data4 a) 0 =? nth 5 (Data4 b) 0) &&
  (nth 6 (Data4 a) 0 =? nth 6 (Data4 b) 0) &&
  (nth 7 (Data4 a) 0 =? nth 7 (Data4 b) 0).

(** The loop of [FindProvider] from index [i] on: the index of the first
    provider whose [GUID] matches; [None] is [NULL]. *)
Fixpoint find_provider (providerGuid : GUID) (cache : list EtwProvider) (i : nat)
  : option nat :=
  match cache with
  | [] => None
  | p :: rest =>
      if guid_matches (m_guid p) providerGuid then Some i
      else find_provider providerGuid rest (S i)
  end.

Definition FindProvider (providerGuid : GUID) : M (option nat) := fun s =>
  Done (find_provider providerGuid (g_ProviderCache s) 0) s.

Definition CreateEventDescriptor (keyword : Z) (level : Z) : EVENT_DESCRIPTOR :=
  mkEventDesc 0 0 11 level 0 0 keyword.

(** Modelled from the spec: [MyVector] (vector.h) is not among the
    sources. The spec has the collections ordered and append-only, so
    [push_back] appends at the end, here and for [m_events], and [back()]
    is the last element. The result is the index of
    [g_ProviderCache.back()]. *)
Definition cache_push_back (p : EtwProvider) : M nat := fun s =>
  Done (length (g_ProviderCache s))
       (set_g_ProviderCache (g_ProviderCache s ++ [p]) s).

(** Reading and writing the provider that [etwProvider] points at. *)
Definition cache_get (i : nat) : M EtwProvider := fun s =>
  match g_ProviderCache s !! i with
  | Some p => Done p s
  | None => Undefined
  end.

Definition cache_set (i : nat) (p : EtwProvider) : M unit := fun s =>
  Done tt (set_g_ProviderCache (<[i := p]> (g_ProviderCache s)) s).

Definition EtwTrace (providerName : list Z) (providerGuid : GUID)
    (eventName : list Z) (eventLevel : Z) (keyword : Z) (fields : va_list)
  : M NTSTATUS :=
  current <- KeGetCurrentIrql ;;
  if current >? PASSIVE_LEVEL then ret STATUS_UNSUCCESSFUL else
  found <- FindProvider providerGuid ;;
  got <- match found with
         | Some i => ret (inr i)
         | None =>
             '(status, newEtwProvider) <-
               EtwProvider_Initialize providerName (EtwProvider_new providerGuid) ;;
             if negb (status =? STATUS_SUCCESS) then ret (inl status)
             else i <- cache_push_back newEtwProvider ;; ret (inr i)
         end ;;
  match got with
  | inl status => ret status
  | inr etwProvider =>
      this <- cache_get etwProvider ;;
      '(status, this) <- EtwProvider_AddEvent eventName fields this ;;
      cache_set etwProvider this ;;;
      if negb (status =? STATUS_SUCCESS) then ret status else
      let eventDesc := CreateEventDescriptor keyword eventLevel in
      EtwProvider_WriteEvent eventName eventDesc fields this
  end.

End Model.

(** ** Notions used in the statements *)

(** The bytes that describe one field in the event metadata: its name,
    the terminator, and the type byte. *)
Definition field_metadata (f : list Z * Z * Z) : list Z :=
  let '(fieldName, fieldType, _) := f in
  c_str fieldName ++ [0] ++ [uint8_t fieldType].

Fixpoint fields_metadata (fields : va_list) : list Z :=
  match fields with
  | [] => []
  | f :: rest => field_metadata f ++ fields_metadata rest
  end.

(** The bytes that [EtwProviderEvent::Initialize] writes, in the order of
    their addresses. *)
Definition event_metadata_bytes (eventName : list Z) (fields : va_list) : list Z :=
  le_bytes 2 (eventMetadataLength eventName fields)
  ++ [0] ++ (c_str eventName ++ [0]) ++ fields_metadata fields.

(** The length of the event metadata as computed from the name lengths,
    without any wrap-around. *)
Fixpoint fields_length (fields : va_list) : nat :=
  match fields with
  | [] => O
  | (fieldName, _, _) :: rest => (strlen fieldName + 1 + 1 + fields_length rest)%nat
  end.

Definition serialized_length (eventName : list Z) (fields : va_list) : nat :=
  (strlen eventName + 1 + 2 + 1 + fields_length fields)%nat.

(** The bytes that [EtwProvider::Initialize] writes. *)
Definition provider_metadata_bytes (providerName : list Z) : list Z :=
  le_bytes 2 (providerMetadataLength providerName) ++ (c_str providerName ++ [0]).

(** The state in which the object at [p] holds [obj]. *)
Definition updated (p : Z) (obj : list Z) (s : machine) : machine :=
  set_mem (<[p := obj]> (mem s)) s.

(** The state after a granted pool request that ends up holding [obj]. *)
Definition allocated (p : Z) (obj : list Z) (s : machine) : machine :=
  set_pool_requests (S (pool_requests s)) (updated p obj s).

(** The state after a denied pool request. *)
Definition denied (s : machine) : machine :=
  set_pool_requests (S (pool_requests s)) s.

(** The name a builder carries: the string at [EventName]. *)
Definition event_name (s : machine) (e : EtwProviderEvent) : option (list Z) :=
  c_str <$> event_name_region s e.

(** The names of a provider's builders, in the order of [m_events], when
    every one of them can be read. *)
Definition event_names (s : machine) (this : EtwProvider) : option (list (list Z)) :=
  mapM (event_name s) (m_events this).

(** Every builder of the provider has a name and no two share one. *)
Definition names_unique (s : machine) (this : EtwProvider) : Prop :=
  exists names, event_names s this = Some names /\ NoDup names.

(** How many builders of the provider carry the name [eventName]. *)
Definition builders_named (s : machine) (this : EtwProvider) (eventName : list Z) : nat :=
  length (filter (fun e => event_name s e = Some (c_str eventName)) (m_events this)).

(** The pointer that [WriteEvent] hands to [CreateTraceProperty]. *)
Definition field_pointer (fieldType fieldValue : Z) : pointer :=
  if negb (fieldType =? EtwFieldAnsiString)
  then AddressOfLocal fieldValue
  else Address fieldValue.

(** The type tags that [SizeOfField] has a case for. *)
Definition supported_field_type (fieldType : Z) : bool :=
  bool_decide (Z.land fieldType 0xFF ∈ [2; 3; 4; 5; 6; 7; 8; 9; 10; 11; 12; 13; 15]).

(** The event metadata objects of the provider are the same in [s'] as
    in [s]. *)
Definition metadata_kept (this : EtwProvider) (s s' : machine) : Prop :=
  forall e, e ∈ m_events this ->
    mem s' !! Ptr (m_eventMetadataDesc e) = mem s !! Ptr (m_eventMetadataDesc e).

Section Notions.

Context (K : Kernel).

(** The bytes of a field's value as [CreateTraceProperty] sizes and reads
    them in state [s]. *)
Definition field_bytes (s : machine) (fieldType fieldValue : Z) : option (list Z) :=
  match (n <- SizeOfField K fieldType (field_pointer fieldType fieldValue) ;;
         load K (field_pointer fieldType fieldValue) n) s with
  | Done bs _ => Some bs
  | Undefined => None
  end.

(** The states the module can be in: it is loaded with an empty cache,
    [EtwTrace] is called, and in between the rest of the system does what
    it likes (the interrupt level changes, callers and other drivers
    create, change and free objects) as long as it leaves the provider
    cache and the metadata objects of the cached providers alone. *)
Inductive reachable : machine -> Prop :=
| reachable_boot s :
    g_ProviderCache s = [] -> reachable s
| reachable_EtwTrace s providerName providerGuid eventName eventLevel keyword
    fields status s' :
    reachable s ->
    EtwTrace K providerName providerGuid eventName eventLevel keyword fields s
    = Done status s' ->
    reachable s'
| reachable_elsewhere s s' :
    reachable s ->
    g_ProviderCache s' = g_ProviderCache s ->
    (forall this, this ∈ g_ProviderCache s -> metadata_kept this s s') ->
    reachable s'.

(** A provider together with the event names that have been passed to its
    [AddEvent], newest first.  Between the calls the machine may change in
    any way that leaves the provider's metadata objects alone. *)
Inductive provider_history : list (list Z) -> EtwProvider -> machine -> Prop :=
| history_new providerGuid h d s :
    provider_history [] (mkProvider providerGuid h d []) s
| history_AddEvent names this s eventName fields status this' s' :
    provider_history names this s ->
    EtwProvider_AddEvent K eventName fields this s = Done (status, this') s' ->
    provider_history (eventName :: names) this' s'
| history_elsewhere names this s s' :
    provider_history names this s -> metadata_kept this s s' ->
    provider_history names this s'.

End Notions.

(** Memory has only grown and the provider cache is the same. *)
Definition frame (s s' : machine) : Prop :=
  mem s ⊆ mem s' /\ g_ProviderCache s' = g_ProviderCache s.

(** Every provider in the cache has builders of distinct names. *)
Definition cache_unique (s : machine) : Prop :=
  forall this, this ∈ g_ProviderCache s -> names_unique s this.

(** A data descriptor [d] made for the field [f] between the states [s]
    and [s']: it points at an object that did not exist in [s] and holds
    the bytes of the field's value, and its size is their number. *)
Definition field_described (K : Kernel) (s s' : machine) (f : list Z * Z * Z)
    (d : EVENT_DATA_DESCRIPTOR) : Prop :=
  let '(_, fieldType, fieldValue) := f in
  Ptr d <> NULL /\ mem s !! Ptr d = None /\ Type' d = 0 /\
  exists bs, field_bytes K s' fieldType fieldValue = Some bs
             /\ mem s' !! Ptr d = Some bs
             /\ Size d = ULONG (Z.of_nat (length bs)).

(** ** Sample inputs *)

(** The bytes of a string literal. *)
Definition ascii_bytes (s : string) : list Z :=
  (fun a => Z.of_N (Ascii.N_of_ascii a)) <$> String.list_ascii_of_string s.

(** The state in which a call has ended. *)
Definition state_after {A} (o : outcome A) (otherwise : machine) : machine :=
  match o with
  | Done _ s => s
  | Undefined => otherwise
  end.

(** A kernel that grants every pool request and whose ETW primitives
    succeed; [EtwRegister] hands out the handle 77. *)
Definition sample_kernel : Kernel :=
  mkKernel (fun _ _ => true) (fun _ => [0xCD; 0xCD; 0xCD; 0xCD])
    [0x11; 0x22; 0x33; 0x44; 0x55; 0x66; 0x77; 0x88]
    (fun _ _ => (STATUS_SUCCESS, 77))
    (fun _ _ _ _ _ => STATUS_SUCCESS)
    (fun _ _ _ _ _ => STATUS_SUCCESS).

(** A kernel whose [EtwRegister] fails. *)
Definition unregistering_kernel : Kernel :=
  mkKernel (fun _ _ => true) (fun _ => [])
    []
    (fun _ _ => (STATUS_UNSUCCESSFUL, 0))
    (fun _ _ _ _ _ => STATUS_SUCCESS)
    (fun _ _ _ _ _ => STATUS_SUCCESS).

Definition sample_guid : GUID :=
  mkGUID 0x12345678 0x1234 0x5678 [1; 2; 3; 4; 5; 6; 7; 8].

(** The module has just been loaded; the caller owns the string "hi" at
    address 1000. *)
Definition sample_boot : machine :=
  Machine PASSIVE_LEVEL {[1000 := ascii_bytes "hi" ++ [0]]} 0 [] [].

Definition sample_fields : va_list :=
  [(ascii_bytes "UserId", EtwFieldUInt32, 42)].

(** The state after
    [EtwTrace("Contoso", guid, "UserLogin", 4, 0x1, 1, "UserId", EtwFieldUInt32, 42)]
    and the provider it has cached. *)
Definition sample_traced : machine :=
  state_after
    (EtwTrace sample_kernel (ascii_bytes "Contoso") sample_guid
       (ascii_bytes "UserLogin") 4 1 sample_fields sample_boot)
    sample_boot.

Definition sample_provider : EtwProvider :=
  nth 0 (g_ProviderCache sample_traced) (EtwProvider_new sample_guid).

Definition sample_descriptor : EVENT_DESCRIPTOR := CreateEventDescriptor 1 4.

(** An event name of 65533 characters and a provider name of 65533
    characters. *)
Definition long_name : list Z := replicate (Z.to_nat 65533) 65.

(** The state after a further
    [WriteEvent("UserLogin", ..., 1, "UserId", EtwFieldUInt32, 42)]. *)
Definition sample_written : machine :=
  state_after
    (EtwProvider_WriteEvent sample_kernel (ascii_bytes "UserLogin") sample_descriptor
       sample_fields sample_provider sample_traced)
    sample_traced.

(** A field of a type that [SizeOfField] has no case for, and the state
    after writing it. *)
Definition pointer_fields : va_list :=
  [(ascii_bytes "Where", EtwFieldPointer, 5)].

Definition sample_pointer_written : machine :=
  state_after
    (EtwProvider_WriteEvent sample_kernel (ascii_bytes "UserLogin") sample_descriptor
       pointer_fields sample_provider sample_traced)
    sample_traced.

(** A string field whose value is the address of the caller's "hi", and
    the state after writing it. *)
Definition string_fields : va_list :=
  [(ascii_bytes "Greeting", EtwFieldAnsiString, 1000)].

Definition sample_string_written : machine :=
  state_after
    (EtwProvider_WriteEvent sample_kernel (ascii_bytes "UserLogin") sample_descriptor
       string_fields sample_provider sample_traced)
    sample_traced.

(** The provider and the state after [AddEvent("UserLogin", ...)] on a
    new provider in the sample boot state. *)
Definition sample_added_provider : EtwProvider :=
  set_m_events
    [mkEvent (mkDataDesc (fresh_address (mem sample_boot))
                (Z.of_nat (serialized_length (ascii_bytes "UserLogin") sample_fields))
                EVENT_DATA_DESCRIPTOR_TYPE_EVENT_METADATA)]
    (EtwProvider_new sample_guid).

Definition sample_added : machine :=
  allocated (fresh_address (mem sample_boot))
    (event_metadata_bytes (ascii_bytes "UserLogin") sample_fields) sample_boot.

(** ** Teardown *)

(** [ExFreePool(p)]: the object at [p] is gone; undefined when there is
    no object at [p]. *)
Definition ExFreePool (p : Z) : M unit := fun s =>
  match mem s !! p with
  | Some _ => Done tt (set_mem (delete p (mem s)) s)
  | None => Undefined
  end.

(** [EtwProviderEvent::Destruct()]; the descriptor is left as it is. *)
Definition EtwProviderEvent_Destruct (this : EtwProviderEvent) : M unit :=
  if negb (Ptr (m_eventMetadataDesc this) =? NULL)
  then ExFreePool (Ptr (m_eventMetadataDesc this))
  else ret tt.

(** The loop of [EtwProvider::Destruct] over [m_events]. *)
Fixpoint destruct_events (events : list EtwProviderEvent) : M unit :=
  match events with
  | [] => ret tt
  | e :: rest => EtwProviderEvent_Destruct e ;;; destruct_events rest
  end.

(** [EtwProvider::Destruct()]. The result lists the handles passed to
    [EtwUnregister], whose status the code ignores. [m_events.Destruct()]
    releases the storage of the vector itself, which is no object of the
    memory here. *)
Definition EtwProvider_Destruct (this : EtwProvider) : M (list Z) :=
  destruct_events (m_events this) ;;;
  let unregistered :=
    if negb (m_regHandle this =? 0) then [m_regHandle this] else [] in
  (if negb (Ptr (m_providerMetadataDesc this) =? NULL)
   then ExFreePool (Ptr (m_providerMetadataDesc this))
   else ret tt) ;;;
  ret unregistered.

(** ** Further notions *)

(** No two providers of the cache have matching identifiers. *)
Definition guids_distinct (cache : list EtwProvider) : Prop :=
  forall i j p q,
    cache !! i = Some p -> cache !! j = Some q ->
    guid_matches (m_guid p) (m_guid q) = true -> i = j.

(** The builder's descriptor points at a metadata object as [Initialize]
    makes it for some event name and field list, and carries its length
    and the metadata mark. *)
Definition builder_well_formed (s : machine) (e : EtwProviderEvent) : Prop :=
  exists eventName fields,
    Z.of_nat (serialized_length eventName fields) < 65536
    /\ Ptr (m_eventMetadataDesc e) <> NULL
    /\ mem s !! Ptr (m_eventMetadataDesc e) = Some (event_metadata_bytes eventName fields)
    /\ Size (m_eventMetadataDesc e) = Z.of_nat (serialized_length eventName fields)
    /\ Type' (m_eventMetadataDesc e) = EVENT_DATA_DESCRIPTOR_TYPE_EVENT_METADATA.

(** A kernel that grants every pool request and whose ETW primitives
    always return [STATUS_SUCCESS]. *)
Definition well_behaved (K : Kernel) : Prop :=
  (forall k n, pool_grants K k n = true)
  /\ (forall calls g, (EtwRegister_returns K calls g).1 = STATUS_SUCCESS)
  /\ (forall calls h c info len,
        EtwSetInformation_returns K calls h c info len = STATUS_SUCCESS)
  /\ (forall calls h ed n data, EtwWrite_returns K calls h ed n data = STATUS_SUCCESS).

(** Every field of the list can be sized and read in [s]. *)
Definition fields_readable (K : Kernel) (s : machine) (fields : va_list) : Prop :=
  forall fieldName fieldType fieldValue,
    (fieldName, fieldType, fieldValue) ∈ fields ->
    is_Some (field_bytes K s fieldType fieldValue).

(** The provider [p'] is [p] with builders added at the end. *)
Definition provider_extends (p p' : EtwProvider) : Prop :=
  m_guid p' = m_guid p /\ m_regHandle p' = m_regHandle p
  /\ m_providerMetadataDesc p' = m_providerMetadataDesc p
  /\ m_events p `prefix_of` m_events p'.

(** Every builder of every cached provider is well formed. *)
Definition cache_well_formed (s : machine) : Prop :=
  forall this e, this ∈ g_ProviderCache s -> e ∈ m_events this ->
    builder_well_formed s e.

(** The addresses in the metadata descriptors of the provider's builders. *)
Definition builder_pointers (this : EtwProvider) : list Z :=
  (fun e => Ptr (m_eventMetadataDesc e)) <$> m_events this.

(** The addresses that [EtwProvider::Destruct] passes to [ExFreePool]. *)
Definition freed_by_Destruct (this : EtwProvider) : list Z :=
  builder_pointers this
  ++ (if Ptr (m_providerMetadataDesc this) =? NULL then []
      else [Ptr (m_providerMetadataDesc this)]).

(** The provider's descriptors point at live objects, each at one of its
    own. *)
Definition provider_owns (s : machine) (this : EtwProvider) : Prop :=
  NoDup (freed_by_Destruct this)
  /\ forall q, q ∈ freed_by_Destruct this -> q <> NULL /\ is_Some (mem s !! q).

(** A provider made by a successful [Initialize] in state [s0] and any
    number of calls of [AddEvent], and the state it is in. *)
Inductive provider_built (K : Kernel) (s0 : machine) : EtwProvider -> machine -> Prop :=
| built_Initialize providerName providerGuid this s :
    EtwProvider_Initialize K providerName (EtwProvider_new providerGuid) s0
    = Done (STATUS_SUCCESS, this) s ->
    provider_built K s0 this s
| built_AddEvent this s eventName fields status this' s' :
    provider_built K s0 this s ->
    EtwProvider_AddEvent K eventName fields this s = Done (status, this') s' ->
    provider_built K s0 this' s'.

(** ** Further sample inputs *)

(** The builder that [Initialize("UserLogin", ...)] makes in the sample
    boot state. *)
Definition sample_event : EtwProviderEvent :=
  mkEvent (mkDataDesc (fresh_address (mem sample_boot))
             (Z.of_nat (serialized_length (ascii_bytes "UserLogin") sample_fields))
             EVENT_DATA_DESCRIPTOR_TYPE_EVENT_METADATA).

(** The provider and the state after [Initialize("Contoso")] on a new
    provider in the sample boot state. *)
Definition sample_initialized_provider : EtwProvider :=
  mkProvider sample_guid 77
    (mkDataDesc (fresh_address (mem sample_boot)) 10
       EVENT_DATA_DESCRIPTOR_TYPE_PROVIDER_METADATA) [].

Definition sample_initialized : machine :=
  state_after
    (EtwProvider_Initialize sample_kernel (ascii_bytes "Contoso")
       (EtwProvider_new sample_guid) sample_boot)
    sample_boot.

(** A kernel whose pool denies every request. *)
Definition denying_kernel : Kernel :=
  mkKernel (fun _ _ => false) (fun _ => [])
    []
    (fun _ _ => (STATUS_SUCCESS, 77))
    (fun _ _ _ _ _ => STATUS_SUCCESS)
    (fun _ _ _ _ _ => STATUS_SUCCESS).

(** The state after the sample call of [EtwTrace] has been made a second
    time. *)
Definition sample_traced_again : machine :=
  state_after
    (EtwTrace sample_kernel (ascii_bytes "Contoso") sample_guid
       (ascii_bytes "UserLogin") 4 1 sample_fields sample_traced)
    sample_traced.

(** A string type with a flag in the second byte. *)
Definition flagged_string_type : Z := Z.lor EtwFieldAnsiString 0x100.

(** A second identifier, and the state after a call of [EtwTrace] with it
    has followed the sample call. *)
Definition other_guid : GUID :=
  mkGUID 0x9ABCDEF0 0x1234 0x5678 [1; 2; 3; 4; 5; 6; 7; 8].

Definition sample_two_traced : machine :=
  state_after
    (EtwTrace sample_kernel (ascii_bytes "Fabrikam") other_guid
       (ascii_bytes "UserLogout") 4 1 sample_fields sample_traced)
    sample_traced.

Definition other_provider : EtwProvider :=
  nth 1 (g_ProviderCache sample_two_traced) (EtwProvider_new other_guid).

(** The provider and the state after [AddEvent("UserLogin", ...)] on the
    initialized sample provider. *)
Definition sample_built_provider : EtwProvider :=
  set_m_events
    [mkEvent (mkDataDesc (fresh_address (mem sample_initialized))
                (Z.of_nat (serialized_length (ascii_bytes "UserLogin") sample_fields))
                EVENT_DATA_DESCRIPTOR_TYPE_EVENT_METADATA)]
    sample_initialized_provider.

Definition sample_built : machine :=
  state_after
    (EtwProvider_AddEvent sample_kernel (ascii_bytes "UserLogin") sample_fields
       sample_initialized_provider sample_initialized)
    sample_initialized.

(** The builder that the sample call of [EtwTrace] has cached. *)
Definition sample_event_traced : EtwProviderEvent :=
  nth 0 (m_events sample_provider) EtwProviderEvent_new.

(** * Properties *)

(** ** Integers and strings *)

Lemma le_value_le_bytes_2 (v : Z) : le_value (le_bytes 2 v) = uint16_t v.
Proof.
  unfold uint16_t. cbn [le_bytes le_value].
  change (2 ^ 16) with (256 * 256).
  rewrite Z.rem_mul_r by lia. lia.
Qed.

Lemma length_le_bytes (n : nat) (v : Z) : length (le_bytes n v) = n.
Proof. revert v. induction n as [|n IH]; intros v; simpl; [done | by rewrite IH]. Qed.

Lemma uint16_t_small (v : Z) : 0 <= v < 65536 -> uint16_t v = v.
Proof. intros H. unfold uint16_t. apply Z.mod_small. lia. Qed.

Lemma uint16_t_range (v : Z) : 0 <= uint16_t v < 65536.
Proof. unfold uint16_t. apply Z.mod_pos_bound. lia. Qed.

Lemma uint16_t_add (a b : Z) : uint16_t (uint16_t a + uint16_t b) = uint16_t (a + b).
Proof. unfold uint16_t. by rewrite <- Zplus_mod. Qed.

Lemma uint16_t_le (v : Z) : 0 <= v -> uint16_t v <= v.
Proof. intros H. unfold uint16_t. apply Z.mod_le; lia. Qed.

Lemma strlen_le (s : list Z) : (strlen s <= length s)%nat.
Proof. induction s as [|c s IH]; simpl; [lia|]. destruct (c =? 0); lia. Qed.

Lemma length_c_str (s : list Z) : length (c_str s) = strlen s.
Proof. unfold c_str. rewrite length_take. pose proof (strlen_le s). lia. Qed.

Lemma c_str_cons (c : Z) (s : list Z) :
  c_str (c :: s) = if c =? 0 then [] else c :: c_str s.
Proof. unfold c_str. simpl. by destruct (c =? 0). Qed.

Lemma strlen_c_str_app (s r : list Z) : strlen (c_str s ++ 0 :: r) = strlen s.
Proof.
  induction s as [|c s IH]; [done|].
  rewrite c_str_cons. simpl. destruct (c =? 0) eqn:E; simpl; [done|].
  by rewrite E, IH.
Qed.

Lemma c_str_c_str_app (s r : list Z) : c_str (c_str s ++ 0 :: r) = c_str s.
Proof.
  unfold c_str at 1. rewrite strlen_c_str_app.
  rewrite <- (length_c_str s). by rewrite take_app_length.
Qed.

Lemma has_nul_c_str_app (s r : list Z) : has_nul (c_str s ++ 0 :: r) = true.
Proof.
  unfold has_nul. rewrite existsb_app. simpl. apply orb_true_r.
Qed.

Lemma take_strlen_succ (r : list Z) :
  has_nul r = true -> take (strlen r + 1) r = c_str r ++ [0].
Proof.
  unfold has_nul. induction r as [|c r IH]; [done|].
  rewrite c_str_cons. simpl.
  destruct (c =? 0) eqn:E; simpl.
  - intros _. apply Z.eqb_eq in E. subst c. by rewrite take_0.
  - intros H. f_equal. by apply IH.
Qed.

Lemma strcmp_c_str (a b : list Z) : strcmp a b = 0 <-> c_str a = c_str b.
Proof.
  revert b. induction a as [|c a IH]; intros b.
  - destruct b as [|d b]; simpl; [done|].
    rewrite c_str_cons. unfold c_str at 1. simpl.
    destruct (d =? 0) eqn:E; split; intros H; try done; lia.
  - simpl. rewrite c_str_cons.
    destruct b as [|d b]; simpl.
    + unfold c_str at 2. simpl. destruct (c =? 0) eqn:E; split; intros H; try done; lia.
    + rewrite c_str_cons.
      destruct (c =? d) eqn:Ecd.
      * apply Z.eqb_eq in Ecd. subst d.
        destruct (c =? 0) eqn:E; [done|].
        rewrite IH. split; intros H; [by f_equal | by injection H].
      * apply Z.eqb_neq in Ecd.
        destruct (Z.eqb_spec c 0), (Z.eqb_spec d 0); split; intros H;
          try done; try lia; injection H; lia.
Qed.

(** ** Running the monad *)

Lemma bind_Done {A B} (m : M A) (k : A -> M B) (s : machine) (b : B) (s' : machine) :
  bind m k s = Done b s' <-> exists a s1, m s = Done a s1 /\ k a s1 = Done b s'.
Proof.
  unfold bind. destruct (m s) as [a s1|]; split.
  - intros H. by exists a, s1.
  - intros (a' & s1' & [= -> ->] & H). done.
  - done.
  - by intros (a' & s1' & H & _).
Qed.

Lemma bind_eq {A B} (m : M A) (k : A -> M B) (s : machine) (a : A) (s1 : machine) :
  m s = Done a s1 -> bind m k s = k a s1.
Proof. intros H. unfold bind. by rewrite H. Qed.

(** ** Memory *)

Lemma fresh_address_not_NULL (m : gmap Z (list Z)) : fresh_address m <> NULL.
Proof.
  unfold fresh_address. pose proof (is_fresh ({[NULL]} ∪ dom m)) as H.
  set_solver.
Qed.

Lemma fresh_address_unused (m : gmap Z (list Z)) : m !! fresh_address m = None.
Proof.
  unfold fresh_address. pose proof (is_fresh ({[NULL]} ∪ dom m)) as H.
  apply not_elem_of_dom. set_solver.
Qed.

Lemma fresh_address_eqb (m : gmap Z (list Z)) : (fresh_address m =? NULL) = false.
Proof. apply Z.eqb_neq, fresh_address_not_NULL. Qed.

Lemma set_mem_id (s : machine) : set_mem (mem s) s = s.
Proof. by destruct s. Qed.

Lemma updated_id (p : Z) (obj : list Z) (s : machine) :
  mem s !! p = Some obj -> updated p obj s = s.
Proof. intros H. unfold updated. rewrite insert_id by done. apply set_mem_id. Qed.

Lemma updated_updated (p : Z) (o1 o2 : list Z) (s : machine) :
  updated p o2 (updated p o1 s) = updated p o2 s.
Proof. unfold updated, set_mem. simpl. by rewrite insert_insert_eq. Qed.

Lemma updated_allocated (p : Z) (o1 o2 : list Z) (s : machine) :
  updated p o2 (allocated p o1 s) = allocated p o2 s.
Proof.
  unfold allocated, updated, set_pool_requests, set_mem. simpl.
  by rewrite insert_insert_eq.
Qed.

Lemma lookup_updated (p : Z) (obj : list Z) (s : machine) :
  mem (updated p obj s) !! p = Some obj.
Proof. unfold updated. simpl. apply lookup_insert_eq. Qed.

Lemma lookup_allocated (p : Z) (obj : list Z) (s : machine) :
  mem (allocated p obj s) !! p = Some obj.
Proof. unfold allocated, updated. simpl. apply lookup_insert_eq. Qed.

Lemma lookup_allocated_ne (p q : Z) (obj : list Z) (s : machine) :
  p <> q -> mem (allocated p obj s) !! q = mem s !! q.
Proof. intros H. unfold allocated, updated. simpl. by apply lookup_insert_ne. Qed.

(** Allocation only adds an object at an unused address. *)
Lemma allocated_fresh_subseteq (obj : list Z) (s : machine) :
  mem s ⊆ mem (allocated (fresh_address (mem s)) obj s).
Proof. unfold allocated, updated. simpl. apply insert_subseteq, fresh_address_unused. Qed.

Section Memory.

Context (K : Kernel).

Lemma ExAllocatePoolWithTag_granted (n : nat) (s : machine) :
  pool_grants K (pool_requests s) n = true ->
  ExAllocatePoolWithTag K n s
  = Done (fresh_address (mem s))
      (allocated (fresh_address (mem s)) (resize n 0 (pool_garbage K (pool_requests s))) s).
Proof. intros H. unfold ExAllocatePoolWithTag. by rewrite H. Qed.

Lemma ExAllocatePoolWithTag_denied (n : nat) (s : machine) :
  pool_grants K (pool_requests s) n = false ->
  ExAllocatePoolWithTag K n s = Done NULL (denied s).
Proof. intros H. unfold ExAllocatePoolWithTag. by rewrite H. Qed.

(** Writing right behind the first [offset] bytes of an object. *)
Lemma poke_at (p : Z) (offset : nat) (pre bs tail : list Z) (s : machine) :
  mem s !! p = Some (pre ++ tail) -> offset = length pre ->
  poke p offset bs s
  = if (length bs <=? length tail)%nat
    then Done tt (updated p ((pre ++ bs) ++ drop (length bs) tail) s)
    else Undefined.
Proof.
  intros Hp ->. unfold poke. rewrite Hp, length_app.
  destruct (Nat.leb_spec (length bs) (length tail)) as [Hle|Hgt].
  - replace (length pre + length bs <=? length pre + length tail)%nat with true
      by (symmetry; apply Nat.leb_le; lia).
    rewrite take_app_length, drop_app_add, <- app_assoc. done.
  - replace (length pre + length bs <=? length pre + length tail)%nat with false
      by (symmetry; apply Nat.leb_gt; lia).
    done.
Qed.

Lemma bind_poke {B} (p : Z) (offset : nat) (pre bs tail : list Z) (s : machine)
    (k : unit -> M B) :
  mem s !! p = Some (pre ++ tail) -> offset = length pre ->
  bind (poke p offset bs) k s
  = if (length bs <=? length tail)%nat
    then k tt (updated p ((pre ++ bs) ++ drop (length bs) tail) s)
    else Undefined.
Proof.
  intros Hp Ho. unfold bind. rewrite (poke_at p offset pre bs tail s Hp Ho).
  by destruct (length bs <=? length tail)%nat.
Qed.

Lemma poke_0 (p : Z) (bs tail : list Z) (s : machine) :
  mem s !! p = Some tail ->
  poke p 0 bs s
  = if (length bs <=? length tail)%nat
    then Done tt (updated p (bs ++ drop (length bs) tail) s)
    else Undefined.
Proof. intros Hp. by rewrite (poke_at p 0 [] bs tail s Hp eq_refl). Qed.

Lemma bind_poke_0 {B} (p : Z) (bs tail : list Z) (s : machine) (k : unit -> M B) :
  mem s !! p = Some tail ->
  bind (poke p 0 bs) k s
  = if (length bs <=? length tail)%nat
    then k tt (updated p (bs ++ drop (length bs) tail) s)
    else Undefined.
Proof. intros Hp. by rewrite (bind_poke p 0 [] bs tail s k Hp eq_refl). Qed.

Lemma peek_at (p : Z) (offset n : nat) (pre bs tail : list Z) (s : machine) :
  mem s !! p = Some (pre ++ bs ++ tail) -> offset = length pre -> n = length bs ->
  peek p offset n s = Done bs s.
Proof.
  intros Hp -> ->. unfold peek. rewrite Hp, !length_app.
  replace (length pre + length bs <=? length pre + (length bs + length tail))%nat
    with true by (symmetry; apply Nat.leb_le; lia).
  by rewrite drop_app_length, take_app_length.
Qed.

Lemma length_fields_metadata (fields : va_list) :
  length (fields_metadata fields) = fields_length fields.
Proof.
  induction fields as [|[[n t] v] rest IH]; [done|].
  simpl. rewrite !length_app, length_c_str, IH. simpl. lia.
Qed.

(** The second loop of [Initialize] writes the field metadata right
    behind what has been written, when it fits into the object. *)
Lemma write_fields_at (fields : va_list) (p : Z) (cur : nat) (pre tail : list Z)
    (s : machine) :
  mem s !! p = Some (pre ++ tail) -> cur = length pre ->
  write_fields p fields cur s
  = if (fields_length fields <=? length tail)%nat
    then Done tt (updated p ((pre ++ fields_metadata fields)
                             ++ drop (fields_length fields) tail) s)
    else Undefined.
Proof.
  revert cur pre tail s.
  induction fields as [|[[n t] v] rest IH]; intros cur pre tail s Hp Hcur.
  - simpl. rewrite app_nil_r, drop_0. by rewrite updated_id.
  - cbn [write_fields fields_length fields_metadata field_metadata].
    unfold strcpy.
    rewrite (bind_poke p cur pre _ tail s _ Hp Hcur).
    rewrite length_app, length_c_str. cbn [length].
    destruct (Nat.leb_spec (strlen n + 1) (length tail)) as [H1|H1]; cycle 1.
    { destruct (Nat.leb_spec (strlen n + 1 + 1 + fields_length rest) (length tail));
        [lia | done]. }
    rewrite (bind_poke p _ (pre ++ c_str n ++ [0]) _
               (drop (strlen n + 1) tail) _ _ (lookup_updated _ _ _)); cycle 1.
    { rewrite !length_app, length_c_str. simpl. lia. }
    rewrite updated_updated, length_drop. cbn [length].
    destruct (Nat.leb_spec 1 (length tail - (strlen n + 1))) as [H2|H2]; cycle 1.
    { destruct (Nat.leb_spec (strlen n + 1 + 1 + fields_length rest) (length tail));
        [lia | done]. }
    rewrite (IH _ ((pre ++ c_str n ++ [0]) ++ [uint8_t t])
               (drop 1 (drop (strlen n + 1) tail)) _ (lookup_updated _ _ _)); cycle 1.
    { rewrite !length_app, length_c_str. simpl. lia. }
    rewrite updated_updated, !length_drop.
    destruct (Nat.leb_spec (fields_length rest) (length tail - (strlen n + 1) - 1)),
             (Nat.leb_spec (strlen n + 1 + 1 + fields_length rest) (length tail));
      try lia; [|done].
    do 2 f_equal. rewrite !drop_drop, <- !app_assoc. simpl.
    by replace (strlen n + 1 + S (fields_length rest))%nat
      with (strlen n + 1 + 1 + fields_length rest)%nat by lia.
Qed.

End Memory.

(** ** The event metadata *)

(** A write does not fit: then the length does not fit into 16 bits. *)
Ltac overrun :=
  match goal with
  | |- context [Z.of_nat ?n <? 65536] =>
      destruct (Z.ltb_spec (Z.of_nat n) 65536); [lia | done]
  end.

Section Metadata.

Context (K : Kernel).

Lemma measure_fields_eq (fields : va_list) (a : Z) :
  measure_fields fields (uint16_t a) = uint16_t (a + Z.of_nat (fields_length fields)).
Proof.
  revert a. induction fields as [|[[n t] v] rest IH]; intros a.
  - simpl. f_equal. lia.
  - cbn [measure_fields fields_length]. rewrite uint16_t_add, IH. f_equal. lia.
Qed.

(** The measured length is the length by the names, reduced to 16 bits. *)
Lemma eventMetadataLength_eq (eventName : list Z) (fields : va_list) :
  eventMetadataLength eventName fields
  = uint16_t (Z.of_nat (serialized_length eventName fields)).
Proof.
  unfold eventMetadataLength, serialized_length, eventMetadataHeaderLength.
  rewrite measure_fields_eq. f_equal. lia.
Qed.

Lemma length_event_metadata_bytes (eventName : list Z) (fields : va_list) :
  length (event_metadata_bytes eventName fields) = serialized_length eventName fields.
Proof.
  unfold event_metadata_bytes, serialized_length.
  rewrite !length_app, length_le_bytes, length_c_str, length_fields_metadata.
  simpl. lia.
Qed.

Lemma eventMetadataLength_fits (eventName : list Z) (fields : va_list) :
  (serialized_length eventName fields <=
     Z.to_nat (eventMetadataLength eventName fields))%nat
  <-> Z.of_nat (serialized_length eventName fields) < 65536.
Proof.
  rewrite eventMetadataLength_eq.
  pose proof (uint16_t_range (Z.of_nat (serialized_length eventName fields))).
  split; intros H'.
  - lia.
  - rewrite uint16_t_small by lia. lia.
Qed.

Lemma EtwProviderEvent_Initialize_eq (eventName : list Z) (fields : va_list)
    (this : EtwProviderEvent) (s : machine) :
  EtwProviderEvent_Initialize K eventName fields this s
  = if pool_grants K (pool_requests s) (Z.to_nat (eventMetadataLength eventName fields))
    then
      if Z.of_nat (serialized_length eventName fields) <? 65536
      then Done (STATUS_SUCCESS,
                 mkEvent (mkDataDesc (fresh_address (mem s))
                            (Z.of_nat (serialized_length eventName fields))
                            EVENT_DATA_DESCRIPTOR_TYPE_EVENT_METADATA))
                (allocated (fresh_address (mem s))
                   (event_metadata_bytes eventName fields) s)
      else Undefined
    else Done (STATUS_UNSUCCESSFUL, this) (denied s).
Proof.
  unfold EtwProviderEvent_Initialize.
  pose proof (eventMetadataLength_fits eventName fields) as Hfit.
  pose proof (eventMetadataLength_eq eventName fields) as Hlen.
  pose proof (uint16_t_range (Z.of_nat (serialized_length eventName fields))) as Hr.
  set (len := eventMetadataLength eventName fields) in *.
  set (n := Z.to_nat len) in *.
  set (p := fresh_address (mem s)).
  assert (Hser : serialized_length eventName fields
                 = (2 + 1 + (strlen eventName + 1) + fields_length fields)%nat)
    by (unfold serialized_length; lia).
  destruct (pool_grants K (pool_requests s) n) eqn:G; cycle 1.
  { rewrite (bind_eq _ _ _ _ _ (ExAllocatePoolWithTag_denied K n s G)). done. }
  rewrite (bind_eq _ _ _ _ _ (ExAllocatePoolWithTag_granted K n s G)).
  fold p. unfold p at 1. rewrite fresh_address_eqb. unfold memset.
  (* memset *)
  rewrite (bind_poke_0 p _ _ _ _ (lookup_allocated _ _ _)).
  rewrite length_replicate, length_resize, Nat.leb_refl, updated_allocated.
  rewrite drop_ge by (rewrite length_resize; lia).
  rewrite app_nil_r.
  (* TotalLength *)
  rewrite (bind_poke_0 p _ _ _ _ (lookup_allocated _ _ _)).
  rewrite length_le_bytes, length_replicate, updated_allocated, drop_replicate.
  destruct (Nat.leb_spec 2 n) as [H2|H2]; cycle 1.
  { overrun. }
  (* Tag *)
  rewrite (bind_poke p _ (le_bytes 2 len) _ _ _ _ (lookup_allocated _ _ _));
    [|by rewrite length_le_bytes].
  rewrite length_replicate, updated_allocated, drop_replicate. cbn [length].
  destruct (Nat.leb_spec 1 (n - 2)) as [H3|H3]; cycle 1.
  { overrun. }
  (* EventName *)
  unfold strcpy.
  rewrite (bind_poke p _ (le_bytes 2 len ++ [0]) _ _ _ _ (lookup_allocated _ _ _));
    [|by rewrite !length_app, length_le_bytes].
  rewrite length_replicate, updated_allocated, drop_replicate.
  rewrite length_app, length_c_str. cbn [length].
  destruct (Nat.leb_spec (strlen eventName + 1) (n - 2 - 1)) as [H4|H4]; cycle 1.
  { overrun. }
  (* the fields *)
  unfold bind at 1.
  rewrite (write_fields_at fields p _
             ((le_bytes 2 len ++ [0]) ++ c_str eventName ++ [0]) _ _
             (lookup_allocated _ _ _)); cycle 1.
  { unfold eventMetadataHeaderLength.
    rewrite !length_app, length_le_bytes, length_c_str. simpl. lia. }
  rewrite length_replicate, updated_allocated, drop_replicate.
  destruct (Nat.leb_spec (fields_length fields) (n - 2 - 1 - (strlen eventName + 1)))
    as [H5|H5]; cycle 1.
  { overrun. }
  assert (Hlt : Z.of_nat (serialized_length eventName fields) < 65536) by (apply Hfit; lia).
  destruct (Z.ltb_spec (Z.of_nat (serialized_length eventName fields)) 65536); [|lia].
  assert (Hn : n = serialized_length eventName fields).
  { unfold n. rewrite Hlen, uint16_t_small by lia. lia. }
  replace (n - 2 - 1 - (strlen eventName + 1) - fields_length fields)%nat with O by lia.
  cbn [replicate]. rewrite app_nil_r.
  replace (((le_bytes 2 len ++ [0]) ++ c_str eventName ++ [0]) ++ fields_metadata fields)
    with (event_metadata_bytes eventName fields)
    by (unfold event_metadata_bytes; by rewrite <- !app_assoc).
  (* reading TotalLength back *)
  rewrite (bind_eq _ _ _ (le_bytes 2 len)
             (allocated p (event_metadata_bytes eventName fields) s)).
  - unfold ret. cbn [EventDataDescCreate Ptr Size].
    rewrite le_value_le_bytes_2. subst len. rewrite Hlen.
    rewrite !uint16_t_small by lia. done.
  - apply (peek_at p 0 2 [] (le_bytes 2 len)
             ([0] ++ (c_str eventName ++ [0]) ++ fields_metadata fields));
      [apply lookup_allocated | done | by rewrite length_le_bytes].
Qed.

(** When the length by the names does not fit into 16 bits and the pool
    grants the request, [Initialize] writes past the allocation. *)
Lemma EtwProviderEvent_Initialize_overrun (eventName : list Z) (fields : va_list)
    (this : EtwProviderEvent) (s : machine) :
  65536 <= Z.of_nat (serialized_length eventName fields) ->
  pool_grants K (pool_requests s) (Z.to_nat (eventMetadataLength eventName fields)) = true ->
  EtwProviderEvent_Initialize K eventName fields this s = Undefined.
Proof.
  intros Hlong Hgrant. rewrite EtwProviderEvent_Initialize_eq, Hgrant.
  by destruct (Z.ltb_spec (Z.of_nat (serialized_length eventName fields)) 65536); [lia|].
Qed.

End Metadata.

Lemma peek_all (p : Z) (n : nat) (obj : list Z) (s : machine) :
  mem s !! p = Some obj -> n = length obj -> peek p 0 n s = Done obj s.
Proof.
  intros Hp Hn. apply (peek_at p 0 n [] obj []); [|done..].
  by rewrite app_nil_r.
Qed.

Section ProviderMetadata.

Context (K : Kernel).

Lemma length_provider_metadata_bytes (providerName : list Z) :
  length (provider_metadata_bytes providerName) = (strlen providerName + 1 + 2)%nat.
Proof.
  unfold provider_metadata_bytes.
  rewrite !length_app, length_le_bytes, length_c_str. simpl. lia.
Qed.

Lemma EtwSetInformation_eq (RegHandle InformationClass p len : Z) (obj : list Z)
    (s : machine) :
  mem s !! p = Some obj -> Z.to_nat len = length obj ->
  EtwSetInformation K RegHandle InformationClass p len s
  = Done (EtwSetInformation_returns K (etw_calls s) RegHandle InformationClass obj len)
      (set_etw_calls
         (Call_EtwSetInformation RegHandle InformationClass obj len :: etw_calls s) s).
Proof.
  intros Hp Hn. unfold EtwSetInformation.
  by rewrite (bind_eq _ _ _ _ _ (peek_all p _ obj s Hp Hn)).
Qed.

(** What [EtwProvider::Initialize] does, case by case. *)
Lemma EtwProvider_Initialize_eq (providerName : list Z) (this : EtwProvider) (s : machine) :
  EtwProvider_Initialize K providerName this s
  = let r := EtwRegister_returns K (etw_calls s) (m_guid this) in
    let s1 := set_etw_calls (Call_EtwRegister (m_guid this) :: etw_calls s) s in
    let this1 := set_m_regHandle r.2 this in
    let len := providerMetadataLength providerName in
    let p := fresh_address (mem s) in
    let traits := provider_metadata_bytes providerName in
    let status := EtwSetInformation_returns K (etw_calls s1) r.2
                    EventProviderSetTraits traits len in
    let s2 := set_etw_calls
                (Call_EtwSetInformation r.2 EventProviderSetTraits traits len
                   :: etw_calls s1) (allocated p traits s1) in
    if negb (r.1 =? STATUS_SUCCESS) then Done (r.1, this1) s1
    else if pool_grants K (pool_requests s) (Z.to_nat len)
    then
      if Z.of_nat (strlen providerName + 1 + 2) <? 65536
      then
        if negb (status =? STATUS_SUCCESS) then Done (status, this1) s2
        else Done (STATUS_SUCCESS,
                   set_m_providerMetadataDesc
                     (mkDataDesc p (Z.of_nat (strlen providerName + 1 + 2))
                        EVENT_DATA_DESCRIPTOR_TYPE_PROVIDER_METADATA) this1) s2
      else Undefined
    else Done (STATUS_UNSUCCESSFUL, this1) (denied s1).
Proof.
  cbv zeta. unfold EtwProvider_Initialize.
  unfold bind at 1. unfold EtwRegister at 1.
  destruct (EtwRegister_returns K (etw_calls s) (m_guid this)) as [st h] eqn:Hr.
  cbn [fst snd].
  set (s1 := set_etw_calls (Call_EtwRegister (m_guid this) :: etw_calls s) s).
  set (this1 := set_m_regHandle h this).
  destruct (negb (st =? STATUS_SUCCESS)) eqn:Hst; [done|].
  pose proof (uint16_t_range (Z.of_nat (strlen providerName + 1 + 2))) as Hrange.
  assert (Hlen : providerMetadataLength providerName
                 = uint16_t (Z.of_nat (strlen providerName + 1 + 2))) by done.
  set (len := providerMetadataLength providerName) in *.
  set (n := Z.to_nat len).
  change (pool_requests s) with (pool_requests s1).
  change (mem s) with (mem s1).
  set (p := fresh_address (mem s1)).
  destruct (pool_grants K (pool_requests s1) n) eqn:G; cycle 1.
  { rewrite (bind_eq _ _ _ _ _ (ExAllocatePoolWithTag_denied K n s1 G)). done. }
  rewrite (bind_eq _ _ _ _ _ (ExAllocatePoolWithTag_granted K n s1 G)).
  fold p. unfold p at 1. rewrite fresh_address_eqb. unfold memset.
  rewrite (bind_poke_0 p _ _ _ _ (lookup_allocated _ _ _)).
  rewrite length_replicate, length_resize, Nat.leb_refl, updated_allocated.
  rewrite drop_ge by (rewrite length_resize; lia).
  rewrite app_nil_r.
  rewrite (bind_poke_0 p _ _ _ _ (lookup_allocated _ _ _)).
  rewrite length_le_bytes, length_replicate, updated_allocated, drop_replicate.
  destruct (Nat.leb_spec 2 n) as [H2|H2]; cycle 1.
  { pose proof (uint16_t_small (Z.of_nat (strlen providerName + 1 + 2))). overrun. }
  unfold strcpy.
  rewrite (bind_poke p _ (le_bytes 2 len) _ _ _ _ (lookup_allocated _ _ _));
    [|by rewrite length_le_bytes].
  rewrite length_replicate, updated_allocated, drop_replicate.
  rewrite length_app, length_c_str. cbn [length].
  destruct (Nat.leb_spec (strlen providerName + 1) (n - 2)) as [H3|H3]; cycle 1.
  { pose proof (uint16_t_small (Z.of_nat (strlen providerName + 1 + 2))). overrun. }
  assert (Hlt : Z.of_nat (strlen providerName + 1 + 2) < 65536).
  { pose proof (uint16_t_le (Z.of_nat (strlen providerName + 1 + 2))). lia. }
  destruct (Z.ltb_spec (Z.of_nat (strlen providerName + 1 + 2)) 65536); [|lia].
  rewrite uint16_t_small in Hlen by lia.
  replace (n - 2 - (strlen providerName + 1))%nat with O by lia.
  cbn [replicate]. rewrite app_nil_r.
  change (le_bytes 2 len ++ c_str providerName ++ [0])
    with (provider_metadata_bytes providerName).
  rewrite (bind_eq _ _ _ _ _
             (EtwSetInformation_eq _ _ p len (provider_metadata_bytes providerName) _
                (lookup_allocated _ _ _)
                ltac:(rewrite length_provider_metadata_bytes; lia))).
  cbn [m_regHandle this1 set_m_regHandle].
  change (etw_calls (allocated p (provider_metadata_bytes providerName) s1))
    with (etw_calls s1).
  destruct (negb (EtwSetInformation_returns K _ _ _ _ _ =? STATUS_SUCCESS)); [done|].
  erewrite bind_eq; cycle 1.
  { apply (peek_at p 0 2 [] (le_bytes 2 len) (c_str providerName ++ [0]));
      [apply lookup_insert_eq | done | by rewrite length_le_bytes]. }
  unfold ret. cbn [EventDataDescCreate Ptr Size].
  rewrite le_value_le_bytes_2, Hlen, uint16_t_small by lia. done.
Qed.

End ProviderMetadata.

(** ** Looking up events *)

Lemma event_name_region_mono (s s' : machine) (e : EtwProviderEvent) (r : list Z) :
  mem s ⊆ mem s' -> event_name_region s e = Some r -> event_name_region s' e = Some r.
Proof.
  intros Hsub. unfold event_name_region.
  destruct (mem s !! Ptr (m_eventMetadataDesc e)) as [obj|] eqn:Hobj; [|done].
  by rewrite (lookup_weaken _ _ _ _ Hobj Hsub).
Qed.

Lemma event_name_mono (s s' : machine) (e : EtwProviderEvent) (n : list Z) :
  mem s ⊆ mem s' -> event_name s e = Some n -> event_name s' e = Some n.
Proof.
  intros Hsub. unfold event_name.
  destruct (event_name_region s e) as [r|] eqn:Hr; [|done].
  by rewrite (event_name_region_mono _ _ _ _ Hsub Hr).
Qed.

Lemma mapM_event_name_mono (s s' : machine) (events : list EtwProviderEvent)
    (names : list (list Z)) :
  mem s ⊆ mem s' ->
  mapM (event_name s) events = Some names -> mapM (event_name s') events = Some names.
Proof.
  intros Hsub. rewrite !mapM_Some.
  intros H. eapply Forall2_impl; [exact H|].
  intros e n. by apply event_name_mono.
Qed.

Lemma event_names_mono (s s' : machine) (this : EtwProvider) (names : list (list Z)) :
  mem s ⊆ mem s' -> event_names s this = Some names -> event_names s' this = Some names.
Proof. apply mapM_event_name_mono. Qed.

Lemma names_unique_mono (s s' : machine) (this : EtwProvider) :
  mem s ⊆ mem s' -> names_unique s this -> names_unique s' this.
Proof.
  intros Hsub (names & Hn & Hd). exists names. split; [|done].
  by apply (event_names_mono s).
Qed.

(** The names only depend on the metadata objects. *)
Lemma event_name_kept (s s' : machine) (e : EtwProviderEvent) :
  mem s' !! Ptr (m_eventMetadataDesc e) = mem s !! Ptr (m_eventMetadataDesc e) ->
  event_name s' e = event_name s e.
Proof. intros H. unfold event_name, event_name_region. by rewrite H. Qed.

Lemma mapM_event_name_kept (s s' : machine) (events : list EtwProviderEvent) :
  (forall e, e ∈ events ->
     mem s' !! Ptr (m_eventMetadataDesc e) = mem s !! Ptr (m_eventMetadataDesc e)) ->
  mapM (event_name s') events = mapM (event_name s) events.
Proof.
  induction events as [|e rest IH]; intros Hkept; [done|].
  cbn [mapM]. rewrite IH by (intros e' He'; by apply Hkept, list_elem_of_further).
  by rewrite (event_name_kept s s' e) by apply Hkept, list_elem_of_here.
Qed.

Lemma names_unique_kept (s s' : machine) (this : EtwProvider) :
  metadata_kept this s s' -> names_unique s this -> names_unique s' this.
Proof.
  intros Hkept (names & Hn & Hd). exists names. split; [|done].
  unfold event_names. by rewrite (mapM_event_name_kept s).
Qed.

(** [FindEvent] only reads. *)
Lemma find_event_state (eventName : list Z) (events : list EtwProviderEvent)
    (s s' : machine) (r : option EtwProviderEvent) :
  find_event eventName events s = Done r s' -> s' = s.
Proof.
  induction events as [|e rest IH]; simpl.
  - by intros [= _ ->].
  - unfold bind, EtwProviderEvent_Name.
    destruct (event_name_region s e) as [reg|]; [|done].
    destruct (strcmp eventName reg =? 0); [by intros [= _ ->] | done].
Qed.

(** [FindEvent] returns [NULL] exactly when every builder has a name and
    none of the names is the one sought. *)
Lemma find_event_None (eventName : list Z) (events : list EtwProviderEvent) (s : machine) :
  find_event eventName events s = Done None s
  <-> exists names, mapM (event_name s) events = Some names /\ c_str eventName ∉ names.
Proof.
  induction events as [|e rest IH]; simpl.
  - split; [|done]. intros _. exists []. split; [done | apply not_elem_of_nil].
  - unfold bind, EtwProviderEvent_Name.
    change (event_name s e) with (c_str <$> event_name_region s e).
    destruct (event_name_region s e) as [reg|]; simpl; cycle 1.
    { split; [done|]. by intros (names & H & _). }
    destruct (Z.eqb_spec (strcmp eventName reg) 0) as [Heq|Hne].
    + apply strcmp_c_str in Heq. split; [done|].
      intros (names & H & Hnot). exfalso.
      destruct (mapM (event_name s) rest) as [ns|]; [|done].
      injection H as <-. apply Hnot. rewrite Heq. apply list_elem_of_here.
    + rewrite IH. rewrite strcmp_c_str in Hne.
      split.
      * intros (names & -> & Hnot). exists (c_str reg :: names). split; [done|].
        rewrite not_elem_of_cons. done.
      * intros (names & H & Hnot).
        destruct (mapM (event_name s) rest) as [ns|]; [|done].
        injection H as <-.
        exists ns. split; [done|]. rewrite not_elem_of_cons in Hnot. tauto.
Qed.

(** When [FindEvent] returns a builder, it is one of the provider's and
    carries the name sought. *)
Lemma find_event_Some (eventName : list Z) (events : list EtwProviderEvent) (s : machine)
    (e : EtwProviderEvent) :
  find_event eventName events s = Done (Some e) s ->
  e ∈ events /\ event_name s e = Some (c_str eventName).
Proof.
  induction events as [|e0 rest IH]; simpl; [done|].
  unfold bind, EtwProviderEvent_Name.
  destruct (event_name_region s e0) as [reg|] eqn:Hreg; [|done].
  destruct (Z.eqb_spec (strcmp eventName reg) 0) as [Heq|Hne].
  - intros [= <-]. split; [apply list_elem_of_here|].
    unfold event_name. rewrite Hreg. simpl. f_equal. symmetry. by apply strcmp_c_str.
  - intros H. destruct (IH H) as [Hin Hname]. split; [by apply list_elem_of_further | done].
Qed.

Lemma find_event_cases (eventName : list Z) (events : list EtwProviderEvent) (s : machine) :
  find_event eventName events s = Undefined
  \/ find_event eventName events s = Done None s
  \/ exists e, find_event eventName events s = Done (Some e) s.
Proof.
  destruct (find_event eventName events s) as [[e|] s'|] eqn:H; [| |by left].
  - apply find_event_state in H as H'. subst s'. right. right. by exists e.
  - apply find_event_state in H as H'. subst s'. right. by left.
Qed.

(** A lookup that has succeeded succeeds alike when memory has grown. *)
Lemma find_event_mono (eventName : list Z) (events : list EtwProviderEvent)
    (s s' : machine) (r : option EtwProviderEvent) :
  mem s ⊆ mem s' ->
  find_event eventName events s = Done r s -> find_event eventName events s' = Done r s'.
Proof.
  intros Hsub. induction events as [|e rest IH]; simpl.
  - by intros [= <-].
  - unfold bind, EtwProviderEvent_Name.
    destruct (event_name_region s e) as [reg|] eqn:Hreg; [|done].
    rewrite (event_name_region_mono _ _ _ _ Hsub Hreg).
    destruct (strcmp eventName reg =? 0); [by intros [= <-] | done].
Qed.

(** The builder that [Initialize] has made carries the event's name. *)
Lemma event_name_allocated (eventName : list Z) (fields : va_list) (p size ty : Z)
    (s : machine) :
  event_name (allocated p (event_metadata_bytes eventName fields) s)
    (mkEvent (mkDataDesc p size ty))
  = Some (c_str eventName).
Proof.
  unfold event_name, event_name_region. cbn [m_eventMetadataDesc Ptr].
  rewrite lookup_allocated. unfold event_metadata_bytes.
  change (drop offsetof_EventName
            (le_bytes 2 (eventMetadataLength eventName fields)
             ++ [0] ++ (c_str eventName ++ [0]) ++ fields_metadata fields))
    with ((c_str eventName ++ [0]) ++ fields_metadata fields).
  rewrite <- app_assoc. simpl.
  rewrite has_nul_c_str_app. cbn [fmap option_fmap option_map].
  by rewrite c_str_c_str_app.
Qed.

Section AddEvent.

Context (K : Kernel).

(** What [AddEvent] does, case by case. *)
Lemma EtwProvider_AddEvent_eq (eventName : list Z) (fields : va_list) (this : EtwProvider)
    (s : machine) :
  EtwProvider_AddEvent K eventName fields this s
  = match find_event eventName (m_events this) s with
    | Undefined => Undefined
    | Done (Some _) _ => Done (STATUS_SUCCESS, this) s
    | Done None _ =>
        if pool_grants K (pool_requests s)
             (Z.to_nat (eventMetadataLength eventName fields))
        then
          if Z.of_nat (serialized_length eventName fields) <? 65536
          then
            Done (STATUS_SUCCESS,
                  set_m_events
                    (m_events this
                     ++ [mkEvent (mkDataDesc (fresh_address (mem s))
                                    (Z.of_nat (serialized_length eventName fields))
                                    EVENT_DATA_DESCRIPTOR_TYPE_EVENT_METADATA)]) this)
                 (allocated (fresh_address (mem s))
                    (event_metadata_bytes eventName fields) s)
          else Undefined
        else Done (STATUS_UNSUCCESSFUL, this) (denied s)
    end.
Proof.
  unfold EtwProvider_AddEvent, EtwProvider_FindEvent, bind at 1.
  destruct (find_event eventName (m_events this) s) as [[e|] s'|] eqn:Hf; [| |done].
  - apply find_event_state in Hf. by subst s'.
  - apply find_event_state in Hf. subst s'.
    unfold bind. rewrite EtwProviderEvent_Initialize_eq.
    destruct (pool_grants K _ _); [|done].
    by destruct (_ <? 65536).
Qed.

End AddEvent.

(** ** Counting the builders of a name *)

Lemma mapM_cons_Some {A B} (f : A -> option B) (x : A) (l : list A) (k : list B) :
  mapM f (x :: l) = Some k
  <-> exists y k', f x = Some y /\ mapM f l = Some k' /\ k = y :: k'.
Proof.
  simpl. destruct (f x) as [y|]; simpl; cycle 1.
  { split; [done|]. by intros (? & ? & ? & _). }
  destruct (mapM f l) as [k'|]; simpl; cycle 1.
  { split; [done|]. by intros (? & ? & _ & ? & _). }
  split.
  - intros [= <-]. by exists y, k'.
  - by intros (? & ? & [= <-] & [= <-] & ->).
Qed.

Lemma mapM_snoc_Some {A B} (f : A -> option B) (x : A) (y : B) (l : list A) (k : list B) :
  mapM f l = Some k -> f x = Some y -> mapM f (l ++ [x]) = Some (k ++ [y]).
Proof.
  rewrite !mapM_Some. intros Hl Hx. apply Forall2_app; [done|].
  by apply Forall2_cons.
Qed.

Lemma filter_named_absent (s : machine) (events : list EtwProviderEvent)
    (names : list (list Z)) (x : list Z) :
  mapM (event_name s) events = Some names -> x ∉ names ->
  filter (fun e => event_name s e = Some x) events = [].
Proof.
  revert names. induction events as [|e rest IH]; intros names; [done|].
  rewrite mapM_cons_Some. intros (y & k' & He & Hrest & ->) Hnot.
  rewrite not_elem_of_cons in Hnot. destruct Hnot as [Hne Hnot].
  rewrite filter_cons_False by (rewrite He; congruence).
  by apply (IH k').
Qed.

Lemma filter_named_unique (s : machine) (events : list EtwProviderEvent)
    (names : list (list Z)) (x : list Z) :
  mapM (event_name s) events = Some names -> NoDup names -> x ∈ names ->
  length (filter (fun e => event_name s e = Some x) events) = 1%nat.
Proof.
  revert names. induction events as [|e rest IH]; intros names.
  - intros [= <-] _ H. by apply elem_of_nil in H.
  - rewrite mapM_cons_Some. intros (y & k' & He & Hrest & ->) Hd Hin.
    apply NoDup_cons in Hd as [Hy Hd].
    apply elem_of_cons in Hin as [->|Hin].
    + rewrite filter_cons_True by done. simpl.
      by rewrite (filter_named_absent s rest k' y).
    + rewrite filter_cons_False; [by apply (IH k')|].
      rewrite He. intros [= ->]. done.
Qed.

Lemma mapM_elem_of {A B} (f : A -> option B) (l : list A) (k : list B) (x : A) (y : B) :
  mapM f l = Some k -> x ∈ l -> f x = Some y -> y ∈ k.
Proof.
  rewrite mapM_Some. intros HF Hin Hx.
  apply list_elem_of_lookup in Hin as [i Hi].
  destruct (Forall2_lookup_l _ _ _ _ _ HF Hi) as (y' & Hy' & Hf).
  rewrite Hx in Hf. injection Hf as <-.
  apply list_elem_of_lookup. by exists i.
Qed.

(** ** AddEvent twice *)

Lemma find_event_app (eventName : list Z) (l l' : list EtwProviderEvent) (s : machine) :
  find_event eventName l s = Done None s ->
  find_event eventName (l ++ l') s = find_event eventName l' s.
Proof.
  induction l as [|e rest IH]; [done|]. simpl.
  unfold bind, EtwProviderEvent_Name.
  destruct (event_name_region s e) as [reg|]; [|done].
  destruct (strcmp eventName reg =? 0); [done | apply IH].
Qed.

Lemma find_event_new (eventName : list Z) (fields : va_list) (p size ty : Z) (s : machine) :
  find_event eventName [mkEvent (mkDataDesc p size ty)]
    (allocated p (event_metadata_bytes eventName fields) s)
  = Done (Some (mkEvent (mkDataDesc p size ty)))
      (allocated p (event_metadata_bytes eventName fields) s).
Proof.
  pose proof (event_name_allocated eventName fields p size ty s) as Hn.
  unfold event_name in Hn. simpl. unfold bind, EtwProviderEvent_Name.
  destruct (event_name_region _ _) as [reg|]; [|done].
  injection Hn as Hn. symmetry in Hn. apply strcmp_c_str in Hn.
  by rewrite Hn.
Qed.

Section Idempotence.

Context (K : Kernel).

(** C3. [AddEvent] is idempotent: once a call of [AddEvent] for an event
    name has succeeded on a provider whose builders have distinct names,
    a second call for the same name, whatever its field list, returns
    success and changes neither the provider nor anything else, and the
    provider holds exactly one builder of that name. *)
Theorem AddEvent_idempotent (eventName : list Z) (fields1 fields2 : va_list)
    (this this1 : EtwProvider) (s s1 : machine) :
  names_unique s this ->
  EtwProvider_AddEvent K eventName fields1 this s = Done (STATUS_SUCCESS, this1) s1 ->
  EtwProvider_AddEvent K eventName fields2 this1 s1 = Done (STATUS_SUCCESS, this1) s1
  /\ builders_named s1 this1 eventName = 1%nat.
Proof.
  intros (names & Hnames & Hdup) H1.
  rewrite EtwProvider_AddEvent_eq in H1. rewrite EtwProvider_AddEvent_eq.
  destruct (find_event_cases eventName (m_events this) s) as [Hf|[Hf|[e Hf]]];
    rewrite Hf in H1; [done| |].
  - destruct (pool_grants K _ _); [|by injection H1].
    destruct (_ <? 65536); [|done].
    injection H1 as <- <-.
    set (new := mkEvent _). set (s1 := allocated _ _ s).
    assert (Hsub : mem s ⊆ mem s1) by apply allocated_fresh_subseteq.
    cbn [m_events set_m_events].
    rewrite (find_event_app _ _ _ _ (find_event_mono _ _ _ _ _ Hsub Hf)).
    unfold new, s1. rewrite find_event_new. split; [done|].
    unfold builders_named. cbn [m_events set_m_events].
    rewrite filter_app, length_app.
    apply find_event_None in Hf as (names' & Hn' & Hnot).
    rewrite (filter_named_absent _ _ names' (c_str eventName));
      [|by apply (mapM_event_name_mono s) | done].
    rewrite filter_cons_True by apply event_name_allocated.
    done.
  - injection H1 as <- <-. rewrite Hf. split; [done|].
    apply find_event_Some in Hf as [Hin Hname].
    unfold builders_named.
    apply (filter_named_unique s _ names); [done..|].
    by apply (mapM_elem_of (event_name s) (m_events this) names e).
Qed.

End Idempotence.

(** ** Field values *)

Lemma frame_refl (s : machine) : frame s s.
Proof. by split. Qed.

Lemma frame_trans (s1 s2 s3 : machine) : frame s1 s2 -> frame s2 s3 -> frame s1 s3.
Proof.
  intros [H1 C1] [H2 C2]. split; [by trans (mem s2) | by rewrite C2].
Qed.

Lemma frame_allocated (obj : list Z) (s : machine) :
  frame s (allocated (fresh_address (mem s)) obj s).
Proof. split; [apply allocated_fresh_subseteq | done]. Qed.

Lemma frame_denied (s : machine) : frame s (denied s).
Proof. by split. Qed.

Create HintDb frame.
#[export] Hint Resolve frame_refl frame_allocated frame_denied : frame.

Section Fields.

Context (K : Kernel).

Lemma object_at_mono (q : pointer) (s s' : machine) (r : list Z) :
  mem s ⊆ mem s' -> object_at K q s = Some r -> object_at K q s' = Some r.
Proof.
  intros Hsub. destruct q as [v|p]; simpl; [done|].
  intros H. by apply (lookup_weaken _ _ _ _ H Hsub).
Qed.

(** [SizeOfField] only reads. *)
Lemma SizeOfField_state (fieldType : Z) (q : pointer) (s s' : machine) (n : nat) :
  SizeOfField K fieldType q s = Done n s' -> s' = s.
Proof.
  unfold SizeOfField.
  destruct (Z.land fieldType 255) as [|x|x]; [by intros [= _ ->]| |by intros [= _ ->]].
  do 4 (try destruct x as [x|x|]); try (by intros [= _ ->]).
  unfold bind, strlen_at. destruct (object_at K q s) as [r|]; [|done].
  destruct (has_nul r); [by intros [= _ ->] | done].
Qed.

Lemma SizeOfField_mono (fieldType : Z) (q : pointer) (s s' : machine) (n : nat) :
  mem s ⊆ mem s' ->
  SizeOfField K fieldType q s = Done n s -> SizeOfField K fieldType q s' = Done n s'.
Proof.
  intros Hsub. unfold SizeOfField.
  destruct (Z.land fieldType 255) as [|x|x]; [by intros [= <-]| |by intros [= <-]].
  do 4 (try destruct x as [x|x|]); try (by intros [= <-]).
  unfold bind, strlen_at. destruct (object_at K q s) as [r|] eqn:Hr; [|done].
  rewrite (object_at_mono _ _ _ _ Hsub Hr).
  destruct (has_nul r); [by intros [= <-] | done].
Qed.

(** A tag without a case in the [switch] has size 0. *)
Lemma SizeOfField_unsupported (fieldType : Z) (q : pointer) (s : machine) :
  supported_field_type fieldType = false -> SizeOfField K fieldType q s = Done O s.
Proof.
  unfold supported_field_type, SizeOfField.
  destruct (Z.land fieldType 255) as [|x|x]; [done| |done].
  do 4 (try destruct x as [x|x|]); try done.
Qed.

(** The size of a string field is the length of the string and its
    terminator. *)
Lemma SizeOfField_AnsiString (fieldType : Z) (q : pointer) (s : machine) :
  Z.land fieldType 255 = EtwFieldAnsiString ->
  SizeOfField K fieldType q s
  = match object_at K q s with
    | Some r => if has_nul r then Done (strlen r + 1)%nat s else Undefined
    | None => Undefined
    end.
Proof.
  intros H. unfold SizeOfField. rewrite H. cbn [EtwFieldAnsiString].
  unfold bind, strlen_at. destruct (object_at K q s) as [r|]; [|done].
  by destruct (has_nul r).
Qed.

Lemma load_eq (q : pointer) (n : nat) (s : machine) :
  load K q n s
  = match object_at K q s with
    | Some r => if (n <=? length r)%nat then Done (take n r) s else Undefined
    | None => Undefined
    end.
Proof. done. Qed.

Lemma field_bytes_eq (s : machine) (fieldType fieldValue : Z) :
  field_bytes K s fieldType fieldValue
  = match SizeOfField K fieldType (field_pointer fieldType fieldValue) s with
    | Done n _ =>
        match load K (field_pointer fieldType fieldValue) n s with
        | Done bs _ => Some bs
        | Undefined => None
        end
    | Undefined => None
    end.
Proof.
  unfold field_bytes, bind.
  destruct (SizeOfField K _ _ s) as [n s'|] eqn:Hn; [|done].
  apply SizeOfField_state in Hn. by subst s'.
Qed.

Lemma field_bytes_mono (s s' : machine) (fieldType fieldValue : Z) (bs : list Z) :
  mem s ⊆ mem s' ->
  field_bytes K s fieldType fieldValue = Some bs ->
  field_bytes K s' fieldType fieldValue = Some bs.
Proof.
  intros Hsub. rewrite !field_bytes_eq.
  destruct (SizeOfField K _ _ s) as [n s1|] eqn:Hn; [|done].
  apply SizeOfField_state in Hn as Hs. subst s1.
  rewrite (SizeOfField_mono _ _ _ _ _ Hsub Hn).
  rewrite !load_eq.
  destruct (object_at K _ s) as [r|] eqn:Hr; [|done].
  rewrite (object_at_mono _ _ _ _ Hsub Hr).
  by destruct (n <=? length r)%nat.
Qed.

(** A field pointer that could be sized does not point at a fresh
    address. *)
Lemma field_pointer_allocated (fieldType fieldValue : Z) (obj : list Z) (s : machine)
    (n : nat) :
  SizeOfField K fieldType (field_pointer fieldType fieldValue) s = Done n s ->
  object_at K (field_pointer fieldType fieldValue)
    (allocated (fresh_address (mem s)) obj s)
  = object_at K (field_pointer fieldType fieldValue) s.
Proof.
  unfold field_pointer.
  destruct (Z.eqb_spec fieldType EtwFieldAnsiString) as [->|Hne];
    cbn [negb object_at]; [|done].
  rewrite SizeOfField_AnsiString by done. cbn [object_at].
  destruct (mem s !! fieldValue) as [r|] eqn:Hr; [|done].
  intros _. rewrite lookup_allocated_ne; [done|].
  intros Heq. rewrite <- Heq, fresh_address_unused in Hr. done.
Qed.

(** What [CreateTraceProperty] does for a field of [WriteEvent]. *)
Lemma CreateTraceProperty_eq (fieldType fieldValue : Z) (s : machine) :
  CreateTraceProperty K fieldType (field_pointer fieldType fieldValue) s
  = match SizeOfField K fieldType (field_pointer fieldType fieldValue) s with
    | Undefined => Undefined
    | Done n _ =>
        if pool_grants K (pool_requests s) n
        then
          match field_bytes K s fieldType fieldValue with
          | Some bs =>
              Done (mkDataDesc (fresh_address (mem s)) (ULONG (Z.of_nat (length bs))) 0)
                   (allocated (fresh_address (mem s)) bs s)
          | None => Undefined
          end
        else Done zero_descriptor (denied s)
    end.
Proof.
  rewrite field_bytes_eq.
  unfold CreateTraceProperty, bind at 1.
  set (q := field_pointer fieldType fieldValue).
  destruct (SizeOfField K fieldType q s) as [n s1|] eqn:Hn; [|done].
  apply SizeOfField_state in Hn as Hs. subst s1.
  destruct (pool_grants K (pool_requests s) n) eqn:G; cycle 1.
  { by rewrite (bind_eq _ _ _ _ _ (ExAllocatePoolWithTag_denied K n s G)). }
  rewrite (bind_eq _ _ _ _ _ (ExAllocatePoolWithTag_granted K n s G)).
  rewrite fresh_address_eqb. unfold memcpy, bind.
  rewrite !load_eq. unfold q. rewrite (field_pointer_allocated _ _ _ _ _ Hn). fold q.
  destruct (object_at K q s) as [r|]; [|done].
  destruct (Nat.leb_spec n (length r)) as [Hle|Hgt]; [|done].
  rewrite (poke_0 _ _ _ _ (lookup_allocated _ _ _)).
  rewrite length_take, length_resize.
  replace (n `min` length r <=? n)%nat with true by (symmetry; apply Nat.leb_le; lia).
  rewrite updated_allocated, drop_ge by (rewrite length_resize; lia).
  rewrite app_nil_r. by replace (n `min` length r)%nat with n by lia.
Qed.

End Fields.

Section WriteEvent.

Context (K : Kernel).

(** ** The descriptor array *)

Lemma describe_fields_cons (fieldName : list Z) (fieldType fieldValue : Z) (rest : va_list)
    (i : nat) (dataDescriptors : list EVENT_DATA_DESCRIPTOR) (s : machine) :
  describe_fields K ((fieldName, fieldType, fieldValue) :: rest) i dataDescriptors s
  = match CreateTraceProperty K fieldType (field_pointer fieldType fieldValue) s with
    | Done d s1 =>
        if Ptr d =? NULL then Done (inl STATUS_UNSUCCESSFUL) s1
        else describe_fields K rest (S i) (<[(i + 2)%nat := d]> dataDescriptors) s1
    | Undefined => Undefined
    end.
Proof.
  cbn [describe_fields]. unfold bind. fold (field_pointer fieldType fieldValue).
  destruct (CreateTraceProperty K _ _ s) as [d s1|]; [|done].
  by destruct (Ptr d =? NULL).
Qed.

(** One round of the loop of [WriteEvent]. *)
Lemma describe_fields_step (fieldName : list Z) (fieldType fieldValue : Z) (rest : va_list)
    (i : nat) (arr : list EVENT_DATA_DESCRIPTOR) (s : machine)
    (r : NTSTATUS + list EVENT_DATA_DESCRIPTOR) (s' : machine) :
  describe_fields K ((fieldName, fieldType, fieldValue) :: rest) i arr s = Done r s' ->
  (r = inl STATUS_UNSUCCESSFUL /\ s' = denied s
   /\ exists n, pool_grants K (pool_requests s) n = false)
  \/ (exists bs,
        field_bytes K s fieldType fieldValue = Some bs
        /\ describe_fields K rest (S i)
             (<[(i + 2)%nat := mkDataDesc (fresh_address (mem s))
                                  (ULONG (Z.of_nat (length bs))) 0]> arr)
             (allocated (fresh_address (mem s)) bs s)
           = Done r s').
Proof.
  rewrite describe_fields_cons, CreateTraceProperty_eq.
  destruct (SizeOfField K _ _ s) as [n s1|]; [|done].
  destruct (pool_grants K (pool_requests s) n) eqn:G.
  - destruct (field_bytes K s fieldType fieldValue) as [bs|]; [|done].
    cbn [Ptr]. rewrite fresh_address_eqb. intros H. right. by exists bs.
  - simpl. intros [= <- <-]. left. split_and!; [done..|]. by exists n.
Qed.

Lemma describe_fields_frame (fields : va_list) (i : nat)
    (arr : list EVENT_DATA_DESCRIPTOR) (s : machine)
    (r : NTSTATUS + list EVENT_DATA_DESCRIPTOR) (s' : machine) :
  describe_fields K fields i arr s = Done r s' ->
  frame s s' /\ etw_calls s' = etw_calls s.
Proof.
  revert i arr s. induction fields as [|[[fn ty] v] rest IH]; intros i arr s.
  - intros [= _ <-]. split; [auto with frame | done].
  - intros H. apply describe_fields_step in H as [(_ & -> & _)|(bs & _ & H)].
    + split; [auto with frame | done].
    + apply IH in H as [Hf Hc]. split; [|done].
      apply (frame_trans _ (allocated (fresh_address (mem s)) bs s)); auto with frame.
Qed.

(** When the loop gives up, it does so because the pool has denied the
    last request, and the status is [STATUS_UNSUCCESSFUL]. *)
Lemma describe_fields_inl (fields : va_list) (i : nat)
    (arr : list EVENT_DATA_DESCRIPTOR) (s : machine) (status : NTSTATUS) (s' : machine) :
  describe_fields K fields i arr s = Done (inl status) s' ->
  status = STATUS_UNSUCCESSFUL
  /\ exists n, pool_grants K (pred (pool_requests s')) n = false.
Proof.
  revert i arr s. induction fields as [|[[fn ty] v] rest IH]; intros i arr s; [done|].
  intros H. apply describe_fields_step in H as [([= <-] & -> & n & Hn)|(bs & _ & H)].
  - split; [done|]. by exists n.
  - by apply IH in H.
Qed.

Lemma field_described_weaken (s0 s s' s'' : machine) (f : list Z * Z * Z)
    (d : EVENT_DATA_DESCRIPTOR) :
  mem s0 ⊆ mem s -> mem s' ⊆ mem s'' ->
  field_described K s s' f d -> field_described K s0 s'' f d.
Proof.
  intros Hsub Hsub'. destruct f as [[fn ty] v]. intros (Hp & Hnew & Hty & bs & Hbs & Hm & Hsz).
  split_and!; [done| |done|].
  - destruct (mem s0 !! Ptr d) as [obj|] eqn:Hobj; [|done].
    by rewrite (lookup_weaken _ _ _ _ Hobj Hsub) in Hnew.
  - exists bs. split_and!; [by apply (field_bytes_mono K s') | | done].
    by apply (lookup_weaken _ _ _ _ Hm Hsub').
Qed.

(** When the loop completes, the slots before the fields are as they
    were, and slot [i + 2 + k] describes the [k]-th remaining field. *)
Lemma describe_fields_inr (fields : va_list) (i : nat)
    (arr : list EVENT_DATA_DESCRIPTOR) (s : machine)
    (arr' : list EVENT_DATA_DESCRIPTOR) (s' : machine) :
  describe_fields K fields i arr s = Done (inr arr') s' ->
  (i + 2 + length fields <= length arr)%nat ->
  length arr' = length arr
  /\ (forall j, (j < i + 2)%nat -> arr' !! j = arr !! j)
  /\ (forall k f, fields !! k = Some f ->
        exists d, arr' !! (i + 2 + k)%nat = Some d /\ field_described K s s' f d).
Proof.
  revert i arr s. induction fields as [|[[fn ty] v] rest IH]; intros i arr s.
  - intros [= <- <-] _. split_and!; [done..|]. by intros k f H.
  - intros H Hlen. cbn [length] in Hlen.
    apply describe_fields_step in H as [([=] & _)|(bs & Hbs & H)].
    apply describe_fields_frame in H as Hfr. destruct Hfr as [[Hsub _] _].
    apply IH in H as (Hl & Hpre & Hfields); [|rewrite length_insert; lia].
    rewrite length_insert in Hl.
    split_and!; [done| |].
    + intros j Hj. rewrite Hpre by lia. apply list_lookup_insert_ne. lia.
    + intros [|k] f Hf.
      * injection Hf as <-. eexists. split.
        -- rewrite Nat.add_0_r, Hpre by lia. apply list_lookup_insert_eq. lia.
        -- cbn [field_described Ptr Size Type'].
           split_and!; [apply fresh_address_not_NULL | apply fresh_address_unused | done |].
           exists bs. split_and!;
             [|exact (lookup_weaken _ _ _ _ (lookup_allocated _ bs s) Hsub) | done].
           apply (field_bytes_mono K s); [|done].
           trans (mem (allocated (fresh_address (mem s)) bs s));
             [apply allocated_fresh_subseteq | done].
      * destruct (Hfields k f Hf) as (d & Hd & Hdesc).
        exists d. split; [by replace (i + 2 + S k)%nat with (S i + 2 + k)%nat by lia|].
        refine (field_described_weaken _ _ s' s' _ _ _ _ Hdesc);
          [apply allocated_fresh_subseteq | done].
Qed.

(** ** WriteEvent *)

(** The ways in which [WriteEvent] completes: it returns
    [STATUS_UNSUCCESSFUL] without a call of [EtwWrite], because the event
    is not known or because the pool has denied the last request; or it
    calls [EtwWrite] with the array of descriptors and returns its
    status. *)
Lemma EtwProvider_WriteEvent_Done (eventName : list Z) (ed : EVENT_DESCRIPTOR)
    (fields : va_list) (this : EtwProvider) (s : machine) (status : NTSTATUS)
    (s' : machine) :
  EtwProvider_WriteEvent K eventName ed fields this s = Done status s' ->
  frame s s' /\
  ((status = STATUS_UNSUCCESSFUL /\ etw_calls s' = etw_calls s
    /\ ((find_event eventName (m_events this) s = Done None s /\ s' = s)
        \/ exists n, pool_grants K (pred (pool_requests s')) n = false))
   \/ (exists event UserData,
         find_event eventName (m_events this) s = Done (Some event) s
         /\ etw_calls s'
            = Call_EtwWrite (m_regHandle this) ed (Z.of_nat (length fields + 2)) UserData
                :: etw_calls s
         /\ status = EtwWrite_returns K (etw_calls s) (m_regHandle this) ed
                       (Z.of_nat (length fields + 2)) UserData
         /\ length UserData = (length fields + 2)%nat
         /\ UserData !! 0%nat = Some (m_providerMetadataDesc this)
         /\ UserData !! 1%nat = Some (m_eventMetadataDesc event)
         /\ forall k f, fields !! k = Some f ->
              exists d, UserData !! (k + 2)%nat = Some d
                        /\ field_described K s s' f d)).
Proof.
  unfold EtwProvider_WriteEvent, EtwProvider_FindEvent, bind at 1.
  destruct (find_event_cases eventName (m_events this) s) as [Hf|[Hf|[event Hf]]];
    rewrite Hf; [done| |].
  { intros [= <- <-]. split; [apply frame_refl|]. left. split_and!; [done..|]. by left. }
  set (n := (length fields + 2)%nat).
  destruct (pool_grants K (pool_requests s) (n * sizeof_EVENT_DATA_DESCRIPTOR)) eqn:G;
    cycle 1.
  { rewrite (bind_eq _ _ _ _ _ (ExAllocatePoolWithTag_denied K _ s G)).
    intros [= <- <-]. split; [apply frame_denied|]. left. split_and!; [done..|].
    right. eexists. exact G. }
  rewrite (bind_eq _ _ _ _ _ (ExAllocatePoolWithTag_granted K _ s G)).
  rewrite fresh_address_eqb. unfold memset.
  rewrite (bind_poke_0 _ _ _ _ _ (lookup_allocated _ _ _)).
  rewrite length_replicate, length_resize, Nat.leb_refl, updated_allocated.
  set (s1 := allocated _ _ s).
  assert (Hfr1 : frame s s1) by apply frame_allocated.
  set (arr := <[1%nat := _]> _).
  assert (Harr : length arr = n) by (unfold arr; by rewrite !length_insert, length_replicate).
  unfold bind.
  destruct (describe_fields K fields 0 arr s1) as [[st|arr'] s2|] eqn:Hd; [| |done].
  - apply describe_fields_frame in Hd as Hfr. destruct Hfr as [Hfr Hc].
    apply describe_fields_inl in Hd as [-> Hn].
    intros [= <- <-]. split; [by eapply frame_trans|].
    left. split_and!; [done | by rewrite Hc | by right].
  - apply describe_fields_frame in Hd as Hfr. destruct Hfr as [Hfr Hc].
    apply describe_fields_inr in Hd as (Hl & Hpre & Hfields); [|lia].
    unfold EtwWrite. intros [= <- <-].
    split; [by eapply frame_trans|].
    right. exists event, arr'. cbn [etw_calls set_etw_calls]. rewrite Hc. fold n.
    change (etw_calls s1) with (etw_calls s).
    split_and!; [done..|lia| | |].
    + rewrite Hpre by lia. unfold arr.
      rewrite list_lookup_insert_ne by lia.
      apply list_lookup_insert_eq. rewrite length_replicate. lia.
    + rewrite Hpre by lia. unfold arr.
      apply list_lookup_insert_eq. rewrite length_insert, length_replicate. lia.
    + intros k f Hf'. destruct (Hfields k f Hf') as (d & Hd & Hdesc).
      exists d. split; [by rewrite Nat.add_comm|].
      refine (field_described_weaken _ _ s2 _ _ _ _ _ Hdesc);
        [apply allocated_fresh_subseteq | done].
Qed.

End WriteEvent.

(** The builder that [FindEvent] returns is the first in [m_events] whose
    name is the one sought. *)
Lemma find_event_first (eventName : list Z) (events : list EtwProviderEvent)
    (s : machine) (event : EtwProviderEvent) :
  find_event eventName events s = Done (Some event) s ->
  exists i,
    events !! i = Some event
    /\ event_name s event = Some (c_str eventName)
    /\ forall j e, (j < i)%nat -> events !! j = Some e ->
         event_name s e <> Some (c_str eventName).
Proof.
  induction events as [|e0 rest IH]; simpl; [done|].
  unfold bind, EtwProviderEvent_Name.
  destruct (event_name_region s e0) as [reg|] eqn:Hreg; [|done].
  destruct (Z.eqb_spec (strcmp eventName reg) 0) as [Heq|Hne].
  - intros [= <-]. exists O. split_and!; [done| |intros j e Hj; lia].
    unfold event_name. rewrite Hreg. simpl. f_equal. symmetry. by apply strcmp_c_str.
  - intros H. destruct (IH H) as (i & Hi & Hname & Hfirst).
    exists (S i). split_and!; [done..|].
    intros [|j] e Hj He; simpl in He.
    + injection He as <-. unfold event_name. rewrite Hreg. simpl.
      intros [= Heq]. apply Hne. apply strcmp_c_str. by symmetry.
    + apply (Hfirst j); [lia | done].
Qed.

Section Emission.

Context (K : Kernel).

(** C2. Whenever [WriteEvent] returns success for a list of n fields, it
    has called [EtwWrite] with a count of n + 2 and an array of n + 2
    descriptors: slot 0 is the provider's [m_providerMetadataDesc], slot 1
    is the [m_eventMetadataDesc] of the first builder in [m_events] whose
    name, the string in its metadata object, is the event name, and slot
    k + 2 describes the k-th field of the caller's list. *)
Theorem WriteEvent_descriptor_array (eventName : list Z) (ed : EVENT_DESCRIPTOR)
    (fields : va_list) (this : EtwProvider) (s s' : machine) :
  EtwProvider_WriteEvent K eventName ed fields this s = Done STATUS_SUCCESS s' ->
  exists i event UserData,
    m_events this !! i = Some event
    /\ event_name s event = Some (c_str eventName)
    /\ (forall j e, (j < i)%nat -> m_events this !! j = Some e ->
          event_name s e <> Some (c_str eventName))
    /\ etw_calls s'
       = Call_EtwWrite (m_regHandle this) ed (Z.of_nat (length fields) + 2) UserData
           :: etw_calls s
    /\ length UserData = (length fields + 2)%nat
    /\ UserData !! 0%nat = Some (m_providerMetadataDesc this)
    /\ UserData !! 1%nat = Some (m_eventMetadataDesc event)
    /\ forall k f, fields !! k = Some f ->
         exists d, UserData !! (k + 2)%nat = Some d /\ field_described K s s' f d.
Proof.
  intros H. apply EtwProvider_WriteEvent_Done in H as [_ [([=] & _)|H]].
  destruct H as (event & UserData & Hf & Hc & _ & Hl & H0 & H1 & Hk).
  apply find_event_first in Hf as (i & Hi & Hname & Hfirst).
  exists i, event, UserData. split_and!; [done..| |done|done|done|done].
  rewrite Hc. do 2 f_equal. lia.
Qed.

(** C4, as the code has it. A type tag without a case in [SizeOfField]
    has size 0, and [WriteEvent] does not take that for a failure: it
    either returns [STATUS_UNSUCCESSFUL] without a call of [EtwWrite],
    and then the event was not found or the pool has denied a request, or
    it calls [EtwWrite] with a descriptor for the field that has a
    pointer other than [NULL], to an empty object, and size 0. *)
Theorem WriteEvent_unsupported_field (eventName : list Z) (ed : EVENT_DESCRIPTOR)
    (fields : va_list) (this : EtwProvider) (s s' : machine) (status : NTSTATUS)
    (k : nat) (fieldName : list Z) (fieldType fieldValue : Z) :
  fields !! k = Some (fieldName, fieldType, fieldValue) ->
  supported_field_type fieldType = false ->
  EtwProvider_WriteEvent K eventName ed fields this s = Done status s' ->
  SizeOfField K fieldType (field_pointer fieldType fieldValue) s = Done O s
  /\ ((status = STATUS_UNSUCCESSFUL /\ etw_calls s' = etw_calls s
       /\ (EtwProvider_FindEvent eventName this s = Done None s
           \/ exists n, pool_grants K (pred (pool_requests s')) n = false))
      \/ (exists UserData d,
            etw_calls s'
            = Call_EtwWrite (m_regHandle this) ed (Z.of_nat (length fields) + 2) UserData
                :: etw_calls s
            /\ status = EtwWrite_returns K (etw_calls s) (m_regHandle this) ed
                          (Z.of_nat (length fields) + 2) UserData
            /\ UserData !! (k + 2)%nat = Some d
            /\ Ptr d <> NULL /\ Size d = 0 /\ mem s' !! Ptr d = Some [])).
Proof.
  intros Hk Hty H. split; [by apply SizeOfField_unsupported|].
  apply EtwProvider_WriteEvent_Done in H as [[Hsub _] [(-> & Hc & Hwhy)|H]].
  - left. split_and!; [done..|]. destruct Hwhy as [[Hf _]|Hn]; [by left | by right].
  - right. destruct H as (event & UserData & _ & Hc & Hst & _ & _ & _ & Hfields).
    destruct (Hfields k _ Hk) as (d & Hd & Hp & _ & _ & bs & Hbs & Hm & Hsz).
    rewrite field_bytes_eq, SizeOfField_unsupported in Hbs by done.
    rewrite load_eq in Hbs.
    destruct (object_at K _ s') as [r|]; [|done].
    simpl in Hbs. rewrite take_0 in Hbs. injection Hbs as <-.
    exists UserData, d.
    replace (Z.of_nat (length fields) + 2) with (Z.of_nat (length fields + 2)) by lia.
    split_and!; done.
Qed.

(** C5, as the code has it. [WriteEvent] copies a string field like any
    other: for a field of type [EtwFieldAnsiString] whose value is the
    address of a string of the caller, the descriptor passed to
    [EtwWrite] points at an object that did not exist before the call,
    not at the caller's string; the object holds the characters of the
    string and the terminator, and the caller's string is as it was.
    Every field, of whatever type, is described by a descriptor that
    points at such a new object, which holds the bytes of its value as
    [SizeOfField] sizes them. *)
Theorem WriteEvent_string_field_copied (eventName : list Z) (ed : EVENT_DESCRIPTOR)
    (fields : va_list) (this : EtwProvider) (s s' : machine)
    (k : nat) (fieldName : list Z) (fieldValue : Z) (str : list Z) :
  EtwProvider_WriteEvent K eventName ed fields this s = Done STATUS_SUCCESS s' ->
  fields !! k = Some (fieldName, EtwFieldAnsiString, fieldValue) ->
  mem s !! fieldValue = Some str ->
  exists UserData d,
    etw_calls s'
    = Call_EtwWrite (m_regHandle this) ed (Z.of_nat (length fields) + 2) UserData
        :: etw_calls s
    /\ UserData !! (k + 2)%nat = Some d
    /\ Ptr d <> fieldValue
    /\ mem s !! Ptr d = None
    /\ mem s' !! Ptr d = Some (c_str str ++ [0])
    /\ Size d = ULONG (Z.of_nat (strlen str + 1))
    /\ mem s' !! fieldValue = Some str
    /\ forall j f, fields !! j = Some f ->
         exists d', UserData !! (j + 2)%nat = Some d' /\ field_described K s s' f d'.
Proof.
  intros H Hk Hstr.
  apply EtwProvider_WriteEvent_Done in H as [[Hsub _] [([=] & _)|H]].
  destruct H as (event & UserData & _ & Hc & _ & _ & _ & _ & Hfields).
  destruct (Hfields k _ Hk) as (d & Hd & Hp & Hnew & _ & bs & Hbs & Hm & Hsz).
  pose proof (lookup_weaken _ _ _ _ Hstr Hsub) as Hstr'.
  rewrite field_bytes_eq, SizeOfField_AnsiString in Hbs by done.
  unfold field_pointer in Hbs. simpl in Hbs. rewrite Hstr' in Hbs.
  destruct (has_nul str) eqn:Hnul; [|done].
  rewrite load_eq in Hbs. simpl in Hbs. rewrite Hstr' in Hbs.
  destruct (strlen str + 1 <=? length str)%nat; [|done].
  injection Hbs as <-. rewrite take_strlen_succ in Hm, Hsz by done.
  exists UserData, d.
  replace (Z.of_nat (length fields) + 2) with (Z.of_nat (length fields + 2)) by lia.
  split_and!; [done..| |done|done| |done|done].
  - intros Heq. rewrite Heq, Hstr in Hnew. done.
  - rewrite Hsz, length_app, length_c_str. done.
Qed.

(** C6. Called above [PASSIVE_LEVEL], [EtwTrace] returns
    [STATUS_UNSUCCESSFUL] and leaves the whole machine as it was: the
    provider cache, memory, and the record of ETW calls. *)
Theorem EtwTrace_above_PASSIVE_LEVEL (providerName : list Z) (providerGuid : GUID)
    (eventName : list Z) (eventLevel keyword : Z) (fields : va_list) (s : machine) :
  irql s > PASSIVE_LEVEL ->
  EtwTrace K providerName providerGuid eventName eventLevel keyword fields s
  = Done STATUS_UNSUCCESSFUL s.
Proof.
  intros H. unfold EtwTrace, bind, KeGetCurrentIrql.
  by replace (irql s >? PASSIVE_LEVEL) with true by (symmetry; apply Z.gtb_lt; lia).
Qed.

(** [Initialize] leaves the provider cache alone. *)
Lemma EtwProvider_Initialize_frame (providerName : list Z) (this this' : EtwProvider)
    (s s' : machine) (status : NTSTATUS) :
  EtwProvider_Initialize K providerName this s = Done (status, this') s' ->
  frame s s' /\ m_events this' = m_events this.
Proof.
  rewrite EtwProvider_Initialize_eq. cbv zeta.
  destruct (negb (_ =? STATUS_SUCCESS)).
  { intros [= _ <- <-]. by split. }
  destruct (pool_grants K _ _); cycle 1.
  { intros [= _ <- <-]. by split. }
  destruct (_ <? 65536); [|done].
  destruct (negb (_ =? STATUS_SUCCESS)); intros [= _ <- <-];
    (split; [|done]); (split; [|done]);
    apply (insert_subseteq (mem s)), fresh_address_unused.
Qed.

(** C7. When [EtwTrace] finds no provider for the identifier and
    [Initialize] of the new provider returns a status other than
    [STATUS_SUCCESS], be it the status of [EtwRegister], of the denied
    allocation, or of [EtwSetInformation], then [EtwTrace] returns this
    status in the state [Initialize] has left, and the provider cache is
    what it was. *)
Theorem EtwTrace_Initialize_failure (providerName : list Z) (providerGuid : GUID)
    (eventName : list Z) (eventLevel keyword : Z) (fields : va_list) (s s' : machine)
    (status : NTSTATUS) (newEtwProvider : EtwProvider) :
  irql s <= PASSIVE_LEVEL ->
  FindProvider providerGuid s = Done None s ->
  EtwProvider_Initialize K providerName (EtwProvider_new providerGuid) s
  = Done (status, newEtwProvider) s' ->
  status <> STATUS_SUCCESS ->
  EtwTrace K providerName providerGuid eventName eventLevel keyword fields s
  = Done status s'
  /\ g_ProviderCache s' = g_ProviderCache s.
Proof.
  intros Hirql Hfind Hinit Hst. split; [|by apply EtwProvider_Initialize_frame in Hinit as [[_ ?] _]].
  unfold EtwTrace, bind at 1, KeGetCurrentIrql.
  replace (irql s >? PASSIVE_LEVEL) with false
    by (symmetry; rewrite Z.gtb_ltb; apply Z.ltb_ge; lia).
  rewrite (bind_eq _ _ _ _ _ Hfind).
  unfold bind at 1. unfold bind at 1. rewrite Hinit.
  by replace (negb (status =? STATUS_SUCCESS)) with true
    by (symmetry; apply negb_true_iff, Z.eqb_neq; done).
Qed.

(** The reasons for which [Initialize] fails. *)
Lemma EtwProvider_Initialize_failure (providerName : list Z) (this this' : EtwProvider)
    (s s' : machine) (status : NTSTATUS) :
  EtwProvider_Initialize K providerName this s = Done (status, this') s' ->
  status <> STATUS_SUCCESS ->
  status = (EtwRegister_returns K (etw_calls s) (m_guid this)).1
  \/ (status = STATUS_UNSUCCESSFUL
      /\ pool_grants K (pool_requests s) (Z.to_nat (providerMetadataLength providerName))
         = false)
  \/ exists h traits,
       status = EtwSetInformation_returns K
                  (Call_EtwRegister (m_guid this) :: etw_calls s) h
                  EventProviderSetTraits traits (providerMetadataLength providerName).
Proof.
  rewrite EtwProvider_Initialize_eq. cbv zeta.
  destruct (negb (_ =? STATUS_SUCCESS)).
  { intros [= <- _ _] _. by left. }
  destruct (pool_grants K _ _); cycle 1.
  { intros [= <- _ _] _. right. by left. }
  destruct (_ <? 65536); [|done].
  destruct (negb (_ =? STATUS_SUCCESS)); intros [= <- _ _] Hst; [|done].
  right. right. by eexists _, _.
Qed.

(** The builders of a provider carry names that were passed to
    [AddEvent]. *)
Lemma provider_history_names (names : list (list Z)) (this : EtwProvider) (s : machine) :
  provider_history K names this s ->
  exists ns, mapM (event_name s) (m_events this) = Some ns
             /\ forall n, n ∈ ns -> exists m, m ∈ names /\ n = c_str m.
Proof.
  induction 1 as [guid h d s|names this s eventName fields status this' s' _ IH Hadd
                 |names this s s' _ IH Hkept].
  - exists []. split; [done|]. intros n Hn. by apply elem_of_nil in Hn.
  - destruct IH as (ns & Hns & Hin).
    assert (Hweak : forall n, n ∈ ns -> exists m, m ∈ eventName :: names /\ n = c_str m).
    { intros n Hn. destruct (Hin n Hn) as (m & Hm & ->). exists m.
      split; [by apply list_elem_of_further | done]. }
    rewrite EtwProvider_AddEvent_eq in Hadd.
    destruct (find_event_cases eventName (m_events this) s) as [Hf|[Hf|[e Hf]]];
      rewrite Hf in Hadd; [done| |].
    + destruct (pool_grants K _ _); cycle 1.
      { injection Hadd as <- <- <-. by exists ns. }
      destruct (_ <? 65536); [|done].
      injection Hadd as <- <- <-. cbn [m_events set_m_events].
      exists (ns ++ [c_str eventName]). split.
      * apply mapM_snoc_Some; [|apply event_name_allocated].
        apply (mapM_event_name_mono s); [apply allocated_fresh_subseteq | done].
      * intros n [Hn|Hn]%elem_of_app; [by apply Hweak|].
        apply list_elem_of_singleton in Hn as ->. exists eventName.
        split; [apply list_elem_of_here | done].
    + injection Hadd as <- <- <-. by exists ns.
  - destruct IH as (ns & Hns & Hin). exists ns. split; [|done].
    by rewrite (mapM_event_name_kept s).
Qed.

(** C8. For a provider whose [AddEvent] has never been passed the event
    name, [WriteEvent] returns [STATUS_UNSUCCESSFUL] and leaves the whole
    machine as it was; in particular there is no call of [EtwWrite]. *)
Theorem WriteEvent_unknown_event (names : list (list Z)) (eventName : list Z)
    (ed : EVENT_DESCRIPTOR) (fields : va_list) (this : EtwProvider) (s : machine) :
  provider_history K names this s ->
  Forall (fun name => strcmp eventName name <> 0) names ->
  EtwProvider_WriteEvent K eventName ed fields this s = Done STATUS_UNSUCCESSFUL s.
Proof.
  intros Hhist Hnames.
  destruct (provider_history_names _ _ _ Hhist) as (ns & Hns & Hin).
  assert (Hf : find_event eventName (m_events this) s = Done None s).
  { apply find_event_None. exists ns. split; [done|].
    intros Hn. destruct (Hin _ Hn) as (m & Hm & Heq).
    rewrite Forall_forall in Hnames. apply (Hnames m Hm). by apply strcmp_c_str. }
  unfold EtwProvider_WriteEvent, EtwProvider_FindEvent, bind. by rewrite Hf.
Qed.

End Emission.

(** ** Unique names in every reachable state *)

Lemma cache_unique_frame (s s' : machine) :
  frame s s' -> cache_unique s -> cache_unique s'.
Proof.
  intros [Hsub Hc] Hinv this Hin. rewrite Hc in Hin.
  by apply (names_unique_mono s), Hinv.
Qed.

Lemma names_unique_no_events (s : machine) (this : EtwProvider) :
  m_events this = [] -> names_unique s this.
Proof.
  intros H. exists []. unfold event_names. rewrite H. split; [done | apply NoDup_nil_2].
Qed.

Section Invariant.

Context (K : Kernel).

(** [AddEvent] keeps the names of a provider's builders distinct. *)
Lemma EtwProvider_AddEvent_names_unique (eventName : list Z) (fields : va_list)
    (this this' : EtwProvider) (s s' : machine) (status : NTSTATUS) :
  names_unique s this ->
  EtwProvider_AddEvent K eventName fields this s = Done (status, this') s' ->
  names_unique s' this' /\ frame s s'.
Proof.
  intros Hu H. rewrite EtwProvider_AddEvent_eq in H.
  destruct (find_event_cases eventName (m_events this) s) as [Hf|[Hf|[e Hf]]];
    rewrite Hf in H; [done| |].
  - destruct (pool_grants K _ _); cycle 1.
    { injection H as <- <- <-. split; [done | apply frame_denied]. }
    destruct (_ <? 65536); [|done].
    injection H as <- <- <-. split; [|apply frame_allocated].
    apply find_event_None in Hf as (ns & Hns & Hnot).
    exists (ns ++ [c_str eventName]). split.
    + unfold event_names. cbn [m_events set_m_events].
      apply mapM_snoc_Some; [|apply event_name_allocated].
      apply (mapM_event_name_mono s); [apply allocated_fresh_subseteq | done].
    + destruct Hu as (ns' & Hns' & Hd). unfold event_names in Hns'.
      rewrite Hns in Hns'. injection Hns' as <-.
      apply NoDup_app. split_and!; [done| |apply NoDup_singleton].
      intros n Hn ->%list_elem_of_singleton. done.
  - injection H as <- <- <-. split; [done | apply frame_refl].
Qed.

(** [EtwTrace] keeps the names distinct in every provider of the cache,
    and leaves the objects in memory as they are. *)
Lemma EtwTrace_cache_unique (providerName : list Z) (providerGuid : GUID)
    (eventName : list Z) (eventLevel keyword : Z) (fields : va_list) (s s' : machine)
    (status : NTSTATUS) :
  cache_unique s ->
  EtwTrace K providerName providerGuid eventName eventLevel keyword fields s
  = Done status s' ->
  cache_unique s' /\ mem s ⊆ mem s'.
Proof.
  intros Hinv H. unfold EtwTrace, bind at 1, KeGetCurrentIrql in H.
  destruct (irql s >? PASSIVE_LEVEL); [by injection H as <- <-|].
  unfold bind at 1, FindProvider in H.
  apply bind_Done in H as (got & sA & Hgot & H).
  assert (HA : cache_unique sA /\ mem s ⊆ mem sA).
  { destruct (find_provider providerGuid (g_ProviderCache s) 0) as [i|].
    - by injection Hgot as <- <-.
    - apply bind_Done in Hgot as ([st0 new] & s1 & Hinit & Hk).
      apply EtwProvider_Initialize_frame in Hinit as [Hfr Hev].
      destruct (negb (st0 =? STATUS_SUCCESS)).
      + injection Hk as <- <-. split; [by apply (cache_unique_frame s) | apply Hfr].
      + unfold bind, cache_push_back, ret in Hk. injection Hk as <- <-.
        destruct Hfr as [Hsub Hc]. split; [|done].
        intros this [Hin|Hin]%elem_of_app.
        * rewrite Hc in Hin. by apply (names_unique_mono s), Hinv.
        * apply list_elem_of_singleton in Hin as ->.
          by apply names_unique_no_events. }
  destruct HA as (HinvA & HsubA).
  destruct got as [st0|i]; [by injection H as <- <-|].
  apply bind_Done in H as (this & sA' & Hget & H).
  unfold cache_get in Hget.
  destruct (g_ProviderCache sA !! i) as [this0|] eqn:Hi; [|done].
  injection Hget as <- <-.
  apply bind_Done in H as ([st1 this1] & sB & Hadd & H).
  apply EtwProvider_AddEvent_names_unique in Hadd as [Hu1 [HsubB HcB]];
    [|by apply HinvA, list_elem_of_lookup; exists i].
  unfold bind at 1, cache_set in H.
  set (sC := set_g_ProviderCache _ sB) in H.
  assert (HinvC : cache_unique sC).
  { intros this [j Hj]%list_elem_of_lookup.
    cbn [sC g_ProviderCache set_g_ProviderCache] in Hj.
    apply list_lookup_insert_Some in Hj as [(_ & <- & _)|[_ Hj]]; [done|].
    rewrite HcB in Hj. apply (names_unique_mono sA); [done|].
    apply HinvA, list_elem_of_lookup. by exists j. }
  assert (HsubC : mem s ⊆ mem sC) by (by trans (mem sA)).
  destruct (negb (st1 =? STATUS_SUCCESS)); [by injection H as <- <-|].
  apply EtwProvider_WriteEvent_Done in H as [Hfr _].
  split; [by apply (cache_unique_frame sC) | by trans (mem sC); [|apply Hfr]].
Qed.

(** C10. In every reachable state, each provider in the cache has
    builders of pairwise distinct names, and any call of [EtwTrace] from
    such a state, with the calls of [AddEvent] and [WriteEvent] it makes,
    ends in a state for which this holds again. *)
Theorem reachable_names_unique (s : machine) :
  reachable K s ->
  (forall this, this ∈ g_ProviderCache s -> names_unique s this)
  /\ (forall providerName providerGuid eventName eventLevel keyword fields status s',
        EtwTrace K providerName providerGuid eventName eventLevel keyword fields s
        = Done status s' ->
        forall this, this ∈ g_ProviderCache s' -> names_unique s' this).
Proof.
  intros Hr.
  assert (Hinv : cache_unique s).
  { induction Hr as [s Hboot|s pn pg en el kw fs st s' _ IH Htrace|s s' _ IH Hc Hkept].
    - intros this Hin. rewrite Hboot in Hin. by apply elem_of_nil in Hin.
    - by apply EtwTrace_cache_unique in Htrace as [? _].
    - intros this Hin. rewrite Hc in Hin.
      apply (names_unique_kept s); [by apply Hkept | by apply IH]. }
  split; [exact Hinv|].
  intros pn pg en el kw fs st s' Htrace.
  by apply EtwTrace_cache_unique in Htrace as [? _].
Qed.

End Invariant.

(** ** The metadata blobs *)

Section Blobs.

Context (K : Kernel).

(** While the length by the names fits into 16 bits, the event metadata
    is built as measured: [TotalLength], the size in the descriptor, the
    number of bytes allocated and the number of bytes written all equal
    that length. *)
Lemma EtwProviderEvent_Initialize_exact (eventName : list Z) (fields : va_list)
    (this : EtwProviderEvent) (s : machine) :
  Z.of_nat (serialized_length eventName fields) < 65536 ->
  pool_grants K (pool_requests s) (serialized_length eventName fields) = true ->
  exists event s',
    EtwProviderEvent_Initialize K eventName fields this s = Done (STATUS_SUCCESS, event) s'
    /\ mem s !! Ptr (m_eventMetadataDesc event) = None
    /\ mem s' !! Ptr (m_eventMetadataDesc event)
       = Some (event_metadata_bytes eventName fields)
    /\ le_value (take 2 (event_metadata_bytes eventName fields))
       = Z.of_nat (serialized_length eventName fields)
    /\ Size (m_eventMetadataDesc event) = Z.of_nat (serialized_length eventName fields)
    /\ length (event_metadata_bytes eventName fields)
       = serialized_length eventName fields.
Proof.
  intros Hfit Hgrant. rewrite EtwProviderEvent_Initialize_eq.
  pose proof (eventMetadataLength_eq eventName fields) as Hlen.
  rewrite uint16_t_small in Hlen by lia.
  rewrite Hlen, Nat2Z.id, Hgrant.
  destruct (Z.ltb_spec (Z.of_nat (serialized_length eventName fields)) 65536); [|lia].
  eexists _, _. split; [done|]. cbn [m_eventMetadataDesc Ptr Size].
  split_and!; [apply fresh_address_unused | apply lookup_allocated | | done
               | apply length_event_metadata_bytes].
  unfold event_metadata_bytes.
  rewrite take_app_length' by (by rewrite length_le_bytes).
  rewrite le_value_le_bytes_2, Hlen. apply uint16_t_small. lia.
Qed.

(** Likewise for the provider metadata. *)
Lemma EtwProvider_Initialize_exact (providerName : list Z) (this : EtwProvider)
    (s : machine) (h : Z) :
  Z.of_nat (strlen providerName + 1 + 2) < 65536 ->
  EtwRegister_returns K (etw_calls s) (m_guid this) = (STATUS_SUCCESS, h) ->
  pool_grants K (pool_requests s) (strlen providerName + 1 + 2) = true ->
  exists status this' s',
    EtwProvider_Initialize K providerName this s = Done (status, this') s'
    /\ mem s' !! fresh_address (mem s) = Some (provider_metadata_bytes providerName)
    /\ provider_metadata_bytes providerName
       = le_bytes 2 (Z.of_nat (strlen providerName + 1 + 2))
         ++ c_str providerName ++ [0]
    /\ (status = STATUS_SUCCESS ->
        m_providerMetadataDesc this'
        = mkDataDesc (fresh_address (mem s)) (Z.of_nat (strlen providerName + 1 + 2))
            EVENT_DATA_DESCRIPTOR_TYPE_PROVIDER_METADATA).
Proof.
  intros Hfit Hreg Hgrant. rewrite EtwProvider_Initialize_eq. cbv zeta.
  rewrite Hreg. cbn [fst snd].
  change (negb (STATUS_SUCCESS =? STATUS_SUCCESS)) with false. cbv iota.
  assert (Hlen : providerMetadataLength providerName
                 = Z.of_nat (strlen providerName + 1 + 2)).
  { unfold providerMetadataLength. by rewrite uint16_t_small by lia. }
  rewrite Hlen, Nat2Z.id, Hgrant.
  destruct (Z.ltb_spec (Z.of_nat (strlen providerName + 1 + 2)) 65536); [|lia].
  assert (Hbytes : provider_metadata_bytes providerName
                   = le_bytes 2 (Z.of_nat (strlen providerName + 1 + 2))
                     ++ c_str providerName ++ [0]).
  { unfold provider_metadata_bytes. by rewrite Hlen. }
  destruct (negb (EtwSetInformation_returns K _ _ _ _ _ =? STATUS_SUCCESS)) eqn:Hst.
  - eexists _, _, _. split; [done|].
    split_and!; [apply lookup_insert_eq | done |].
    intros Heq. by rewrite Heq in Hst.
  - eexists _, _, _. split; [done|].
    split_and!; [apply lookup_insert_eq | done | done].
Qed.

End Blobs.

(** C1, where the code fails. For an event name of 65533 characters and
    no fields the length by the names is 65537, the measured length that
    becomes [TotalLength] and the allocation size is 1, and when the pool
    grants that byte, [Initialize] writes past it. *)
Theorem EtwProviderEvent_Initialize_long_name :
  Z.of_nat (serialized_length long_name []) = 65537
  /\ eventMetadataLength long_name [] = 1
  /\ forall K this s,
       EtwProviderEvent_Initialize K long_name [] this s
       = if pool_grants K (pool_requests s) 1
         then Undefined
         else Done (STATUS_UNSUCCESSFUL, this) (denied s).
Proof.
  assert (H1 : Z.of_nat (serialized_length long_name []) = 65537) by (by vm_compute).
  assert (H2 : eventMetadataLength long_name [] = 1) by (by vm_compute).
  split_and!; [done..|].
  intros K this s. rewrite EtwProviderEvent_Initialize_eq, H1, H2. done.
Qed.

(** C9, where the code fails. For a provider name of 65533 characters the
    length by the name is 65536 and the measured length that becomes
    [TotalLength] and the allocation size is 0; once registration has
    succeeded and the pool has granted the empty object, [Initialize]
    writes past it. *)
Theorem EtwProvider_Initialize_long_name :
  Z.of_nat (strlen long_name + 1 + 2) = 65536
  /\ providerMetadataLength long_name = 0
  /\ EtwProvider_Initialize sample_kernel long_name (EtwProvider_new sample_guid)
       sample_boot
     = Undefined.
Proof.
  assert (H1 : Z.of_nat (strlen long_name + 1 + 2) = 65536) by (by vm_compute).
  assert (H2 : providerMetadataLength long_name = 0) by (by vm_compute).
  split_and!; [done..|].
  rewrite EtwProvider_Initialize_eq. cbv zeta. rewrite H1, H2. done.
Qed.

(** The provider metadata for "Contoso": ten bytes, [TotalLength] 10. *)
Lemma provider_metadata_Contoso :
  providerMetadataLength (ascii_bytes "Contoso") = 10
  /\ provider_metadata_bytes (ascii_bytes "Contoso")
     = [10; 0; 67; 111; 110; 116; 111; 115; 111; 0].
Proof. by vm_compute. Qed.

(** ** The properties at the sample inputs *)

(** C2 at the sample input: the event written once more after the sample
    call of [EtwTrace]. The array holds the provider metadata descriptor
    (10 bytes at 1001), the descriptor of the builder for "UserLogin" (the
    21 bytes of the event's metadata at 1002) and the descriptor of the
    field (the 4 bytes of 42 at 1006). *)
Lemma WriteEvent_descriptor_array_witness :
  EtwProvider_WriteEvent sample_kernel (ascii_bytes "UserLogin") sample_descriptor
    sample_fields sample_provider sample_traced
  = Done STATUS_SUCCESS sample_written
  /\ (exists i event UserData,
        m_events sample_provider !! i = Some event
        /\ event_name sample_traced event = Some (c_str (ascii_bytes "UserLogin"))
        /\ (forall j e, (j < i)%nat -> m_events sample_provider !! j = Some e ->
              event_name sample_traced e <> Some (c_str (ascii_bytes "UserLogin")))
        /\ etw_calls sample_written
           = Call_EtwWrite (m_regHandle sample_provider) sample_descriptor
               (Z.of_nat (length sample_fields) + 2) UserData
               :: etw_calls sample_traced
        /\ length UserData = (length sample_fields + 2)%nat
        /\ UserData !! 0%nat = Some (m_providerMetadataDesc sample_provider)
        /\ UserData !! 1%nat = Some (m_eventMetadataDesc event)
        /\ forall k f, sample_fields !! k = Some f ->
             exists d, UserData !! (k + 2)%nat = Some d
                       /\ field_described sample_kernel sample_traced sample_written f d)
  /\ etw_calls sample_written
     = Call_EtwWrite 77 sample_descriptor 3
         [mkDataDesc 1001 10 2; mkDataDesc 1002 21 1; mkDataDesc 1006 4 0]
         :: etw_calls sample_traced
  /\ m_providerMetadataDesc sample_provider = mkDataDesc 1001 10 2
  /\ m_events sample_provider = [mkEvent (mkDataDesc 1002 21 1)]
  /\ mem sample_traced !! 1002
     = Some (event_metadata_bytes (ascii_bytes "UserLogin") sample_fields)
  /\ mem sample_written !! 1006 = Some [42; 0; 0; 0].
Proof.
  assert (H : EtwProvider_WriteEvent sample_kernel (ascii_bytes "UserLogin")
                sample_descriptor sample_fields sample_provider sample_traced
              = Done STATUS_SUCCESS sample_written) by (vm_compute; reflexivity).
  split; [exact H|].
  split; [exact (WriteEvent_descriptor_array sample_kernel _ _ _ _ _ _ H)|].
  split_and!; vm_compute; reflexivity.
Defined.

(** C3 at the sample input: "UserLogin" added to a new provider, then
    added again with another field list. *)
Lemma AddEvent_idempotent_witness :
  names_unique sample_boot (EtwProvider_new sample_guid)
  /\ EtwProvider_AddEvent sample_kernel (ascii_bytes "UserLogin") sample_fields
       (EtwProvider_new sample_guid) sample_boot
     = Done (STATUS_SUCCESS, sample_added_provider) sample_added
  /\ EtwProvider_AddEvent sample_kernel (ascii_bytes "UserLogin") string_fields
       sample_added_provider sample_added
     = Done (STATUS_SUCCESS, sample_added_provider) sample_added
  /\ builders_named sample_added sample_added_provider (ascii_bytes "UserLogin") = 1%nat.
Proof.
  assert (H1 : names_unique sample_boot (EtwProvider_new sample_guid)).
  { exists []. split; [reflexivity | constructor]. }
  assert (H2 : EtwProvider_AddEvent sample_kernel (ascii_bytes "UserLogin") sample_fields
                 (EtwProvider_new sample_guid) sample_boot
               = Done (STATUS_SUCCESS, sample_added_provider) sample_added)
    by (vm_compute; reflexivity).
  split; [exact H1|]. split; [exact H2|].
  exact (AddEvent_idempotent sample_kernel _ sample_fields string_fields _ _ _ _ H1 H2).
Defined.

(** C4 as stated fails here: the field has an unsupported type tag, its
    size is 0, and [WriteEvent] returns success after passing a
    descriptor of size 0 for it to [EtwWrite]. *)
Lemma unsupported_field_not_rejected :
  supported_field_type EtwFieldPointer = false
  /\ SizeOfField sample_kernel EtwFieldPointer (AddressOfLocal 5) sample_traced
     = Done O sample_traced
  /\ EtwProvider_WriteEvent sample_kernel (ascii_bytes "UserLogin") sample_descriptor
       pointer_fields sample_provider sample_traced
     = Done STATUS_SUCCESS sample_pointer_written
  /\ etw_calls sample_pointer_written
     = Call_EtwWrite 77 sample_descriptor 3
         [mkDataDesc 1001 10 2; mkDataDesc 1002 21 1; mkDataDesc 1006 0 0]
         :: etw_calls sample_traced.
Proof. split_and!; vm_compute; reflexivity. Qed.

(** C4, as the code has it, at the same input. *)
Lemma WriteEvent_unsupported_field_witness :
  pointer_fields !! 0%nat = Some (ascii_bytes "Where", EtwFieldPointer, 5)
  /\ supported_field_type EtwFieldPointer = false
  /\ EtwProvider_WriteEvent sample_kernel (ascii_bytes "UserLogin") sample_descriptor
       pointer_fields sample_provider sample_traced
     = Done STATUS_SUCCESS sample_pointer_written
  /\ SizeOfField sample_kernel EtwFieldPointer (field_pointer EtwFieldPointer 5)
       sample_traced
     = Done O sample_traced
  /\ ((STATUS_SUCCESS = STATUS_UNSUCCESSFUL
       /\ etw_calls sample_pointer_written = etw_calls sample_traced
       /\ (EtwProvider_FindEvent (ascii_bytes "UserLogin") sample_provider sample_traced
           = Done None sample_traced
           \/ exists n,
                pool_grants sample_kernel (pred (pool_requests sample_pointer_written)) n
                = false))
      \/ (exists UserData d,
            etw_calls sample_pointer_written
            = Call_EtwWrite (m_regHandle sample_provider) sample_descriptor
                (Z.of_nat (length pointer_fields) + 2) UserData
                :: etw_calls sample_traced
            /\ STATUS_SUCCESS
               = EtwWrite_returns sample_kernel (etw_calls sample_traced)
                   (m_regHandle sample_provider) sample_descriptor
                   (Z.of_nat (length pointer_fields) + 2) UserData
            /\ UserData !! (0 + 2)%nat = Some d
            /\ Ptr d <> NULL /\ Size d = 0
            /\ mem sample_pointer_written !! Ptr d = Some [])).
Proof.
  assert (H1 : pointer_fields !! 0%nat = Some (ascii_bytes "Where", EtwFieldPointer, 5))
    by reflexivity.
  assert (H2 : supported_field_type EtwFieldPointer = false) by reflexivity.
  assert (H3 : EtwProvider_WriteEvent sample_kernel (ascii_bytes "UserLogin")
                 sample_descriptor pointer_fields sample_provider sample_traced
               = Done STATUS_SUCCESS sample_pointer_written)
    by (vm_compute; reflexivity).
  split; [exact H1|]. split; [exact H2|]. split; [exact H3|].
  exact (WriteEvent_unsupported_field sample_kernel _ _ _ _ _ _ _ _ _ _ _ H1 H2 H3).
Defined.

(** C5 as stated fails here: the string field's value is the address
    1000 of the caller's "hi", and the descriptor passed to [EtwWrite]
    points at address 1006, a new object that holds a copy. *)
Lemma string_field_not_pointed_at :
  EtwProvider_WriteEvent sample_kernel (ascii_bytes "UserLogin") sample_descriptor
    string_fields sample_provider sample_traced
  = Done STATUS_SUCCESS sample_string_written
  /\ etw_calls sample_string_written
     = Call_EtwWrite 77 sample_descriptor 3
         [mkDataDesc 1001 10 2; mkDataDesc 1002 21 1; mkDataDesc 1006 3 0]
         :: etw_calls sample_traced
  /\ 1006 <> 1000
  /\ mem sample_traced !! 1006 = None
  /\ mem sample_string_written !! 1006 = Some (ascii_bytes "hi" ++ [0])
  /\ mem sample_string_written !! 1000 = Some (ascii_bytes "hi" ++ [0]).
Proof. split_and!; vm_compute; (reflexivity || discriminate). Qed.

(** C5, as the code has it, at the same input. *)
Lemma WriteEvent_string_field_copied_witness :
  EtwProvider_WriteEvent sample_kernel (ascii_bytes "UserLogin") sample_descriptor
    string_fields sample_provider sample_traced
  = Done STATUS_SUCCESS sample_string_written
  /\ string_fields !! 0%nat = Some (ascii_bytes "Greeting", EtwFieldAnsiString, 1000)
  /\ mem sample_traced !! 1000 = Some (ascii_bytes "hi" ++ [0])
  /\ exists UserData d,
       etw_calls sample_string_written
       = Call_EtwWrite (m_regHandle sample_provider) sample_descriptor
           (Z.of_nat (length string_fields) + 2) UserData
           :: etw_calls sample_traced
       /\ UserData !! (0 + 2)%nat = Some d
       /\ Ptr d <> 1000
       /\ mem sample_traced !! Ptr d = None
       /\ mem sample_string_written !! Ptr d = Some (c_str (ascii_bytes "hi" ++ [0]) ++ [0])
       /\ Size d = ULONG (Z.of_nat (strlen (ascii_bytes "hi" ++ [0]) + 1))
       /\ mem sample_string_written !! 1000 = Some (ascii_bytes "hi" ++ [0])
       /\ forall j f, string_fields !! j = Some f ->
            exists d', UserData !! (j + 2)%nat = Some d'
                       /\ field_described sample_kernel sample_traced
                            sample_string_written f d'.
Proof.
  assert (H1 : EtwProvider_WriteEvent sample_kernel (ascii_bytes "UserLogin")
                 sample_descriptor string_fields sample_provider sample_traced
               = Done STATUS_SUCCESS sample_string_written)
    by (vm_compute; reflexivity).
  assert (H2 : string_fields !! 0%nat
               = Some (ascii_bytes "Greeting", EtwFieldAnsiString, 1000)) by reflexivity.
  assert (H3 : mem sample_traced !! 1000 = Some (ascii_bytes "hi" ++ [0]))
    by (vm_compute; reflexivity).
  split_and!; [exact H1 | exact H2 | exact H3 |].
  exact (WriteEvent_string_field_copied sample_kernel _ _ _ _ _ _ _ _ _ _ H1 H2 H3).
Defined.

(** C6 at the sample input: the sample call repeated at IRQL 2. *)
Lemma EtwTrace_above_PASSIVE_LEVEL_witness :
  irql (set_irql 2 sample_traced) > PASSIVE_LEVEL
  /\ EtwTrace sample_kernel (ascii_bytes "Contoso") sample_guid (ascii_bytes "UserLogin")
       4 1 sample_fields (set_irql 2 sample_traced)
     = Done STATUS_UNSUCCESSFUL (set_irql 2 sample_traced).
Proof.
  assert (H : irql (set_irql 2 sample_traced) > PASSIVE_LEVEL) by reflexivity.
  split; [exact H|].
  exact (EtwTrace_above_PASSIVE_LEVEL sample_kernel _ _ _ _ _ _ _ H).
Defined.

(** C7 at the sample input: the sample call with a kernel whose
    [EtwRegister] fails. *)
Lemma EtwTrace_Initialize_failure_witness :
  irql sample_boot <= PASSIVE_LEVEL
  /\ FindProvider sample_guid sample_boot = Done None sample_boot
  /\ EtwProvider_Initialize unregistering_kernel (ascii_bytes "Contoso")
       (EtwProvider_new sample_guid) sample_boot
     = Done (STATUS_UNSUCCESSFUL, EtwProvider_new sample_guid)
         (set_etw_calls [Call_EtwRegister sample_guid] sample_boot)
  /\ STATUS_UNSUCCESSFUL <> STATUS_SUCCESS
  /\ EtwTrace unregistering_kernel (ascii_bytes "Contoso") sample_guid
       (ascii_bytes "UserLogin") 4 1 sample_fields sample_boot
     = Done STATUS_UNSUCCESSFUL (set_etw_calls [Call_EtwRegister sample_guid] sample_boot)
  /\ g_ProviderCache (set_etw_calls [Call_EtwRegister sample_guid] sample_boot)
     = g_ProviderCache sample_boot.
Proof.
  assert (H1 : irql sample_boot <= PASSIVE_LEVEL) by (vm_compute; discriminate).
  assert (H2 : FindProvider sample_guid sample_boot = Done None sample_boot)
    by reflexivity.
  assert (H3 : EtwProvider_Initialize unregistering_kernel (ascii_bytes "Contoso")
                 (EtwProvider_new sample_guid) sample_boot
               = Done (STATUS_UNSUCCESSFUL, EtwProvider_new sample_guid)
                   (set_etw_calls [Call_EtwRegister sample_guid] sample_boot))
    by (vm_compute; reflexivity).
  assert (H4 : STATUS_UNSUCCESSFUL <> STATUS_SUCCESS) by (vm_compute; discriminate).
  split_and!; [exact H1 | exact H2 | exact H3 | exact H4 | |];
    apply (EtwTrace_Initialize_failure unregistering_kernel (ascii_bytes "Contoso")
             sample_guid (ascii_bytes "UserLogin") 4 1 sample_fields _ _ _ _
             H1 H2 H3 H4).
Defined.

(** C8 at the sample input: "UserLogout" written to a provider that only
    knows "UserLogin". *)
Lemma WriteEvent_unknown_event_witness :
  provider_history sample_kernel [ascii_bytes "UserLogin"] sample_added_provider
    sample_added
  /\ Forall (fun name => strcmp (ascii_bytes "UserLogout") name <> 0)
       [ascii_bytes "UserLogin"]
  /\ EtwProvider_WriteEvent sample_kernel (ascii_bytes "UserLogout") sample_descriptor
       sample_fields sample_added_provider sample_added
     = Done STATUS_UNSUCCESSFUL sample_added.
Proof.
  assert (H1 : provider_history sample_kernel [ascii_bytes "UserLogin"]
                 sample_added_provider sample_added).
  { apply (history_AddEvent sample_kernel [] (EtwProvider_new sample_guid) sample_boot
             (ascii_bytes "UserLogin") sample_fields STATUS_SUCCESS).
    - apply history_new.
    - vm_compute; reflexivity. }
  assert (H2 : Forall (fun name => strcmp (ascii_bytes "UserLogout") name <> 0)
                 [ascii_bytes "UserLogin"]).
  { constructor; [vm_compute; discriminate | constructor]. }
  split_and!; [exact H1 | exact H2 |].
  exact (WriteEvent_unknown_event sample_kernel _ _ _ _ _ _ H1 H2).
Defined.

(** C10 at the sample input: the state after the sample call. *)
Lemma reachable_names_unique_witness :
  reachable sample_kernel sample_traced
  /\ (forall this, this ∈ g_ProviderCache sample_traced -> names_unique sample_traced this)
  /\ (forall providerName providerGuid eventName eventLevel keyword fields status s',
        EtwTrace sample_kernel providerName providerGuid eventName eventLevel keyword
          fields sample_traced
        = Done status s' ->
        forall this, this ∈ g_ProviderCache s' -> names_unique s' this).
Proof.
  assert (H : reachable sample_kernel sample_traced).
  { apply (reachable_EtwTrace sample_kernel sample_boot (ascii_bytes "Contoso")
             sample_guid (ascii_bytes "UserLogin") 4 1 sample_fields STATUS_SUCCESS).
    - apply reachable_boot. reflexivity.
    - vm_compute; reflexivity. }
  split; [exact H|].
  exact (reachable_names_unique sample_kernel _ H).
Defined.

(** * Further properties *)

(** ** Building metadata *)

Section MetadataOutcomes.

Context (K : Kernel).

(** X1. Whenever [EtwProviderEvent::Initialize] completes, either the
    pool has denied the request, the status is [STATUS_UNSUCCESSFUL], and
    the builder and memory are as before; or the status is
    [STATUS_SUCCESS], the length by the names fits into 16 bits, and the
    builder points at a new object that holds exactly the metadata
    bytes. *)
Theorem EtwProviderEvent_Initialize_Done (eventName : list Z) (fields : va_list)
    (this event : EtwProviderEvent) (s s' : machine) (status : NTSTATUS) :
  EtwProviderEvent_Initialize K eventName fields this s = Done (status, event) s' ->
  (status = STATUS_UNSUCCESSFUL /\ event = this /\ mem s' = mem s
   /\ pool_grants K (pool_requests s) (Z.to_nat (eventMetadataLength eventName fields))
      = false)
  \/ (status = STATUS_SUCCESS
      /\ Z.of_nat (serialized_length eventName fields) < 65536
      /\ m_eventMetadataDesc event
         = mkDataDesc (fresh_address (mem s))
             (Z.of_nat (length (event_metadata_bytes eventName fields)))
             EVENT_DATA_DESCRIPTOR_TYPE_EVENT_METADATA
      /\ mem s' = <[fresh_address (mem s) := event_metadata_bytes eventName fields]> (mem s)
      /\ mem s !! fresh_address (mem s) = None).
Proof.
  rewrite EtwProviderEvent_Initialize_eq.
  destruct (pool_grants K _ _) eqn:G; cycle 1.
  { intros [= <- <- <-]. by left. }
  destruct (Z.ltb_spec (Z.of_nat (serialized_length eventName fields)) 65536); [|done].
  intros [= <- <- <-]. right.
  rewrite length_event_metadata_bytes.
  split_and!; [done..|apply fresh_address_unused].
Qed.

(** X2. The name survives the round trip: after a successful
    [Initialize], [Name()] points at a string that [strcmp] finds equal
    to the event name. *)
Theorem EtwProviderEvent_Name_Initialize (eventName : list Z) (fields : va_list)
    (this event : EtwProviderEvent) (s s' : machine) :
  EtwProviderEvent_Initialize K eventName fields this s
  = Done (STATUS_SUCCESS, event) s' ->
  exists name,
    EtwProviderEvent_Name event s' = Done name s'
    /\ strcmp eventName name = 0
    /\ c_str name = c_str eventName.
Proof.
  rewrite EtwProviderEvent_Initialize_eq.
  destruct (pool_grants K _ _); [|by intros [=]].
  destruct (_ <? 65536); [|done].
  intros [= <- <-].
  pose proof (event_name_allocated eventName fields (fresh_address (mem s))
                (Z.of_nat (serialized_length eventName fields))
                EVENT_DATA_DESCRIPTOR_TYPE_EVENT_METADATA s) as Hn.
  unfold event_name in Hn. unfold EtwProviderEvent_Name.
  destruct (event_name_region _ _) as [name|]; [|done].
  injection Hn as Hn. exists name. split_and!; [done| |done].
  by apply strcmp_c_str.
Qed.

(** X3. With registration and trait installation succeeding, the pool
    granting the request and the name fitting into 16 bits,
    [EtwProvider::Initialize] returns [STATUS_SUCCESS]: the provider has
    the handle of [EtwRegister] and a descriptor for a new object that
    holds [TotalLength] and the terminated name, and that object is what
    [EtwSetInformation] was given. Identifier and events are as they
    were. *)
Theorem EtwProvider_Initialize_success (providerName : list Z) (this : EtwProvider)
    (s : machine) (h : Z) :
  EtwRegister_returns K (etw_calls s) (m_guid this) = (STATUS_SUCCESS, h) ->
  Z.of_nat (strlen providerName + 1 + 2) < 65536 ->
  pool_grants K (pool_requests s) (strlen providerName + 1 + 2) = true ->
  EtwSetInformation_returns K (Call_EtwRegister (m_guid this) :: etw_calls s) h
    EventProviderSetTraits
    (le_bytes 2 (Z.of_nat (strlen providerName + 1 + 2)) ++ c_str providerName ++ [0])
    (Z.of_nat (strlen providerName + 1 + 2))
  = STATUS_SUCCESS ->
  exists s',
    EtwProvider_Initialize K providerName this s
    = Done (STATUS_SUCCESS,
            mkProvider (m_guid this) h
              (mkDataDesc (fresh_address (mem s))
                 (Z.of_nat (strlen providerName + 1 + 2))
                 EVENT_DATA_DESCRIPTOR_TYPE_PROVIDER_METADATA)
              (m_events this)) s'
    /\ mem s'
       = <[fresh_address (mem s) :=
             le_bytes 2 (Z.of_nat (strlen providerName + 1 + 2))
             ++ c_str providerName ++ [0]]> (mem s)
    /\ etw_calls s'
       = Call_EtwSetInformation h EventProviderSetTraits
           (le_bytes 2 (Z.of_nat (strlen providerName + 1 + 2))
            ++ c_str providerName ++ [0])
           (Z.of_nat (strlen providerName + 1 + 2))
           :: Call_EtwRegister (m_guid this) :: etw_calls s
    /\ g_ProviderCache s' = g_ProviderCache s.
Proof.
  intros Hreg Hfit Hgrant Hset. rewrite EtwProvider_Initialize_eq. cbv zeta.
  rewrite Hreg. cbn [fst snd].
  change (negb (STATUS_SUCCESS =? STATUS_SUCCESS)) with false. cbv iota.
  assert (Hlen : providerMetadataLength providerName
                 = Z.of_nat (strlen providerName + 1 + 2)).
  { unfold providerMetadataLength. by rewrite uint16_t_small by lia. }
  assert (Hbytes : provider_metadata_bytes providerName
                   = le_bytes 2 (Z.of_nat (strlen providerName + 1 + 2))
                     ++ c_str providerName ++ [0]).
  { unfold provider_metadata_bytes. by rewrite Hlen. }
  rewrite Hlen, Nat2Z.id, Hgrant, Hbytes.
  destruct (Z.ltb_spec (Z.of_nat (strlen providerName + 1 + 2)) 65536); [|lia].
  cbn [etw_calls set_etw_calls]. rewrite Hset.
  change (negb (STATUS_SUCCESS =? STATUS_SUCCESS)) with false. cbv iota.
  eexists. split; [reflexivity|]. done.
Qed.

(** X4. When [EtwProvider::Initialize] returns a failure, the provider
    has only gained the handle of [EtwRegister]: its descriptor, events
    and identifier are as before, and the cache is untouched. The cause
    is one of three: [EtwRegister] failed, and memory is as before; the
    pool denied the request, and memory is as before; or
    [EtwSetInformation] failed, and then the metadata object stays
    allocated although the provider does not point at it. *)
Theorem EtwProvider_Initialize_failed (providerName : list Z) (this this' : EtwProvider)
    (s s' : machine) (status : NTSTATUS) :
  EtwProvider_Initialize K providerName this s = Done (status, this') s' ->
  status <> STATUS_SUCCESS ->
  this' = set_m_regHandle (EtwRegister_returns K (etw_calls s) (m_guid this)).2 this
  /\ g_ProviderCache s' = g_ProviderCache s
  /\ ((status = (EtwRegister_returns K (etw_calls s) (m_guid this)).1
       /\ mem s' = mem s
       /\ etw_calls s' = Call_EtwRegister (m_guid this) :: etw_calls s)
      \/ (status = STATUS_UNSUCCESSFUL
          /\ pool_grants K (pool_requests s)
               (Z.to_nat (providerMetadataLength providerName)) = false
          /\ mem s' = mem s
          /\ etw_calls s' = Call_EtwRegister (m_guid this) :: etw_calls s)
      \/ (exists traits,
            etw_calls s'
            = Call_EtwSetInformation
                (EtwRegister_returns K (etw_calls s) (m_guid this)).2
                EventProviderSetTraits traits (providerMetadataLength providerName)
                :: Call_EtwRegister (m_guid this) :: etw_calls s
            /\ status
               = EtwSetInformation_returns K
                   (Call_EtwRegister (m_guid this) :: etw_calls s)
                   (EtwRegister_returns K (etw_calls s) (m_guid this)).2
                   EventProviderSetTraits traits (providerMetadataLength providerName)
            /\ mem s' = <[fresh_address (mem s) := traits]> (mem s)
            /\ mem s !! fresh_address (mem s) = None
            /\ Ptr (m_providerMetadataDesc this') = Ptr (m_providerMetadataDesc this))).
Proof.
  rewrite EtwProvider_Initialize_eq. cbv zeta.
  destruct (negb (_ =? STATUS_SUCCESS)).
  { intros [= <- <- <-] _. split_and!; [done..|]. by left. }
  destruct (pool_grants K _ _) eqn:G; cycle 1.
  { intros [= <- <- <-] _. split_and!; [done..|]. right. by left. }
  destruct (_ <? 65536); [|done].
  destruct (negb (EtwSetInformation_returns K _ _ _ _ _ =? STATUS_SUCCESS));
    intros [= <- <- <-] Hst; [|done].
  split_and!; [done..|]. right. right. eexists.
  split_and!; [done..|apply fresh_address_unused|done].
Qed.

End MetadataOutcomes.

(** ** Finding and adding events *)

(** X5. On a provider whose builders all carry a name, [FindEvent] leaves
    the machine alone and returns the first builder whose name is the
    event name as a string, and [NULL] exactly when no builder carries
    it. *)
Theorem EtwProvider_FindEvent_first (eventName : list Z) (this : EtwProvider)
    (s : machine) (names : list (list Z)) :
  event_names s this = Some names ->
  exists found,
    EtwProvider_FindEvent eventName this s = Done found s
    /\ match found with
       | None => c_str eventName ∉ names
       | Some e =>
           exists i, m_events this !! i = Some e
                     /\ names !! i = Some (c_str eventName)
                     /\ forall j, (j < i)%nat -> names !! j <> Some (c_str eventName)
       end.
Proof.
  unfold event_names, EtwProvider_FindEvent.
  generalize (m_events this). intros events. revert names.
  induction events as [|e rest IH]; intros names.
  - intros [= <-]. exists None. split; [done | apply not_elem_of_nil].
  - rewrite mapM_cons_Some. intros (n & ns & He & Hrest & ->).
    simpl. unfold bind, EtwProviderEvent_Name.
    unfold event_name in He.
    destruct (event_name_region s e) as [reg|]; [|done].
    injection He as <-.
    destruct (Z.eqb_spec (strcmp eventName reg) 0) as [Heq|Hne].
    + apply strcmp_c_str in Heq. exists (Some e). split; [done|].
      exists O. split_and!; [done | by rewrite Heq | lia].
    + rewrite strcmp_c_str in Hne.
      destruct (IH ns Hrest) as (found & Hf & Hfound). exists found.
      split; [done|]. destruct found as [e'|].
      * destruct Hfound as (i & Hi & Hn & Hfirst). exists (S i).
        split_and!; [done..|]. intros [|j] Hj; simpl; [congruence | apply Hfirst; lia].
      * rewrite not_elem_of_cons. split; [congruence | done].
Qed.

Section AddEventOutcomes.

Context (K : Kernel).


End AddEventOutcomes.

(** ** Field values *)

Lemma take_le_bytes (n m : nat) (v : Z) :
  (n <= m)%nat -> take n (le_bytes m v) = le_bytes n v.
Proof.
  revert m v. induction n as [|n IH]; intros m v Hle; [by rewrite take_0|].
  destruct m as [|m]; [lia|]. simpl. f_equal. apply IH. lia.
Qed.

Lemma le_value_le_bytes (n : nat) (v : Z) :
  le_value (le_bytes n v) = v mod 2 ^ (8 * Z.of_nat n).
Proof.
  revert v. induction n as [|n IH]; intros v.
  - simpl. by rewrite Z.mod_1_r.
  - cbn [le_bytes le_value]. rewrite IH.
    replace (8 * Z.of_nat (S n)) with (8 + 8 * Z.of_nat n) by lia.
    rewrite Z.pow_add_r by lia. change (2 ^ 8) with 256.
    rewrite Z.rem_mul_r by lia. done.
Qed.

Section FieldValues.

Context (K : Kernel).

(** X7. A field that is not a string and whose size is at most 8 bytes is
    copied from the local variable: the new object holds the first bytes
    of the little-endian image of the value, which read back give the
    value reduced to the width of the type. High bits of the type tag
    make no difference to the size. *)
Theorem CreateTraceProperty_scalar (fieldType fieldValue : Z) (s : machine) (n : nat) :
  fieldType <> EtwFieldAnsiString ->
  SizeOfField K (Z.land fieldType 0xFF) (AddressOfLocal fieldValue) s = Done n s ->
  (n <= 8)%nat ->
  pool_grants K (pool_requests s) n = true ->
  CreateTraceProperty K fieldType (field_pointer fieldType fieldValue) s
  = Done (mkDataDesc (fresh_address (mem s)) (Z.of_nat n) 0)
      (allocated (fresh_address (mem s)) (le_bytes n fieldValue) s)
  /\ le_value (le_bytes n fieldValue) = fieldValue mod 2 ^ (8 * Z.of_nat n).
Proof.
  intros Hty Hsize Hn Hgrant. split; [|apply le_value_le_bytes].
  assert (Hq : field_pointer fieldType fieldValue = AddressOfLocal fieldValue).
  { unfold field_pointer. by destruct (Z.eqb_spec fieldType EtwFieldAnsiString). }
  assert (Hsize' : SizeOfField K fieldType (AddressOfLocal fieldValue) s = Done n s).
  { revert Hsize. unfold SizeOfField.
    by rewrite <- Z.land_assoc, Z.land_diag. }
  rewrite CreateTraceProperty_eq, field_bytes_eq, Hq, Hsize', Hgrant, load_eq.
  cbn [object_at]. rewrite length_app, length_le_bytes.
  replace (n <=? 8 + length (stack_beyond K))%nat with true
    by (symmetry; apply Nat.leb_le; lia).
  rewrite take_app_le by (rewrite length_le_bytes; lia).
  rewrite take_le_bytes, length_le_bytes by lia.
  unfold ULONG. rewrite Z.mod_small; [done|].
  split; [lia|]. change (2 ^ 32) with 4294967296. lia.
Qed.

(** X8. A field of type [EtwFieldGuid] is copied from the local variable
    too: of the sixteen bytes of the new object the first eight are the
    little-endian image of the value, the rest is what lies behind the
    local on the stack. Memory at the address the value holds is not
    read. *)
Theorem CreateTraceProperty_Guid (fieldType fieldValue : Z) (s : machine) :
  Z.land fieldType 0xFF = EtwFieldGuid ->
  (8 <= length (stack_beyond K))%nat ->
  pool_grants K (pool_requests s) 16 = true ->
  CreateTraceProperty K fieldType (field_pointer fieldType fieldValue) s
  = Done (mkDataDesc (fresh_address (mem s)) 16 0)
      (allocated (fresh_address (mem s))
         (le_bytes 8 fieldValue ++ take 8 (stack_beyond K)) s).
Proof.
  intros Hty Hstack Hgrant.
  assert (Hne : fieldType <> EtwFieldAnsiString) by (intros ->; done).
  assert (Hq : field_pointer fieldType fieldValue = AddressOfLocal fieldValue).
  { unfold field_pointer. by destruct (Z.eqb_spec fieldType EtwFieldAnsiString). }
  assert (Hsize : SizeOfField K fieldType (AddressOfLocal fieldValue) s = Done 16%nat s).
  { unfold SizeOfField. by rewrite Hty. }
  rewrite CreateTraceProperty_eq, field_bytes_eq, Hq, Hsize, Hgrant, load_eq.
  cbn [object_at]. rewrite length_app, length_le_bytes.
  replace (16 <=? 8 + length (stack_beyond K))%nat with true
    by (symmetry; apply Nat.leb_le; lia).
  rewrite take_app_ge by (rewrite length_le_bytes; lia).
  rewrite length_le_bytes. change (16 - 8)%nat with 8%nat.
  rewrite length_app, length_le_bytes, length_take.
  by replace (8 + 8 `min` length (stack_beyond K))%nat with 16%nat by lia.
Qed.

End FieldValues.

(** ** What a write leaves behind *)

Lemma size_allocated (obj : list Z) (s : machine) :
  size (mem (allocated (fresh_address (mem s)) obj s)) = S (size (mem s)).
Proof.
  unfold allocated, updated. simpl.
  apply map_size_insert_None, fresh_address_unused.
Qed.

Section Leak.

Context (K : Kernel).

Lemma describe_fields_size (fields : va_list) (i : nat)
    (arr arr' : list EVENT_DATA_DESCRIPTOR) (s s' : machine) :
  describe_fields K fields i arr s = Done (inr arr') s' ->
  size (mem s') = (size (mem s) + length fields)%nat.
Proof.
  revert i arr s. induction fields as [|[[fn ty] v] rest IH]; intros i arr s.
  - intros [= _ <-]. simpl. lia.
  - intros H. apply describe_fields_step in H as [([=] & _)|(bs & _ & H)].
    apply IH in H. rewrite H, size_allocated. simpl. lia.
Qed.

(** X9. [WriteEvent] frees nothing. After a write that returned the
    status of [EtwWrite], here [STATUS_SUCCESS], every object that was in
    memory is still there unchanged, and there are as many new objects as
    the event has fields, plus one for the descriptor array. *)
Theorem EtwProvider_WriteEvent_leaves (eventName : list Z) (ed : EVENT_DESCRIPTOR)
    (fields : va_list) (this : EtwProvider) (s s' : machine) :
  EtwProvider_WriteEvent K eventName ed fields this s = Done STATUS_SUCCESS s' ->
  mem s ⊆ mem s'
  /\ size (mem s') = (size (mem s) + length fields + 1)%nat.
Proof.
  intros H. split; [by apply EtwProvider_WriteEvent_Done in H as [[? _] _]|].
  revert H. unfold EtwProvider_WriteEvent, EtwProvider_FindEvent, bind at 1.
  destruct (find_event_cases eventName (m_events this) s) as [Hf|[Hf|[event Hf]]];
    rewrite Hf; [done|by intros [=]|].
  destruct (pool_grants K (pool_requests s)
              ((length fields + 2) * sizeof_EVENT_DATA_DESCRIPTOR)) eqn:G; cycle 1.
  { rewrite (bind_eq _ _ _ _ _ (ExAllocatePoolWithTag_denied K _ s G)). by intros [=]. }
  rewrite (bind_eq _ _ _ _ _ (ExAllocatePoolWithTag_granted K _ s G)).
  rewrite fresh_address_eqb. unfold memset.
  rewrite (bind_poke_0 _ _ _ _ _ (lookup_allocated _ _ _)).
  rewrite length_replicate, length_resize, Nat.leb_refl, updated_allocated.
  unfold bind.
  destruct (describe_fields K fields 0 _ _) as [[st|arr'] s2|] eqn:Hd; [| |done].
  - apply describe_fields_inl in Hd as [-> _]. by intros [=].
  - apply describe_fields_size in Hd. rewrite size_allocated in Hd.
    unfold EtwWrite. intros [= _ <-]. cbn [mem set_etw_calls]. lia.
Qed.

End Leak.

(** ** The provider cache *)

Lemma guid_matches_refl (g : GUID) : guid_matches g g = true.
Proof. unfold guid_matches. by rewrite !Z.eqb_refl. Qed.

Lemma guid_matches_sym (a b : GUID) : guid_matches a b = guid_matches b a.
Proof.
  unfold guid_matches.
  by rewrite (Z.eqb_sym (Data1 a)), (Z.eqb_sym (Data2 a)), (Z.eqb_sym (Data3 a)),
    (Z.eqb_sym (nth 0 (Data4 a) 0)), (Z.eqb_sym (nth 1 (Data4 a) 0)),
    (Z.eqb_sym (nth 2 (Data4 a) 0)), (Z.eqb_sym (nth 3 (Data4 a) 0)),
    (Z.eqb_sym (nth 4 (Data4 a) 0)), (Z.eqb_sym (nth 5 (Data4 a) 0)),
    (Z.eqb_sym (nth 6 (Data4 a) 0)), (Z.eqb_sym (nth 7 (Data4 a) 0)).
Qed.

(** [FindProvider] returns the index of the first provider whose
    identifier matches. *)
Lemma find_provider_Some (g : GUID) (cache : list EtwProvider) (k j : nat) :
  find_provider g cache k = Some j ->
  exists i p, j = (k + i)%nat /\ cache !! i = Some p
              /\ guid_matches (m_guid p) g = true
              /\ forall i' q, (i' < i)%nat -> cache !! i' = Some q ->
                              guid_matches (m_guid q) g = false.
Proof.
  revert k. induction cache as [|p rest IH]; intros k; simpl; [done|].
  destruct (guid_matches (m_guid p) g) eqn:Hm.
  - intros [= <-]. exists O, p. split_and!; [lia | done | done | lia].
  - intros H. destruct (IH _ H) as (i & q & -> & Hi & Hq & Hfirst).
    exists (S i), q. split_and!; [lia | done | done |].
    intros [|i'] q' Hlt Hq'; simpl in Hq'; [by injection Hq' as <-|].
    apply (Hfirst i'); [lia | done].
Qed.

Lemma find_provider_None (g : GUID) (cache : list EtwProvider) (k : nat) :
  find_provider g cache k = None
  <-> forall i p, cache !! i = Some p -> guid_matches (m_guid p) g = false.
Proof.
  revert k. induction cache as [|p rest IH]; intros k; simpl.
  - split; [by intros _ i p|done].
  - destruct (guid_matches (m_guid p) g) eqn:Hm.
    + split; [done|]. intros H. specialize (H O p eq_refl). congruence.
    + rewrite IH. split.
      * intros H [|i] q Hq; simpl in Hq; [by injection Hq as <- | by apply (H i)].
      * intros H i q Hq. by apply (H (S i)).
Qed.

(** [FindProvider] only looks at the identifiers. *)
Lemma find_provider_guids (g : GUID) (c1 c2 : list EtwProvider) (k : nat) :
  m_guid <$> c1 = m_guid <$> c2 -> find_provider g c1 k = find_provider g c2 k.
Proof.
  revert c2 k. induction c1 as [|p c1 IH]; intros [|q c2] k; simpl; try done.
  intros [= Hpq Hrest]. rewrite Hpq. destruct (guid_matches _ _); [done|].
  by apply IH.
Qed.

Lemma find_provider_snoc (g : GUID) (cache : list EtwProvider) (p : EtwProvider)
    (k : nat) :
  find_provider g cache k = None -> guid_matches (m_guid p) g = true ->
  find_provider g (cache ++ [p]) k = Some (k + length cache)%nat.
Proof.
  revert k. induction cache as [|q rest IH]; intros k; simpl.
  - intros _ ->. f_equal. lia.
  - destruct (guid_matches (m_guid q) g); [done|].
    intros H Hp. rewrite IH by done. f_equal. lia.
Qed.

Lemma guids_insert (cache : list EtwProvider) (i : nat) (p p' : EtwProvider) :
  cache !! i = Some p -> m_guid p' = m_guid p ->
  m_guid <$> <[i := p']> cache = m_guid <$> cache.
Proof.
  intros Hi Hg. rewrite list_fmap_insert, Hg.
  apply list_insert_id. by rewrite list_lookup_fmap, Hi.
Qed.

Lemma guids_distinct_guids (c1 c2 : list EtwProvider) :
  m_guid <$> c1 = m_guid <$> c2 -> guids_distinct c1 -> guids_distinct c2.
Proof.
  intros Heq Hd i j p q Hi Hj Hm.
  assert (Hi' : (m_guid <$> c1) !! i = Some (m_guid p))
    by (by rewrite Heq, list_lookup_fmap, Hi).
  assert (Hj' : (m_guid <$> c1) !! j = Some (m_guid q))
    by (by rewrite Heq, list_lookup_fmap, Hj).
  rewrite list_lookup_fmap in Hi', Hj'.
  destruct (c1 !! i) as [p1|] eqn:Hp1; [|done].
  destruct (c1 !! j) as [q1|] eqn:Hq1; [|done].
  injection Hi' as Hi'. injection Hj' as Hj'.
  apply (Hd i j p1 q1); [done..|]. by rewrite Hi', Hj'.
Qed.

Lemma guids_distinct_snoc (cache : list EtwProvider) (p : EtwProvider) :
  guids_distinct cache -> find_provider (m_guid p) cache 0 = None ->
  guids_distinct (cache ++ [p]).
Proof.
  intros Hd Hnone i j a b Hi Hj Hm.
  rewrite find_provider_None in Hnone.
  apply lookup_app_Some in Hi as [Hi|[Hli Hi]];
    apply lookup_app_Some in Hj as [Hj|[Hlj Hj]].
  - by apply (Hd i j a b).
  - apply list_lookup_singleton_Some in Hj as [_ <-].
    rewrite (Hnone i a Hi) in Hm. done.
  - apply list_lookup_singleton_Some in Hi as [_ <-].
    rewrite guid_matches_sym, (Hnone j b Hj) in Hm. done.
  - apply list_lookup_singleton_Some in Hi as [Hi _].
    apply list_lookup_singleton_Some in Hj as [Hj _]. lia.
Qed.

Section EntryPoint.

Context (K : Kernel).

(** [AddEvent] only ever appends to the events of the provider. *)
Lemma EtwProvider_AddEvent_grows (eventName : list Z) (fields : va_list)
    (this this' : EtwProvider) (s s' : machine) (status : NTSTATUS) :
  EtwProvider_AddEvent K eventName fields this s = Done (status, this') s' ->
  frame s s' /\ etw_calls s' = etw_calls s
  /\ m_guid this' = m_guid this /\ m_regHandle this' = m_regHandle this
  /\ m_providerMetadataDesc this' = m_providerMetadataDesc this
  /\ m_events this `prefix_of` m_events this'.
Proof.
  rewrite EtwProvider_AddEvent_eq.
  destruct (find_event_cases eventName (m_events this) s) as [Hf|[Hf|[e Hf]]];
    rewrite Hf; [done| |].
  - destruct (pool_grants K _ _); cycle 1.
    { intros [= <- <- <-]. split_and!; [apply frame_denied | done..]. }
    destruct (_ <? 65536); [|done].
    intros [= <- <- <-]. split_and!; [apply frame_allocated | done..|].
    by apply prefix_app_r.
  - intros [= <- <- <-]. split_and!; [apply frame_refl | done..].
Qed.

(** The ways in which [EtwTrace] completes. *)
Lemma EtwTrace_Done (providerName : list Z) (providerGuid : GUID) (eventName : list Z)
    (eventLevel keyword : Z) (fields : va_list) (s s' : machine) (status : NTSTATUS) :
  EtwTrace K providerName providerGuid eventName eventLevel keyword fields s
  = Done status s' ->
  (irql s > PASSIVE_LEVEL /\ status = STATUS_UNSUCCESSFUL /\ s' = s)
  \/ (irql s <= PASSIVE_LEVEL
      /\ find_provider providerGuid (g_ProviderCache s) 0 = None
      /\ status <> STATUS_SUCCESS
      /\ exists p, EtwProvider_Initialize K providerName (EtwProvider_new providerGuid) s
                   = Done (status, p) s')
  \/ (irql s <= PASSIVE_LEVEL
      /\ exists i this sA status1 this1 sB,
           ((find_provider providerGuid (g_ProviderCache s) 0 = Some i
             /\ sA = s /\ g_ProviderCache s !! i = Some this)
            \/ (find_provider providerGuid (g_ProviderCache s) 0 = None
                /\ i = length (g_ProviderCache s)
                /\ exists s1,
                     EtwProvider_Initialize K providerName
                       (EtwProvider_new providerGuid) s
                     = Done (STATUS_SUCCESS, this) s1
                     /\ sA = set_g_ProviderCache (g_ProviderCache s ++ [this]) s1))
           /\ EtwProvider_AddEvent K eventName fields this sA = Done (status1, this1) sB
           /\ ((status1 <> STATUS_SUCCESS /\ status = status1
                /\ s' = set_g_ProviderCache (<[i := this1]> (g_ProviderCache sA)) sB)
               \/ (status1 = STATUS_SUCCESS
                   /\ EtwProvider_WriteEvent K eventName
                        (CreateEventDescriptor keyword eventLevel) fields this1
                        (set_g_ProviderCache (<[i := this1]> (g_ProviderCache sA)) sB)
                      = Done status s'))).
Proof.
  intros H. unfold EtwTrace, bind at 1, KeGetCurrentIrql in H.
  destruct (Z.gtb_spec (irql s) PASSIVE_LEVEL) as [Hirql|Hirql].
  { injection H as <- <-. left. split_and!; [lia | done..]. }
  unfold bind at 1, FindProvider in H.
  apply bind_Done in H as (got & sA & Hgot & H).
  destruct (find_provider providerGuid (g_ProviderCache s) 0) as [i|] eqn:Hfp.
  - injection Hgot as <- <-.
    apply bind_Done in H as (this & sA' & Hget & H). unfold cache_get in Hget.
    destruct (g_ProviderCache s !! i) as [this0|] eqn:Hi; [|done].
    injection Hget as <- <-.
    apply bind_Done in H as ([st1 this1] & sB & Hadd & H).
    apply EtwProvider_AddEvent_grows in Hadd as Hgrow. destruct Hgrow as [[_ Hc] _].
    unfold bind at 1, cache_set in H. rewrite Hc in H.
    right. right. split; [done|]. exists i, this0, s, st1, this1, sB.
    split_and!; [by left | done |].
    destruct (Z.eqb_spec st1 STATUS_SUCCESS) as [->|Hne]; simpl in H.
    + right. done.
    + left. by injection H as <- <-.
  - apply bind_Done in Hgot as ([st0 new] & s1 & Hinit & Hk).
    apply EtwProvider_Initialize_frame in Hinit as Hfr. destruct Hfr as [[_ Hc1] _].
    destruct (Z.eqb_spec st0 STATUS_SUCCESS) as [->|Hne]; simpl in Hk.
    + unfold bind, cache_push_back, ret in Hk. injection Hk as <- <-.
      apply bind_Done in H as (this & sA' & Hget & H). unfold cache_get in Hget.
      cbn [g_ProviderCache set_g_ProviderCache] in Hget.
      rewrite lookup_app_r, Nat.sub_diag in Hget by lia. simpl in Hget.
      injection Hget as <- <-.
      apply bind_Done in H as ([st1 this1] & sB & Hadd & H).
      apply EtwProvider_AddEvent_grows in Hadd as Hgrow. destruct Hgrow as [[_ Hc] _].
      unfold bind at 1, cache_set in H. rewrite Hc in H.
      cbn [g_ProviderCache set_g_ProviderCache] in H.
      right. right. split; [done|].
      exists (length (g_ProviderCache s)), new,
        (set_g_ProviderCache (g_ProviderCache s ++ [new]) s1), st1, this1, sB.
      rewrite Hc1 in *.
      split_and!; [right; split_and!; [done..|]; by exists s1 | done |].
      cbn [g_ProviderCache set_g_ProviderCache].
      destruct (Z.eqb_spec st1 STATUS_SUCCESS) as [->|Hne]; simpl in H.
      * right. done.
      * left. by injection H as <- <-.
    + injection Hk as <- <-. injection H as <- <-.
      right. left. split_and!; [done..|]. by exists new.
Qed.

End EntryPoint.

Lemma provider_extends_refl (p : EtwProvider) : provider_extends p p.
Proof. by split_and!. Qed.

Section Tracing.

Context (K : Kernel).

Lemma EtwProvider_Initialize_guid (providerName : list Z) (this this' : EtwProvider)
    (s s' : machine) (status : NTSTATUS) :
  EtwProvider_Initialize K providerName this s = Done (status, this') s' ->
  m_guid this' = m_guid this.
Proof.
  rewrite EtwProvider_Initialize_eq. cbv zeta.
  destruct (negb (_ =? STATUS_SUCCESS)); [by intros [= _ <- _]|].
  destruct (pool_grants K _ _); [|by intros [= _ <- _]].
  destruct (_ <? 65536); [|done].
  by destruct (negb (_ =? STATUS_SUCCESS)); intros [= _ <- _].
Qed.

(** What a call of [EtwTrace] that gets as far as [AddEvent] does to the
    cache: the provider for the identifier sits at index [i], before and
    after, and only gains builders. *)
Lemma EtwTrace_provider (providerName : list Z) (providerGuid : GUID) (i : nat)
    (this this1 : EtwProvider) (s sA : machine) :
  (find_provider providerGuid (g_ProviderCache s) 0 = Some i
   /\ sA = s /\ g_ProviderCache s !! i = Some this)
  \/ (find_provider providerGuid (g_ProviderCache s) 0 = None
      /\ i = length (g_ProviderCache s)
      /\ exists s1,
           EtwProvider_Initialize K providerName (EtwProvider_new providerGuid) s
           = Done (STATUS_SUCCESS, this) s1
           /\ sA = set_g_ProviderCache (g_ProviderCache s ++ [this]) s1) ->
  provider_extends this this1 ->
  mem s ⊆ mem sA
  /\ g_ProviderCache sA !! i = Some this
  /\ find_provider providerGuid (<[i := this1]> (g_ProviderCache sA)) 0 = Some i
  /\ <[i := this1]> (g_ProviderCache sA) !! i = Some this1
  /\ (forall j p, g_ProviderCache s !! j = Some p ->
        exists p', <[i := this1]> (g_ProviderCache sA) !! j = Some p'
                   /\ provider_extends p p')
  /\ (length (g_ProviderCache s) <= length (<[i := this1]> (g_ProviderCache sA))
      <= S (length (g_ProviderCache s)))%nat.
Proof.
  intros [(Hfp & -> & Hi)|(Hfp & -> & s1 & Hinit & ->)] Hext.
  - split_and!; [done | done | | | | |]; [| | |rewrite length_insert; lia..].
    + rewrite (find_provider_guids _ _ (g_ProviderCache s)); [done|].
      apply (guids_insert _ _ this); [done | apply Hext].
    + apply list_lookup_insert_eq. by apply lookup_lt_Some in Hi.
    + intros j p Hj. destruct (decide (j = i)) as [->|Hne].
      * exists this1. rewrite Hi in Hj. injection Hj as <-.
        split; [|done]. apply list_lookup_insert_eq. by apply lookup_lt_Some in Hi.
      * exists p. rewrite list_lookup_insert_ne by done. split; [done|].
        apply provider_extends_refl.
  - apply EtwProvider_Initialize_guid in Hinit as Hg.
    apply EtwProvider_Initialize_frame in Hinit as [[Hsub _] _].
    cbn [g_ProviderCache set_g_ProviderCache mem].
    assert (Hi : (g_ProviderCache s ++ [this]) !! length (g_ProviderCache s) = Some this).
    { rewrite lookup_app_r, Nat.sub_diag by lia. done. }
    split_and!; [done | done | | | | |];
      [| | |rewrite length_insert, length_app; simpl; lia..].
    + rewrite (find_provider_guids _ _ (g_ProviderCache s ++ [this]));
        [|apply (guids_insert _ _ this); [done | apply Hext]].
      rewrite (find_provider_snoc _ _ _ _ Hfp); [done|].
      rewrite Hg. apply guid_matches_refl.
    + apply list_lookup_insert_eq. rewrite length_app. simpl. lia.
    + intros j p Hj. exists p. apply lookup_lt_Some in Hj as Hlt.
      rewrite list_lookup_insert_ne by lia.
      rewrite lookup_app_l by done. split; [done | apply provider_extends_refl].
Qed.

Lemma EtwProvider_AddEvent_extends (eventName : list Z) (fields : va_list)
    (this this' : EtwProvider) (s s' : machine) (status : NTSTATUS) :
  EtwProvider_AddEvent K eventName fields this s = Done (status, this') s' ->
  provider_extends this this'.
Proof. intros H. apply EtwProvider_AddEvent_grows in H. unfold provider_extends. tauto. Qed.

(** X10. A call of [EtwTrace] whose identifier is already in the cache
    uses the cached provider: the cache keeps its length and the
    identifier its index, and nothing is registered anew; the only ETW
    call that it can make is one [EtwWrite] with the handle of the cached
    provider. *)
Theorem EtwTrace_cached_provider (providerName : list Z) (providerGuid : GUID)
    (eventName : list Z) (eventLevel keyword : Z) (fields : va_list) (s s' : machine)
    (status : NTSTATUS) (i : nat) :
  find_provider providerGuid (g_ProviderCache s) 0 = Some i ->
  EtwTrace K providerName providerGuid eventName eventLevel keyword fields s
  = Done status s' ->
  length (g_ProviderCache s') = length (g_ProviderCache s)
  /\ find_provider providerGuid (g_ProviderCache s') 0 = Some i
  /\ (etw_calls s' = etw_calls s
      \/ exists this UserData,
           g_ProviderCache s !! i = Some this
           /\ etw_calls s'
              = Call_EtwWrite (m_regHandle this) (CreateEventDescriptor keyword eventLevel)
                  (Z.of_nat (length fields + 2)) UserData
                :: etw_calls s).
Proof.
  intros Hfp H.
  apply EtwTrace_Done in H
    as [(_ & _ & ->)|[(_ & Hnone & _)|(_ & j & this & sA & st1 & this1 & sB & Hwhich
                                         & Hadd & Hrest)]];
    [by split_and!; [| |left] | congruence |].
  destruct Hwhich as [(Hfp' & -> & Hj)|(Hnone & _)]; [|congruence].
  rewrite Hfp in Hfp'. injection Hfp' as <-.
  apply EtwProvider_AddEvent_extends in Hadd as Hext.
  apply EtwProvider_AddEvent_grows in Hadd as (_ & Hcalls & _ & Hh & _).
  destruct (EtwTrace_provider providerName providerGuid i this this1 s s
              (or_introl (conj Hfp (conj eq_refl Hj))) Hext)
    as (_ & _ & Hfp1 & _ & _ & _).
  set (sC := set_g_ProviderCache _ sB) in Hrest.
  assert (HC : g_ProviderCache sC = <[i := this1]> (g_ProviderCache s)) by done.
  destruct Hrest as [(_ & _ & ->)|(_ & Hw)].
  - rewrite HC, length_insert. split_and!; [done..|]. by left.
  - apply EtwProvider_WriteEvent_Done in Hw as [[_ Hc] Hw]. rewrite Hc, HC, length_insert.
    split_and!; [done..|].
    destruct Hw as [(_ & Hcalls' & _)|(event & U & _ & Hcalls' & _)].
    + left. by rewrite Hcalls'.
    + right. exists this, U. split; [done|]. rewrite Hcalls', Hh. by f_equal.
Qed.

(** X11. [EtwTrace] never takes anything away: the objects in memory stay
    as they are, the cache gains at most one provider, and every cached
    provider keeps its index, identifier, handle and metadata descriptor
    and the builders it had, in their order. *)
Theorem EtwTrace_grows (providerName : list Z) (providerGuid : GUID)
    (eventName : list Z) (eventLevel keyword : Z) (fields : va_list) (s s' : machine)
    (status : NTSTATUS) :
  EtwTrace K providerName providerGuid eventName eventLevel keyword fields s
  = Done status s' ->
  mem s ⊆ mem s'
  /\ (length (g_ProviderCache s) <= length (g_ProviderCache s')
      <= S (length (g_ProviderCache s)))%nat
  /\ forall j p, g_ProviderCache s !! j = Some p ->
       exists p', g_ProviderCache s' !! j = Some p' /\ provider_extends p p'.
Proof.
  intros H.
  apply EtwTrace_Done in H
    as [(_ & _ & ->)|[(_ & _ & _ & p & Hinit)
                      |(_ & i & this & sA & st1 & this1 & sB & Hwhich & Hadd & Hrest)]].
  - split_and!; [done | lia | lia |]. intros j p Hj. exists p.
    split; [done | apply provider_extends_refl].
  - apply EtwProvider_Initialize_frame in Hinit as [[Hsub Hc] _]. rewrite Hc.
    split_and!; [done | lia | lia |]. intros j q Hj. exists q.
    split; [done | apply provider_extends_refl].
  - apply EtwProvider_AddEvent_extends in Hadd as Hext.
    apply EtwProvider_AddEvent_grows in Hadd as ([HsubB _] & _).
    destruct (EtwTrace_provider providerName providerGuid i this this1 s sA Hwhich Hext)
      as (HsubA & _ & _ & _ & Hkeep & Hlen).
    set (sC := set_g_ProviderCache _ sB) in Hrest.
    assert (HC : g_ProviderCache sC = <[i := this1]> (g_ProviderCache sA)) by done.
    assert (HsubC : mem s ⊆ mem sC) by (by transitivity (mem sA)).
    destruct Hrest as [(_ & _ & ->)|(_ & Hw)].
    + rewrite HC. split_and!; [done | lia | lia | done].
    + apply EtwProvider_WriteEvent_Done in Hw as [[Hsub Hc] _]. rewrite Hc, HC.
      split_and!; [by transitivity (mem sC) | lia | lia | done].
Qed.


End Tracing.

(** ** Invariants of the cache *)

Lemma builder_well_formed_mono (s s' : machine) (e : EtwProviderEvent) :
  mem s ⊆ mem s' -> builder_well_formed s e -> builder_well_formed s' e.
Proof.
  intros Hsub (eventName & fields & Hfits & Hp & Hobj & Hsize & Hty).
  exists eventName, fields. split_and!; [done..| |done|done].
  by apply (lookup_weaken _ _ _ _ Hobj).
Qed.

Lemma builder_well_formed_kept (s s' : machine) (e : EtwProviderEvent) :
  mem s' !! Ptr (m_eventMetadataDesc e) = mem s !! Ptr (m_eventMetadataDesc e) ->
  builder_well_formed s e -> builder_well_formed s' e.
Proof.
  intros Hkept (eventName & fields & Hfits & Hp & Hobj & Hsize & Hty).
  exists eventName, fields. split_and!; [done..| |done|done]. by rewrite Hkept.
Qed.

Section Invariants.

Context (K : Kernel).

Lemma EtwProvider_AddEvent_well_formed (eventName : list Z) (fields : va_list)
    (this this' : EtwProvider) (s s' : machine) (status : NTSTATUS) :
  (forall e, e ∈ m_events this -> builder_well_formed s e) ->
  EtwProvider_AddEvent K eventName fields this s = Done (status, this') s' ->
  forall e, e ∈ m_events this' -> builder_well_formed s' e.
Proof.
  intros Hwf. rewrite EtwProvider_AddEvent_eq.
  destruct (find_event_cases eventName (m_events this) s) as [Hf|[Hf|[e0 Hf]]];
    rewrite Hf; [done| |].
  - destruct (pool_grants K _ _); cycle 1.
    { intros [= _ <- <-] e He. by apply Hwf. }
    destruct (Z.ltb_spec (Z.of_nat (serialized_length eventName fields)) 65536)
      as [Hfits|]; [|done].
    intros [= _ <- <-] e He. cbn [m_events set_m_events] in He.
    apply elem_of_app in He as [He|He].
    + apply (builder_well_formed_mono s); [apply allocated_fresh_subseteq | by apply Hwf].
    + apply list_elem_of_singleton in He as ->. exists eventName, fields.
      cbn [m_eventMetadataDesc Ptr Size Type'].
      split_and!; [done | apply fresh_address_not_NULL | apply lookup_allocated | done..].
  - intros [= _ <- <-] e He. by apply Hwf.
Qed.

(** What a completed call of [EtwTrace] has done to the cache. *)
Lemma EtwTrace_cache (providerName : list Z) (providerGuid : GUID)
    (eventName : list Z) (eventLevel keyword : Z) (fields : va_list) (s s' : machine)
    (status : NTSTATUS) :
  EtwTrace K providerName providerGuid eventName eventLevel keyword fields s
  = Done status s' ->
  mem s ⊆ mem s'
  /\ (g_ProviderCache s' = g_ProviderCache s
      \/ exists i this this1 cacheA sA sB status1,
           (cacheA = g_ProviderCache s
            \/ (cacheA = g_ProviderCache s ++ [this]
                /\ find_provider providerGuid (g_ProviderCache s) 0 = None
                /\ i = length (g_ProviderCache s)
                /\ m_guid this = providerGuid /\ m_events this = []))
           /\ cacheA !! i = Some this
           /\ mem s ⊆ mem sA /\ mem sB ⊆ mem s'
           /\ EtwProvider_AddEvent K eventName fields this sA = Done (status1, this1) sB
           /\ g_ProviderCache s' = <[i := this1]> cacheA).
Proof.
  intros H.
  apply EtwTrace_Done in H
    as [(_ & _ & ->)|[(_ & _ & _ & p & Hinit)
                      |(_ & i & this & sA & st1 & this1 & sB & Hwhich & Hadd & Hrest)]].
  - split; [done | by left].
  - apply EtwProvider_Initialize_frame in Hinit as [[Hsub Hc] _]. split; [done | by left].
  - apply EtwProvider_AddEvent_extends in Hadd as Hext.
    apply EtwProvider_AddEvent_grows in Hadd as Hgrow. destruct Hgrow as ([HsubB _] & _).
    destruct (EtwTrace_provider K providerName providerGuid i this this1 s sA Hwhich Hext)
      as (HsubA & Hi & _).
    set (sC := set_g_ProviderCache _ sB) in Hrest.
    assert (HC : g_ProviderCache sC = <[i := this1]> (g_ProviderCache sA)) by done.
    assert (Hs' : mem sB ⊆ mem s' /\ g_ProviderCache s' = g_ProviderCache sC).
    { destruct Hrest as [(_ & _ & ->)|(_ & Hw)]; [done|].
      by apply EtwProvider_WriteEvent_Done in Hw as [[Hsub Hc] _]. }
    destruct Hs' as [HsubC Hc].
    split; [by transitivity (mem sA); [|transitivity (mem sB)]|].
    right. exists i, this, this1, (g_ProviderCache sA), sA, sB, st1.
    split_and!; [|done..|by rewrite Hc].
    destruct Hwhich as [(_ & -> & _)|(Hnone & -> & s1 & Hinit & ->)]; [by left|].
    right. apply EtwProvider_Initialize_guid in Hinit as Hg.
    apply EtwProvider_Initialize_frame in Hinit as [_ Hev].
    by split_and!.
Qed.

Lemma EtwTrace_cache_well_formed (providerName : list Z) (providerGuid : GUID)
    (eventName : list Z) (eventLevel keyword : Z) (fields : va_list) (s s' : machine)
    (status : NTSTATUS) :
  cache_well_formed s ->
  EtwTrace K providerName providerGuid eventName eventLevel keyword fields s
  = Done status s' ->
  cache_well_formed s'.
Proof.
  intros Hwf H.
  apply EtwTrace_cache in H
    as [Hsub [Hc|(i & this & this1 & cacheA & sA & sB & st1 & Hwhich & Hi & HsubA & HsubB
                  & Hadd & Hc)]].
  { intros p e Hp He. rewrite Hc in Hp. apply (builder_well_formed_mono s); [done|].
    by apply (Hwf p). }
  assert (HcacheA : forall p e, p ∈ cacheA -> e ∈ m_events p -> builder_well_formed s e).
  { destruct Hwhich as [->|(-> & _ & _ & _ & Hev)]; [done|].
    intros p e Hp He. apply elem_of_app in Hp as [Hp|Hp]; [by apply (Hwf p)|].
    apply list_elem_of_singleton in Hp as ->. rewrite Hev in He.
    by apply elem_of_nil in He. }
  intros p e Hp He. rewrite Hc in Hp.
  apply list_elem_of_lookup in Hp as [j Hj].
  destruct (decide (j = i)) as [->|Hne].
  - rewrite list_lookup_insert_eq in Hj by (by apply lookup_lt_Some in Hi).
    injection Hj as <-.
    apply (builder_well_formed_mono sB); [done|].
    apply (EtwProvider_AddEvent_well_formed _ _ _ _ _ _ _
             (fun e0 He0 => builder_well_formed_mono s sA e0 HsubA
                              (HcacheA this e0 (list_elem_of_lookup_2 _ _ _ Hi) He0))
             Hadd e He).
  - rewrite list_lookup_insert_ne in Hj by done.
    apply (builder_well_formed_mono s); [done|].
    apply (HcacheA p); [by apply list_elem_of_lookup_2 in Hj | done].
Qed.

(** In every state the module can be in, all builders of the cached
    providers are well formed. *)
Lemma reachable_invariant (s : machine) :
  reachable K s -> cache_well_formed s.
Proof.
  induction 1 as [s Hc|s pn g en lvl kw fields st s' _ IHw H|s s' _ IHw Hc Hkept].
  - intros p e Hp. rewrite Hc in Hp. by apply elem_of_nil in Hp.
  - by eapply EtwTrace_cache_well_formed.
  - intros p e Hp He. rewrite Hc in Hp.
    apply (builder_well_formed_kept s); [by apply (Hkept p) | by apply (IHw p)].
Qed.

(** X13. A call of [EtwTrace] never caches a second provider for an
    identifier: when no two providers of the cache have matching
    identifiers before the call, then after it, whatever it returns,
    providers at different indices have identifiers that do not match.
    The statement is about one call, during which no [GUID] object
    changes. *)
Theorem EtwTrace_keeps_guids_distinct (providerName : list Z) (providerGuid : GUID)
    (eventName : list Z) (eventLevel keyword : Z) (fields : va_list) (s s' : machine)
    (status : NTSTATUS) (i j : nat) (p q : EtwProvider) :
  guids_distinct (g_ProviderCache s) ->
  EtwTrace K providerName providerGuid eventName eventLevel keyword fields s
  = Done status s' ->
  g_ProviderCache s' !! i = Some p -> g_ProviderCache s' !! j = Some q ->
  i <> j ->
  guid_matches (m_guid p) (m_guid q) = false.
Proof.
  intros Hd H Hi Hj Hne.
  assert (Hd' : guids_distinct (g_ProviderCache s')).
  { apply EtwTrace_cache in H
      as [_ [->|(k & this & this1 & cacheA & sA & sB & st1 & Hwhich & Hk & _ & _ & Hadd
                 & ->)]]; [done|].
    apply EtwProvider_AddEvent_extends in Hadd as (Hg & _).
    apply (guids_distinct_guids cacheA); [symmetry; by apply (guids_insert _ _ this)|].
    destruct Hwhich as [->|(-> & Hnone & _ & Hguid & _)]; [done|].
    apply guids_distinct_snoc; [done | by rewrite Hguid]. }
  destruct (guid_matches (m_guid p) (m_guid q)) eqn:Hm; [|done].
  by destruct Hne; apply (Hd' i j p q).
Qed.

(** X14. In every state the module can be in, every builder of every
    cached provider has a metadata descriptor of type
    [EVENT_DATA_DESCRIPTOR_TYPE_EVENT_METADATA] that points at a live pool
    object, whose length is the descriptor's [Size] and is the number held
    little-endian in the object's first two bytes, and [Name()] is defined
    on the builder. *)
Theorem reachable_builders (s : machine) (this : EtwProvider) (e : EtwProviderEvent) :
  reachable K s ->
  this ∈ g_ProviderCache s -> e ∈ m_events this ->
  Type' (m_eventMetadataDesc e) = EVENT_DATA_DESCRIPTOR_TYPE_EVENT_METADATA
  /\ Ptr (m_eventMetadataDesc e) <> NULL
  /\ exists obj name,
       mem s !! Ptr (m_eventMetadataDesc e) = Some obj
       /\ Size (m_eventMetadataDesc e) = Z.of_nat (length obj)
       /\ le_value (take 2 obj) = Z.of_nat (length obj)
       /\ EtwProviderEvent_Name e s = Done name s.
Proof.
  intros Hr Hthis He. apply reachable_invariant in Hr as Hwf.
  destruct (Hwf this e Hthis He) as (eventName & fields & Hfits & Hp & Hobj & Hsize & Hty).
  split_and!; [done..|].
  pose proof (event_name_allocated eventName fields (Ptr (m_eventMetadataDesc e)) 0 0 s)
    as Hname.
  unfold event_name, event_name_region in Hname. cbn [m_eventMetadataDesc Ptr] in Hname.
  rewrite lookup_allocated in Hname.
  exists (event_metadata_bytes eventName fields).
  destruct (has_nul (drop offsetof_EventName (event_metadata_bytes eventName fields)))
    eqn:Hnul; [|done].
  exists (drop offsetof_EventName (event_metadata_bytes eventName fields)).
  rewrite length_event_metadata_bytes.
  split_and!; [done..| |].
  - unfold event_metadata_bytes.
    rewrite take_app_length' by (by rewrite length_le_bytes).
    rewrite le_value_le_bytes_2, eventMetadataLength_eq.
    unfold uint16_t. rewrite Z.mod_mod by lia. apply Z.mod_small. lia.
  - unfold EtwProviderEvent_Name, event_name_region. by rewrite Hobj, Hnul.
Qed.

End Invariants.

(** ** Calls that go through *)

(** [FindEvent] is defined when every builder has a name. *)
Lemma find_event_defined (eventName : list Z) (events : list EtwProviderEvent)
    (s : machine) (names : list (list Z)) :
  mapM (event_name s) events = Some names ->
  exists found, find_event eventName events s = Done found s.
Proof.
  revert names. induction events as [|e rest IH]; intros names.
  - intros _. by exists None.
  - rewrite mapM_cons_Some. intros (y & k' & He & Hrest & _). simpl.
    unfold bind, EtwProviderEvent_Name. unfold event_name in He.
    destruct (event_name_region s e) as [reg|]; [|done].
    destruct (strcmp eventName reg =? 0); [by exists (Some e) | by apply (IH k')].
Qed.

Lemma fields_readable_mono (K : Kernel) (s s' : machine) (fields : va_list) :
  mem s ⊆ mem s' -> fields_readable K s fields -> fields_readable K s' fields.
Proof.
  intros Hsub Hr fn ty v Hin. destruct (Hr fn ty v Hin) as [bs Hbs].
  exists bs. by apply (field_bytes_mono K s).
Qed.

Section Progress.

Context (K : Kernel).
Hypothesis granted : forall k n, pool_grants K k n = true.

(** With a pool that grants every request, [AddEvent] succeeds and the
    provider then has a builder for the name. *)
Lemma EtwProvider_AddEvent_total (eventName : list Z) (fields : va_list)
    (this : EtwProvider) (s : machine) :
  names_unique s this ->
  Z.of_nat (serialized_length eventName fields) < 65536 ->
  exists this1 sB event,
    EtwProvider_AddEvent K eventName fields this s = Done (STATUS_SUCCESS, this1) sB
    /\ find_event eventName (m_events this1) sB = Done (Some event) sB.
Proof.
  intros (names & Hnames & _) Hfits. rewrite EtwProvider_AddEvent_eq.
  destruct (find_event_defined eventName (m_events this) s names Hnames) as [[e|] Hf];
    rewrite Hf.
  { by exists this, s, e. }
  rewrite granted. apply Z.ltb_lt in Hfits. rewrite Hfits.
  eexists _, _, _. split; [done|]. cbn [m_events set_m_events].
  rewrite find_event_app;
    [apply find_event_new | apply (find_event_mono _ _ s); [|done]].
  apply allocated_fresh_subseteq.
Qed.

(** With such a pool the loop of [WriteEvent] fills the array when every
    field can be read. *)
Lemma describe_fields_total (fields : va_list) (i : nat)
    (arr : list EVENT_DATA_DESCRIPTOR) (s : machine) :
  fields_readable K s fields ->
  exists arr' s', describe_fields K fields i arr s = Done (inr arr') s'.
Proof.
  revert i arr s. induction fields as [|[[fn ty] v] rest IH]; intros i arr s Hr.
  - by exists arr, s.
  - rewrite describe_fields_cons, CreateTraceProperty_eq.
    destruct (Hr fn ty v (list_elem_of_here _ _)) as [bs Hbs]. rewrite Hbs.
    rewrite field_bytes_eq in Hbs.
    destruct (SizeOfField K ty (field_pointer ty v) s) as [n s1|]; [|done].
    rewrite granted. cbn [Ptr]. rewrite fresh_address_eqb.
    apply IH. apply (fields_readable_mono K s); [apply allocated_fresh_subseteq|].
    intros fn' ty' v' Hin. apply (Hr fn'). by apply list_elem_of_further.
Qed.

Lemma EtwProvider_WriteEvent_total (eventName : list Z) (ed : EVENT_DESCRIPTOR)
    (fields : va_list) (this : EtwProvider) (event : EtwProviderEvent) (s : machine) :
  (forall calls h d n data, EtwWrite_returns K calls h d n data = STATUS_SUCCESS) ->
  find_event eventName (m_events this) s = Done (Some event) s ->
  fields_readable K s fields ->
  exists s', EtwProvider_WriteEvent K eventName ed fields this s = Done STATUS_SUCCESS s'.
Proof.
  intros Hwrite Hf Hr.
  unfold EtwProvider_WriteEvent, EtwProvider_FindEvent, bind at 1. rewrite Hf.
  rewrite (bind_eq _ _ _ _ _ (ExAllocatePoolWithTag_granted K _ s (granted _ _))).
  rewrite fresh_address_eqb. unfold memset.
  rewrite (bind_poke_0 _ _ _ _ _ (lookup_allocated _ _ _)).
  rewrite length_replicate, length_resize, Nat.leb_refl, updated_allocated.
  set (s1 := allocated _ _ s). set (arr := <[1%nat := _]> _).
  destruct (describe_fields_total fields 0 arr s1) as (arr' & s2 & Hd).
  { apply (fields_readable_mono K s); [apply allocated_fresh_subseteq | done]. }
  rewrite (bind_eq _ _ _ _ _ Hd). unfold EtwWrite. rewrite Hwrite. by eexists.
Qed.

End Progress.

Section EntryPointProgress.

Context (K : Kernel).

(** X15. When the kernel cooperates (the pool grants every request and
    the ETW routines return [STATUS_SUCCESS]), a call of [EtwTrace] at
    [PASSIVE_LEVEL] completes with [STATUS_SUCCESS], provided the provider
    name and the event with its fields fit metadata objects of less than
    64 KiB, every field can be read, and the builders of the cached
    providers have distinct names (as they have in every state the module
    reaches). *)
Theorem EtwTrace_succeeds (providerName : list Z) (providerGuid : GUID)
    (eventName : list Z) (eventLevel keyword : Z) (fields : va_list) (s : machine) :
  well_behaved K ->
  irql s <= PASSIVE_LEVEL ->
  cache_unique s ->
  Z.of_nat (strlen providerName + 1 + 2) < 65536 ->
  Z.of_nat (serialized_length eventName fields) < 65536 ->
  fields_readable K s fields ->
  exists s',
    EtwTrace K providerName providerGuid eventName eventLevel keyword fields s
    = Done STATUS_SUCCESS s'.
Proof.
  intros (Hgrant & Hreg & Hset & Hwrite) Hirql Hu HfitsP HfitsE Hr.
  unfold EtwTrace, bind at 1, KeGetCurrentIrql.
  destruct (Z.gtb_spec (irql s) PASSIVE_LEVEL) as [?|_]; [lia|].
  unfold bind at 1, FindProvider.
  assert (Hgot : exists i this sA,
             mem s ⊆ mem sA /\ g_ProviderCache sA !! i = Some this
             /\ names_unique sA this
             /\ match find_provider providerGuid (g_ProviderCache s) 0 with
                | Some i => ret (inr i)
                | None =>
                    '(status, newEtwProvider) <-
                      EtwProvider_Initialize K providerName
                        (EtwProvider_new providerGuid) ;;
                    if negb (status =? STATUS_SUCCESS) then ret (inl status)
                    else i <- cache_push_back newEtwProvider ;; ret (inr i)
                end s = Done (inr i) sA).
  { destruct (find_provider providerGuid (g_ProviderCache s) 0) as [i|] eqn:Hfp.
    - apply find_provider_Some in Hfp as (i' & p & -> & Hi & _).
      exists i', p, s. split_and!; [done..| |done].
      apply Hu. by apply list_elem_of_lookup_2 in Hi.
    - destruct (EtwProvider_Initialize K providerName (EtwProvider_new providerGuid) s)
        as [[st new] s1|] eqn:Hinit; cycle 1.
      { rewrite EtwProvider_Initialize_eq in Hinit. cbv zeta in Hinit.
        rewrite Hreg, Hgrant, Hset in Hinit. simpl in Hinit.
        apply Z.ltb_lt in HfitsP. by rewrite HfitsP in Hinit. }
      assert (st = STATUS_SUCCESS) as ->.
      { rewrite EtwProvider_Initialize_eq in Hinit. cbv zeta in Hinit.
        rewrite Hreg, Hgrant, Hset in Hinit. simpl in Hinit.
        destruct (_ <? 65536); [by injection Hinit as <- _ _ | done]. }
      apply EtwProvider_Initialize_frame in Hinit as Hfr. destruct Hfr as [[Hsub Hc] Hev].
      exists (length (g_ProviderCache s1)), new,
        (set_g_ProviderCache (g_ProviderCache s1 ++ [new]) s1).
      split_and!; [done| | |].
      + cbn [g_ProviderCache set_g_ProviderCache].
        rewrite lookup_app_r, Nat.sub_diag by lia. done.
      + by apply names_unique_no_events.
      + rewrite (bind_eq _ _ _ _ _ Hinit). done. }
  destruct Hgot as (i & this & sA & HsubA & Hi & Hnu & Hgot).
  rewrite (bind_eq _ _ _ _ _ Hgot).
  unfold bind at 1, cache_get. rewrite Hi.
  destruct (EtwProvider_AddEvent_total K Hgrant eventName fields this sA Hnu HfitsE)
    as (this1 & sB & event & Hadd & Hfind).
  rewrite (bind_eq _ _ _ _ _ Hadd).
  apply EtwProvider_AddEvent_grows in Hadd as ([HsubB _] & _).
  unfold bind at 1, cache_set. simpl negb. cbv iota.
  apply (EtwProvider_WriteEvent_total K Hgrant _ _ _ _ event); [done | |].
  - by apply (find_event_mono _ _ sB).
  - apply (fields_readable_mono K s); [|done].
    by transitivity (mem sA); [|transitivity (mem sB)].
Qed.

End EntryPointProgress.

(** ** Teardown *)

Lemma set_mem_set_mem (m1 m2 : gmap Z (list Z)) (s : machine) :
  set_mem m2 (set_mem m1 s) = set_mem m2 s.
Proof. done. Qed.

Lemma ExFreePool_live (p : Z) (s : machine) :
  is_Some (mem s !! p) -> ExFreePool p s = Done tt (set_mem (delete p (mem s)) s).
Proof. intros [obj H]. unfold ExFreePool. by rewrite H. Qed.

(** The loop of [EtwProvider::Destruct] frees the objects of the builders
    when they are live and no two builders share one. *)
Lemma destruct_events_frees (events : list EtwProviderEvent) (s : machine) :
  let ptrs := (fun e => Ptr (m_eventMetadataDesc e)) <$> events in
  NoDup ptrs ->
  (forall q, q ∈ ptrs -> q <> NULL /\ is_Some (mem s !! q)) ->
  exists m',
    destruct_events events s = Done tt (set_mem m' s)
    /\ forall q, m' !! q = if decide (q ∈ ptrs) then None else mem s !! q.
Proof.
  cbv zeta. revert s. induction events as [|e rest IH]; intros s Hnd Hlive.
  - exists (mem s). split; [by rewrite set_mem_id|].
    intros q. by rewrite decide_False by apply not_elem_of_nil.
  - rewrite fmap_cons in Hnd, Hlive. apply NoDup_cons in Hnd as [Hnot Hnd].
    destruct (Hlive _ (list_elem_of_here _ _)) as [Hnull Hp].
    cbn [destruct_events]. unfold EtwProviderEvent_Destruct.
    apply Z.eqb_neq in Hnull. rewrite Hnull. simpl negb. cbv iota.
    rewrite (bind_eq _ _ _ _ _ (ExFreePool_live _ _ Hp)).
    set (p := Ptr (m_eventMetadataDesc e)) in *.
    destruct (IH (set_mem (delete p (mem s)) s) Hnd) as (m' & Hrun & Hm').
    { intros q Hq. destruct (Hlive q (list_elem_of_further _ _ _ Hq)) as [Hqn Hql].
      split; [done|]. cbn [mem set_mem]. rewrite lookup_delete_ne; [done|].
      intros ->. done. }
    exists m'. rewrite Hrun, set_mem_set_mem. split; [done|].
    intros q. rewrite Hm'. cbn [mem set_mem]. rewrite fmap_cons.
    destruct (decide (q ∈ _ <$> rest)) as [Hin|Hout].
    + by rewrite decide_True by (by apply list_elem_of_further).
    + destruct (decide (q = p)) as [->|Hne].
      * rewrite decide_True by apply list_elem_of_here. apply lookup_delete_eq.
      * rewrite decide_False by (rewrite elem_of_cons; tauto).
        by apply lookup_delete_ne.
Qed.

Lemma freed_by_Destruct_snoc (this : EtwProvider) (e : EtwProviderEvent) :
  freed_by_Destruct (set_m_events (m_events this ++ [e]) this)
  ≡ₚ Ptr (m_eventMetadataDesc e) :: freed_by_Destruct this.
Proof.
  unfold freed_by_Destruct, builder_pointers. cbn [m_events set_m_events].
  change (m_providerMetadataDesc (set_m_events _ this)) with (m_providerMetadataDesc this).
  rewrite fmap_app. simpl. rewrite <- app_assoc. simpl.
  by rewrite <- Permutation_middle.
Qed.

Lemma provider_owns_mono (s s' : machine) (this : EtwProvider) :
  mem s ⊆ mem s' -> provider_owns s this -> provider_owns s' this.
Proof.
  intros Hsub [Hnd Hlive]. split; [done|]. intros q Hq.
  destruct (Hlive q Hq) as [Hn [obj Hobj]]. split; [done|].
  exists obj. by apply (lookup_weaken _ _ _ _ Hobj).
Qed.

Section Teardown.

Context (K : Kernel).

(** X16. [Destruct] after a successful [Initialize] of a builder frees
    the metadata object, so that memory is as it was before [Initialize];
    the descriptor keeps the address, and a second [Destruct] frees it
    once more, which is undefined. *)
Theorem EtwProviderEvent_Destruct_Initialize (eventName : list Z) (fields : va_list)
    (this event : EtwProviderEvent) (s s1 : machine) :
  EtwProviderEvent_Initialize K eventName fields this s = Done (STATUS_SUCCESS, event) s1 ->
  exists s2,
    EtwProviderEvent_Destruct event s1 = Done tt s2
    /\ mem s2 = mem s
    /\ EtwProviderEvent_Destruct event s2 = Undefined.
Proof.
  rewrite EtwProviderEvent_Initialize_eq.
  destruct (pool_grants K _ _); [|done].
  destruct (_ <? 65536); [|done].
  intros [= <- <-]. unfold EtwProviderEvent_Destruct.
  cbn [m_eventMetadataDesc Ptr]. rewrite fresh_address_eqb.
  change (negb false) with true. cbv iota.
  rewrite ExFreePool_live by (rewrite lookup_allocated; eauto).
  eexists. split; [done|].
  unfold ExFreePool. cbn [mem set_mem]. rewrite lookup_delete_eq. split; [|done].
  unfold allocated, updated. cbn [mem set_mem set_pool_requests].
  rewrite delete_insert_eq. apply delete_id, fresh_address_unused.
Qed.

Lemma EtwProvider_Destruct_frees_mem (this : EtwProvider) (s : machine) :
  provider_owns s this ->
  exists m',
    EtwProvider_Destruct this s
    = Done (if m_regHandle this =? 0 then [] else [m_regHandle this]) (set_mem m' s)
    /\ forall q, m' !! q = if decide (q ∈ freed_by_Destruct this) then None
                           else mem s !! q.
Proof.
  intros [Hnd Hlive]. unfold freed_by_Destruct in Hnd, Hlive.
  apply NoDup_app in Hnd as (Hnd1 & Hdisj & Hnd2).
  destruct (destruct_events_frees (m_events this) s Hnd1) as (m1 & Hrun & Hm1).
  { intros q Hq. apply Hlive, elem_of_app. by left. }
  unfold EtwProvider_Destruct. rewrite (bind_eq _ _ _ _ _ Hrun).
  unfold freed_by_Destruct. fold (builder_pointers this) in *.
  destruct (Z.eqb_spec (Ptr (m_providerMetadataDesc this)) NULL) as [Hpd|Hpd].
  - simpl negb. cbv iota. exists m1. split.
    { unfold bind, ret. by destruct (m_regHandle this =? 0). }
    intros q. rewrite Hm1, app_nil_r. done.
  - simpl negb. cbv iota. set (pd := Ptr (m_providerMetadataDesc this)) in *.
    assert (Hpdin : pd ∈ builder_pointers this ++ [pd])
      by (apply elem_of_app; right; apply list_elem_of_here).
    destruct (Hlive pd Hpdin) as [_ Hpdlive].
    assert (Hpdout : pd ∉ builder_pointers this).
    { intros Hin. apply (Hdisj pd Hin). apply list_elem_of_here. }
    assert (Hlive1 : is_Some (mem (set_mem m1 s) !! pd)).
    { cbn [mem set_mem]. rewrite Hm1. by rewrite decide_False. }
    rewrite (bind_eq _ _ _ _ _ (ExFreePool_live _ _ Hlive1)).
    exists (delete pd m1). split.
    { unfold ret. cbn [mem set_mem]. rewrite set_mem_set_mem.
      by destruct (m_regHandle this =? 0). }
    intros q. destruct (decide (q = pd)) as [->|Hne].
    + rewrite decide_True by done. apply lookup_delete_eq.
    + rewrite lookup_delete_ne by done. rewrite Hm1.
      destruct (decide (q ∈ builder_pointers this)) as [Hin|Hout].
      * rewrite decide_True; [done|]. apply elem_of_app. by left.
      * rewrite decide_False; [done|]. rewrite elem_of_app, list_elem_of_singleton. tauto.
Qed.

(** X17. When the descriptors of a provider point at live objects, each
    at one of its own, [EtwProvider::Destruct] completes: it frees the
    metadata object of every builder and the provider metadata object and
    nothing else, changes nothing but memory, and passes the registration
    handle to [EtwUnregister] exactly when the handle is not zero. *)
Theorem EtwProvider_Destruct_frees (this : EtwProvider) (s : machine) :
  provider_owns s this ->
  exists s',
    EtwProvider_Destruct this s
    = Done (if m_regHandle this =? 0 then [] else [m_regHandle this]) s'
    /\ s' = set_mem (mem s') s
    /\ forall q, mem s' !! q = if decide (q ∈ freed_by_Destruct this) then None
                               else mem s !! q.
Proof.
  intros Ho. destruct (EtwProvider_Destruct_frees_mem this s Ho) as (m' & Hrun & Hm').
  exists (set_mem m' s). split_and!; done.
Qed.

Lemma EtwProvider_AddEvent_owns (eventName : list Z) (fields : va_list)
    (this this' : EtwProvider) (s s' : machine) (status : NTSTATUS) :
  provider_owns s this ->
  EtwProvider_AddEvent K eventName fields this s = Done (status, this') s' ->
  provider_owns s' this'
  /\ ((freed_by_Destruct this' = freed_by_Destruct this /\ mem s' = mem s)
      \/ exists p obj,
           freed_by_Destruct this' ≡ₚ p :: freed_by_Destruct this
           /\ mem s !! p = None /\ mem s' = <[p := obj]> (mem s)).
Proof.
  intros Ho. rewrite EtwProvider_AddEvent_eq.
  destruct (find_event_cases eventName (m_events this) s) as [Hf|[Hf|[e0 Hf]]];
    rewrite Hf; [done| |].
  - destruct (pool_grants K _ _); cycle 1.
    { intros [= _ <- <-]. split; [done | by left]. }
    destruct (_ <? 65536); [|done].
    intros [= _ <- <-]. set (p := fresh_address (mem s)).
    set (e := mkEvent _). set (obj := event_metadata_bytes _ _).
    pose proof (freed_by_Destruct_snoc this e) as Hperm.
    change (Ptr (m_eventMetadataDesc e)) with p in Hperm.
    split; [|right; exists p, obj; split_and!;
               [done | apply fresh_address_unused | done]].
    destruct (provider_owns_mono s (allocated p obj s) this
                (allocated_fresh_subseteq obj s) Ho) as [Hnd Hlive].
    split.
    + rewrite Hperm. apply NoDup_cons. split; [|done].
      intros Hin. destruct Ho as [_ Hl]. destruct (Hl p Hin) as [_ [o Ho']].
      pose proof (fresh_address_unused (mem s)) as Hun. fold p in Hun. congruence.
    + intros q Hq. rewrite Hperm in Hq. apply elem_of_cons in Hq as [->|Hq].
      * split; [apply fresh_address_not_NULL|]. exists obj. apply lookup_allocated.
      * by apply Hlive.
  - intros [= _ <- <-]. split; [done | by left].
Qed.

(** The objects of a provider built from state [s0] are exactly what
    memory has gained since. *)
Lemma provider_built_owns (s0 : machine) (this : EtwProvider) (s : machine) :
  provider_built K s0 this s ->
  provider_owns s this
  /\ forall q, mem s0 !! q = if decide (q ∈ freed_by_Destruct this) then None
                             else mem s !! q.
Proof.
  induction 1 as [providerName providerGuid this s Hinit
                 |this s eventName fields status this' s' _ [IHo IHm] Hadd].
  - rewrite EtwProvider_Initialize_eq in Hinit. cbv zeta in Hinit.
    change (m_guid (EtwProvider_new providerGuid)) with providerGuid in Hinit.
    destruct (negb (_ =? STATUS_SUCCESS)) eqn:Hreg.
    { injection Hinit as Heq _ _. rewrite Heq in Hreg. done. }
    destruct (pool_grants K _ _); [|done].
    destruct (_ <? 65536); [|done].
    destruct (negb (EtwSetInformation_returns K _ _ _ _ _ =? STATUS_SUCCESS)) eqn:Hst.
    { injection Hinit as Heq _ _. simpl in Hst. rewrite Heq in Hst. done. }
    injection Hinit as <- <-.
    unfold provider_owns, freed_by_Destruct, builder_pointers.
    cbn [m_events m_providerMetadataDesc set_m_providerMetadataDesc set_m_regHandle
         EtwProvider_new Ptr fmap list_fmap app].
    rewrite fresh_address_eqb. cbn [mem set_etw_calls].
    split; [split|].
    + apply NoDup_singleton.
    + intros q Hq. apply list_elem_of_singleton in Hq as ->.
      split; [apply fresh_address_not_NULL|]. eexists. apply lookup_allocated.
    + intros q. destruct (decide (q = fresh_address (mem s0))) as [->|Hne].
      * rewrite decide_True by apply list_elem_of_here. apply fresh_address_unused.
      * rewrite decide_False by (by rewrite list_elem_of_singleton).
        symmetry. unfold allocated, updated. cbn [mem set_mem set_pool_requests set_etw_calls].
        by apply lookup_insert_ne.
  - destruct (EtwProvider_AddEvent_owns _ _ _ _ _ _ _ IHo Hadd)
      as [Ho' [[Heq Hmem]|(p & obj & Hperm & Hnew & Hmem)]].
    + split; [done|]. by rewrite Heq, Hmem.
    + split; [done|]. intros q. rewrite IHm, Hmem.
      destruct (decide (q = p)) as [->|Hne].
      * rewrite (decide_True (P := p ∈ freed_by_Destruct this'))
          by (rewrite Hperm; apply list_elem_of_here).
        destruct (decide (p ∈ freed_by_Destruct this)); done.
      * rewrite lookup_insert_ne by done.
        destruct (decide (q ∈ freed_by_Destruct this)) as [Hin|Hout].
        -- by rewrite decide_True by (rewrite Hperm; by apply list_elem_of_further).
        -- rewrite decide_False; [done|]. rewrite Hperm, elem_of_cons. tauto.
Qed.

(** X18. A provider leaks nothing over its life: after a successful
    [Initialize] in state [s0] and any number of calls of [AddEvent],
    whatever they return, [Destruct] completes, unregisters the handle
    when it is not zero, and leaves memory as it was in [s0]. *)
Theorem EtwProvider_Destruct_restores (s0 : machine) (this : EtwProvider) (s : machine) :
  provider_built K s0 this s ->
  exists s',
    EtwProvider_Destruct this s
    = Done (if m_regHandle this =? 0 then [] else [m_regHandle this]) s'
    /\ mem s' = mem s0.
Proof.
  intros Hb. apply provider_built_owns in Hb as [Ho Hm].
  destruct (EtwProvider_Destruct_frees_mem this s Ho) as (m' & Hrun & Hm').
  exists (set_mem m' s). split; [done|]. cbn [mem set_mem].
  apply map_eq. intros q. rewrite Hm', Hm. done.
Qed.

End Teardown.

(** ** Lookups in the cache, and strings with flags *)

(** X19. [FindProvider] only reads, and returns the first provider of the
    cache whose identifier matches, or [NULL] when none matches. *)
Theorem FindProvider_first (providerGuid : GUID) (s : machine) :
  exists found,
    FindProvider providerGuid s = Done found s
    /\ match found with
       | None =>
           forall i p, g_ProviderCache s !! i = Some p ->
                       guid_matches (m_guid p) providerGuid = false
       | Some i =>
           exists p, g_ProviderCache s !! i = Some p
                     /\ guid_matches (m_guid p) providerGuid = true
                     /\ forall j q, (j < i)%nat -> g_ProviderCache s !! j = Some q ->
                                    guid_matches (m_guid q) providerGuid = false
       end.
Proof.
  exists (find_provider providerGuid (g_ProviderCache s) 0). split; [done|].
  destruct (find_provider providerGuid (g_ProviderCache s) 0) as [i|] eqn:H.
  - apply find_provider_Some in H as (i' & p & -> & Hi & Hp & Hfirst). by exists p.
  - by apply (find_provider_None providerGuid (g_ProviderCache s) 0).
Qed.

Lemma strlen_lt (r : list Z) : has_nul r = true -> (strlen r + 1 <= length r)%nat.
Proof.
  intros H. apply take_strlen_succ in H.
  apply (f_equal length) in H. rewrite length_take, length_app, length_c_str in H.
  simpl in H. lia.
Qed.

Section FlaggedString.

Context (K : Kernel).

(** X20. [WriteEvent] compares the whole type with [EtwFieldAnsiString]
    while [SizeOfField] looks at its low byte only. For a string type
    with any higher bit set, the field is therefore sized and copied as a
    string that starts at the local variable holding the value: the
    object made holds the bytes of the address up to the first zero byte,
    and the string itself is not read. *)
Theorem CreateTraceProperty_flagged_string (fieldType fieldValue : Z) (s : machine) :
  Z.land fieldType 0xFF = EtwFieldAnsiString ->
  fieldType <> EtwFieldAnsiString ->
  has_nul (le_bytes 8 fieldValue ++ stack_beyond K) = true ->
  pool_grants K (pool_requests s)
    (strlen (le_bytes 8 fieldValue ++ stack_beyond K) + 1) = true ->
  CreateTraceProperty K fieldType (field_pointer fieldType fieldValue) s
  = Done (mkDataDesc (fresh_address (mem s))
            (ULONG (Z.of_nat (strlen (le_bytes 8 fieldValue ++ stack_beyond K) + 1))) 0)
      (allocated (fresh_address (mem s))
         (c_str (le_bytes 8 fieldValue ++ stack_beyond K) ++ [0]) s).
Proof.
  intros Hty Hne Hnul Hgrant.
  assert (Hq : field_pointer fieldType fieldValue = AddressOfLocal fieldValue).
  { unfold field_pointer. by destruct (Z.eqb_spec fieldType EtwFieldAnsiString). }
  rewrite CreateTraceProperty_eq, field_bytes_eq, Hq.
  rewrite (SizeOfField_AnsiString K _ _ _ Hty). cbn [object_at].
  rewrite Hnul, Hgrant, load_eq. cbn [object_at].
  pose proof (strlen_lt _ Hnul) as Hlen. apply Nat.leb_le in Hlen. rewrite Hlen.
  rewrite (take_strlen_succ _ Hnul), length_app, length_c_str. done.
Qed.

End FlaggedString.

(** ** The further properties at the sample inputs *)

(** X1 at a sample input: the builder for "UserLogin" initialised in the
    sample boot state. *)
Lemma EtwProviderEvent_Initialize_Done_witness :
  (EtwProviderEvent_Initialize sample_kernel (ascii_bytes "UserLogin") sample_fields
     EtwProviderEvent_new sample_boot =
   Done (STATUS_SUCCESS, sample_event) sample_added)
  /\ (STATUS_SUCCESS = STATUS_UNSUCCESSFUL
   /\ sample_event = EtwProviderEvent_new
     /\ mem sample_added = mem sample_boot
       /\ pool_grants sample_kernel (pool_requests sample_boot)
           (Z.to_nat (eventMetadataLength (ascii_bytes "UserLogin") sample_fields)) =
         false
   \/ STATUS_SUCCESS = STATUS_SUCCESS
     /\ Z.of_nat (serialized_length (ascii_bytes "UserLogin") sample_fields) < 65536
       /\ m_eventMetadataDesc sample_event =
         {|
           Ptr := fresh_address (mem sample_boot);
           Size :=
             Z.of_nat
               (length (event_metadata_bytes (ascii_bytes "UserLogin") sample_fields));
           Type' := EVENT_DATA_DESCRIPTOR_TYPE_EVENT_METADATA
         |}
         /\ mem sample_added =
           <[fresh_address (mem sample_boot):=event_metadata_bytes
                                                (ascii_bytes "UserLogin") sample_fields]>
             (mem sample_boot)
           /\ mem sample_boot !! fresh_address (mem sample_boot) = None).
Proof.
  assert (H1 : EtwProviderEvent_Initialize sample_kernel (ascii_bytes "UserLogin") sample_fields
                 EtwProviderEvent_new sample_boot =
               Done (STATUS_SUCCESS, sample_event) sample_added)
    by (vm_compute; reflexivity).
  split; [exact H1|].
    exact (EtwProviderEvent_Initialize_Done sample_kernel (ascii_bytes "UserLogin")
           sample_fields EtwProviderEvent_new sample_event sample_boot sample_added
           STATUS_SUCCESS H1).
Defined.

(** X2 at a sample input: the name of the builder for "UserLogin". *)
Lemma EtwProviderEvent_Name_Initialize_witness :
  (EtwProviderEvent_Initialize sample_kernel (ascii_bytes "UserLogin") sample_fields
     EtwProviderEvent_new sample_boot =
   Done (STATUS_SUCCESS, sample_event) sample_added)
  /\ (exists name : list Z,
     EtwProviderEvent_Name sample_event sample_added = Done name sample_added
     /\ strcmp (ascii_bytes "UserLogin") name = 0
       /\ c_str name = c_str (ascii_bytes "UserLogin")).
Proof.
  assert (H1 : EtwProviderEvent_Initialize sample_kernel (ascii_bytes "UserLogin") sample_fields
                 EtwProviderEvent_new sample_boot =
               Done (STATUS_SUCCESS, sample_event) sample_added)
    by (vm_compute; reflexivity).
  split; [exact H1|].
    exact (EtwProviderEvent_Name_Initialize sample_kernel (ascii_bytes "UserLogin")
           sample_fields EtwProviderEvent_new sample_event sample_boot sample_added H1).
Defined.

(** X3 at a sample input: the provider "Contoso" initialised in the sample
    boot state. *)
Lemma EtwProvider_Initialize_success_witness :
  (EtwRegister_returns sample_kernel (etw_calls sample_boot)
     (m_guid (EtwProvider_new sample_guid)) =
   (STATUS_SUCCESS, 77))
  /\ (Z.of_nat (strlen (ascii_bytes "Contoso") + 1 + 2) < 65536)
  /\ (pool_grants sample_kernel (pool_requests sample_boot)
     (strlen (ascii_bytes "Contoso") + 1 + 2) =
   true)
  /\ (EtwSetInformation_returns sample_kernel
     (Call_EtwRegister (m_guid (EtwProvider_new sample_guid)) :: etw_calls sample_boot)
     77 EventProviderSetTraits
     (le_bytes 2 (Z.of_nat (strlen (ascii_bytes "Contoso") + 1 + 2)) ++
      c_str (ascii_bytes "Contoso") ++ [0])
     (Z.of_nat (strlen (ascii_bytes "Contoso") + 1 + 2)) =
   STATUS_SUCCESS)
  /\ (exists s' : machine,
     EtwProvider_Initialize sample_kernel (ascii_bytes "Contoso")
       (EtwProvider_new sample_guid) sample_boot =
     Done
       (STATUS_SUCCESS,
        {|
          m_guid := m_guid (EtwProvider_new sample_guid);
          m_regHandle := 77;
          m_providerMetadataDesc :=
            {|
              Ptr := fresh_address (mem sample_boot);
              Size := Z.of_nat (strlen (ascii_bytes "Contoso") + 1 + 2);
              Type' := EVENT_DATA_DESCRIPTOR_TYPE_PROVIDER_METADATA
            |};
          m_events := m_events (EtwProvider_new sample_guid)
        |})
       s'
     /\ mem s' =
       <[fresh_address (mem sample_boot):=le_bytes 2
                                            (Z.of_nat
                                               (strlen (ascii_bytes "Contoso") + 1 + 2)) ++
                                          c_str (ascii_bytes "Contoso") ++ [0]]>
         (mem sample_boot)
       /\ etw_calls s' =
         Call_EtwSetInformation 77 EventProviderSetTraits
           (le_bytes 2 (Z.of_nat (strlen (ascii_bytes "Contoso") + 1 + 2)) ++
            c_str (ascii_bytes "Contoso") ++ [0])
           (Z.of_nat (strlen (ascii_bytes "Contoso") + 1 + 2))
         :: Call_EtwRegister (m_guid (EtwProvider_new sample_guid))
            :: etw_calls sample_boot
         /\ g_ProviderCache s' = g_ProviderCache sample_boot).
Proof.
  assert (H1 : EtwRegister_returns sample_kernel (etw_calls sample_boot)
                 (m_guid (EtwProvider_new sample_guid)) =
               (STATUS_SUCCESS, 77))
    by (reflexivity).
  assert (H2 : Z.of_nat (strlen (ascii_bytes "Contoso") + 1 + 2) < 65536)
    by (vm_compute; reflexivity).
  assert (H3 : pool_grants sample_kernel (pool_requests sample_boot)
                 (strlen (ascii_bytes "Contoso") + 1 + 2) =
               true)
    by (reflexivity).
  assert (H4 : EtwSetInformation_returns sample_kernel
                 (Call_EtwRegister (m_guid (EtwProvider_new sample_guid)) :: etw_calls sample_boot)
                 77 EventProviderSetTraits
                 (le_bytes 2 (Z.of_nat (strlen (ascii_bytes "Contoso") + 1 + 2)) ++
                  c_str (ascii_bytes "Contoso") ++ [0])
                 (Z.of_nat (strlen (ascii_bytes "Contoso") + 1 + 2)) =
               STATUS_SUCCESS)
    by (reflexivity).
  split; [exact H1|].
  split; [exact H2|].
  split; [exact H3|].
  split; [exact H4|].
    exact (EtwProvider_Initialize_success sample_kernel (ascii_bytes "Contoso")
           (EtwProvider_new sample_guid) sample_boot 77 H1 H2 H3 H4).
Defined.

(** X4 at a sample input: the provider "Contoso" initialised with a pool that
    denies the request. *)
Lemma EtwProvider_Initialize_failed_witness :
  (EtwProvider_Initialize denying_kernel (ascii_bytes "Contoso")
     (EtwProvider_new sample_guid) sample_boot =
   Done (STATUS_UNSUCCESSFUL, set_m_regHandle 77 (EtwProvider_new sample_guid))
     (denied (set_etw_calls [Call_EtwRegister sample_guid] sample_boot)))
  /\ (STATUS_UNSUCCESSFUL <> STATUS_SUCCESS)
  /\ (set_m_regHandle 77 (EtwProvider_new sample_guid) =
   set_m_regHandle
     (EtwRegister_returns denying_kernel (etw_calls sample_boot)
        (m_guid (EtwProvider_new sample_guid))).2
     (EtwProvider_new sample_guid)
   /\ g_ProviderCache (denied (set_etw_calls [Call_EtwRegister sample_guid] sample_boot)) =
     g_ProviderCache sample_boot
     /\ (STATUS_UNSUCCESSFUL =
        (EtwRegister_returns denying_kernel (etw_calls sample_boot)
           (m_guid (EtwProvider_new sample_guid))).1
        /\ mem (denied (set_etw_calls [Call_EtwRegister sample_guid] sample_boot)) =
          mem sample_boot
          /\ etw_calls (denied (set_etw_calls [Call_EtwRegister sample_guid] sample_boot)) =
            Call_EtwRegister (m_guid (EtwProvider_new sample_guid))
            :: etw_calls sample_boot
        \/ STATUS_UNSUCCESSFUL = STATUS_UNSUCCESSFUL
          /\ pool_grants denying_kernel (pool_requests sample_boot)
              (Z.to_nat (providerMetadataLength (ascii_bytes "Contoso"))) =
            false
            /\ mem (denied (set_etw_calls [Call_EtwRegister sample_guid] sample_boot)) =
              mem sample_boot
              /\ etw_calls
                  (denied (set_etw_calls [Call_EtwRegister sample_guid] sample_boot)) =
                Call_EtwRegister (m_guid (EtwProvider_new sample_guid))
                :: etw_calls sample_boot
          \/ exists traits : list Z,
              etw_calls
                (denied (set_etw_calls [Call_EtwRegister sample_guid] sample_boot)) =
              Call_EtwSetInformation
                (EtwRegister_returns denying_kernel (etw_calls sample_boot)
                   (m_guid (EtwProvider_new sample_guid))).2
                EventProviderSetTraits traits
                (providerMetadataLength (ascii_bytes "Contoso"))
              :: Call_EtwRegister (m_guid (EtwProvider_new sample_guid))
                 :: etw_calls sample_boot
              /\ STATUS_UNSUCCESSFUL =
                EtwSetInformation_returns denying_kernel
                  (Call_EtwRegister (m_guid (EtwProvider_new sample_guid))
                   :: etw_calls sample_boot)
                  (EtwRegister_returns denying_kernel (etw_calls sample_boot)
                     (m_guid (EtwProvider_new sample_guid))).2
                  EventProviderSetTraits traits
                  (providerMetadataLength (ascii_bytes "Contoso"))
                /\ mem (denied (set_etw_calls [Call_EtwRegister sample_guid] sample_boot)) =
                  <[fresh_address (mem sample_boot):=traits]> (mem sample_boot)
                  /\ mem sample_boot !! fresh_address (mem sample_boot) = None
                    /\ Ptr
                        (m_providerMetadataDesc
                           (set_m_regHandle 77 (EtwProvider_new sample_guid))) =
                      Ptr (m_providerMetadataDesc (EtwProvider_new sample_guid)))).
Proof.
  assert (H1 : EtwProvider_Initialize denying_kernel (ascii_bytes "Contoso")
                 (EtwProvider_new sample_guid) sample_boot =
               Done (STATUS_UNSUCCESSFUL, set_m_regHandle 77 (EtwProvider_new sample_guid))
                 (denied (set_etw_calls [Call_EtwRegister sample_guid] sample_boot)))
    by (vm_compute; reflexivity).
  assert (H2 : STATUS_UNSUCCESSFUL <> STATUS_SUCCESS)
    by (vm_compute; discriminate).
  split; [exact H1|].
  split; [exact H2|].
    exact (EtwProvider_Initialize_failed denying_kernel (ascii_bytes "Contoso")
           (EtwProvider_new sample_guid) (set_m_regHandle 77 (EtwProvider_new
           sample_guid)) sample_boot (denied (set_etw_calls [Call_EtwRegister sample_guid]
           sample_boot)) STATUS_UNSUCCESSFUL H1 H2).
Defined.

(** X5 at a sample input: "UserLogin" looked up in the sample provider. *)
Lemma EtwProvider_FindEvent_first_witness :
  (event_names sample_traced sample_provider = Some [ascii_bytes "UserLogin"])
  /\ (exists found : option EtwProviderEvent,
     EtwProvider_FindEvent (ascii_bytes "UserLogin") sample_provider sample_traced =
     Done found sample_traced
     /\ match found with
       | Some e =>
           exists i : nat,
             m_events sample_provider !! i = Some e
             /\ [ascii_bytes "UserLogin"] !! i = Some (c_str (ascii_bytes "UserLogin"))
               /\ forall j : nat,
                   (j < i)%nat
                   -> [ascii_bytes "UserLogin"] !! j
                     <> Some (c_str (ascii_bytes "UserLogin"))
       | None => c_str (ascii_bytes "UserLogin") ∉ [ascii_bytes "UserLogin"]
       end).
Proof.
  assert (H1 : event_names sample_traced sample_provider = Some [ascii_bytes "UserLogin"])
    by (vm_compute; reflexivity).
  split; [exact H1|].
    exact (EtwProvider_FindEvent_first (ascii_bytes "UserLogin") sample_provider
           sample_traced [ascii_bytes "UserLogin"] H1).
Defined.


(** X7 at a sample input: the [UInt32] field 42. *)
Lemma CreateTraceProperty_scalar_witness :
  (EtwFieldUInt32 <> EtwFieldAnsiString)
  /\ (SizeOfField sample_kernel (Z.land EtwFieldUInt32 255) (AddressOfLocal 42) sample_boot =
   Done 4%nat sample_boot)
  /\ ((4 <= 8)%nat)
  /\ (pool_grants sample_kernel (pool_requests sample_boot) 4 = true)
  /\ (CreateTraceProperty sample_kernel EtwFieldUInt32 (field_pointer EtwFieldUInt32 42)
     sample_boot =
   Done {| Ptr := fresh_address (mem sample_boot); Size := Z.of_nat 4; Type' := 0 |}
     (allocated (fresh_address (mem sample_boot)) (le_bytes 4 42) sample_boot)
   /\ le_value (le_bytes 4 42) = 42 `mod` 2 ^ (8 * Z.of_nat 4)).
Proof.
  assert (H1 : EtwFieldUInt32 <> EtwFieldAnsiString)
    by (vm_compute; discriminate).
  assert (H2 : SizeOfField sample_kernel (Z.land EtwFieldUInt32 255) (AddressOfLocal 42) sample_boot =
               Done 4%nat sample_boot)
    by (reflexivity).
  assert (H3 : (4 <= 8)%nat)
    by (lia).
  assert (H4 : pool_grants sample_kernel (pool_requests sample_boot) 4 = true)
    by (reflexivity).
  split; [exact H1|].
  split; [exact H2|].
  split; [exact H3|].
  split; [exact H4|].
    exact (CreateTraceProperty_scalar sample_kernel EtwFieldUInt32 42 sample_boot 4 H1 H2
           H3 H4).
Defined.

(** X8 at a sample input: a field of type [EtwFieldGuid] with the value 42. *)
Lemma CreateTraceProperty_Guid_witness :
  (Z.land EtwFieldGuid 255 = EtwFieldGuid)
  /\ ((8 <= length (stack_beyond sample_kernel))%nat)
  /\ (pool_grants sample_kernel (pool_requests sample_boot) 16 = true)
  /\ (CreateTraceProperty sample_kernel EtwFieldGuid (field_pointer EtwFieldGuid 42)
     sample_boot =
   Done {| Ptr := fresh_address (mem sample_boot); Size := 16; Type' := 0 |}
     (allocated (fresh_address (mem sample_boot))
        (le_bytes 8 42 ++ take 8 (stack_beyond sample_kernel)) sample_boot)).
Proof.
  assert (H1 : Z.land EtwFieldGuid 255 = EtwFieldGuid)
    by (reflexivity).
  assert (H2 : (8 <= length (stack_beyond sample_kernel))%nat)
    by (vm_compute; lia).
  assert (H3 : pool_grants sample_kernel (pool_requests sample_boot) 16 = true)
    by (reflexivity).
  split; [exact H1|].
  split; [exact H2|].
  split; [exact H3|].
    exact (CreateTraceProperty_Guid sample_kernel EtwFieldGuid 42 sample_boot H1 H2 H3).
Defined.

(** X9 at a sample input: the event written once more after the sample call.
    *)
Lemma EtwProvider_WriteEvent_leaves_witness :
  (EtwProvider_WriteEvent sample_kernel (ascii_bytes "UserLogin") sample_descriptor
     sample_fields sample_provider sample_traced =
   Done STATUS_SUCCESS sample_written)
  /\ (mem sample_traced ⊆ mem sample_written
   /\ size (mem sample_written) =
     (size (mem sample_traced) + length sample_fields + 1)%nat).
Proof.
  assert (H1 : EtwProvider_WriteEvent sample_kernel (ascii_bytes "UserLogin") sample_descriptor
                 sample_fields sample_provider sample_traced =
               Done STATUS_SUCCESS sample_written)
    by (vm_compute; reflexivity).
  split; [exact H1|].
    exact (EtwProvider_WriteEvent_leaves sample_kernel (ascii_bytes "UserLogin")
           sample_descriptor sample_fields sample_provider sample_traced sample_written
           H1).
Defined.

(** X10 at a sample input: the sample call made a second time. *)
Lemma EtwTrace_cached_provider_witness :
  (find_provider sample_guid (g_ProviderCache sample_traced) 0 = Some 0%nat)
  /\ (EtwTrace sample_kernel (ascii_bytes "Contoso") sample_guid
     (ascii_bytes "UserLogin") 4 1 sample_fields sample_traced =
   Done STATUS_SUCCESS sample_traced_again)
  /\ (length (g_ProviderCache sample_traced_again) = length (g_ProviderCache sample_traced)
   /\ find_provider sample_guid (g_ProviderCache sample_traced_again) 0 = Some 0%nat
     /\ (etw_calls sample_traced_again = etw_calls sample_traced
        \/ exists (this : EtwProvider) (UserData : list EVENT_DATA_DESCRIPTOR),
            g_ProviderCache sample_traced !! 0%nat = Some this
            /\ etw_calls sample_traced_again =
              Call_EtwWrite (m_regHandle this) (CreateEventDescriptor 1 4)
                (Z.of_nat (length sample_fields + 2)) UserData
              :: etw_calls sample_traced)).
Proof.
  assert (H1 : find_provider sample_guid (g_ProviderCache sample_traced) 0 = Some 0%nat)
    by (vm_compute; reflexivity).
  assert (H2 : EtwTrace sample_kernel (ascii_bytes "Contoso") sample_guid
                 (ascii_bytes "UserLogin") 4 1 sample_fields sample_traced =
               Done STATUS_SUCCESS sample_traced_again)
    by (vm_compute; reflexivity).
  split; [exact H1|].
  split; [exact H2|].
    exact (EtwTrace_cached_provider sample_kernel (ascii_bytes "Contoso") sample_guid
           (ascii_bytes "UserLogin") 4 1 sample_fields sample_traced sample_traced_again
           STATUS_SUCCESS 0 H1 H2).
Defined.

(** X11 at a sample input: a call for a second provider after the sample call.
    *)
Lemma EtwTrace_grows_witness :
  (EtwTrace sample_kernel (ascii_bytes "Fabrikam") other_guid
     (ascii_bytes "UserLogout") 4 1 sample_fields sample_traced =
   Done STATUS_SUCCESS sample_two_traced)
  /\ (mem sample_traced ⊆ mem sample_two_traced
   /\ (length (g_ProviderCache sample_traced) <=
      length (g_ProviderCache sample_two_traced) <=
      S (length (g_ProviderCache sample_traced)))%nat
     /\ forall (j : nat) (p : EtwProvider),
         g_ProviderCache sample_traced !! j = Some p
         -> exists p' : EtwProvider,
             g_ProviderCache sample_two_traced !! j = Some p' /\ provider_extends p p').
Proof.
  assert (H1 : EtwTrace sample_kernel (ascii_bytes "Fabrikam") other_guid
                 (ascii_bytes "UserLogout") 4 1 sample_fields sample_traced =
               Done STATUS_SUCCESS sample_two_traced)
    by (vm_compute; reflexivity).
  split; [exact H1|].
    exact (EtwTrace_grows sample_kernel (ascii_bytes "Fabrikam") other_guid (ascii_bytes
           "UserLogout") 4 1 sample_fields sample_traced sample_two_traced STATUS_SUCCESS
           H1).
Defined.


(** X13 at a sample input: a call for a second provider after the sample call,
    and the two providers then cached. *)
Lemma EtwTrace_keeps_guids_distinct_witness :
  (guids_distinct (g_ProviderCache sample_traced))
  /\ (EtwTrace sample_kernel (ascii_bytes "Fabrikam") other_guid
     (ascii_bytes "UserLogout") 4 1 sample_fields sample_traced =
   Done STATUS_SUCCESS sample_two_traced)
  /\ (g_ProviderCache sample_two_traced !! 0%nat = Some sample_provider)
  /\ (g_ProviderCache sample_two_traced !! 1%nat = Some other_provider)
  /\ (0%nat <> 1%nat)
  /\ (guid_matches (m_guid sample_provider) (m_guid other_provider) = false).
Proof.
  assert (H1 : guids_distinct (g_ProviderCache sample_traced)).
  { assert (Hlen : length (g_ProviderCache sample_traced) = 1%nat)
      by (vm_compute; reflexivity).
    intros i j p q Hi Hj _.
    apply lookup_lt_Some in Hi. apply lookup_lt_Some in Hj. lia. }
  assert (H2 : EtwTrace sample_kernel (ascii_bytes "Fabrikam") other_guid
                 (ascii_bytes "UserLogout") 4 1 sample_fields sample_traced =
               Done STATUS_SUCCESS sample_two_traced)
    by (vm_compute; reflexivity).
  assert (H3 : g_ProviderCache sample_two_traced !! 0%nat = Some sample_provider)
    by (vm_compute; reflexivity).
  assert (H4 : g_ProviderCache sample_two_traced !! 1%nat = Some other_provider)
    by (vm_compute; reflexivity).
  assert (H5 : 0%nat <> 1%nat)
    by (discriminate).
  split; [exact H1|].
  split; [exact H2|].
  split; [exact H3|].
  split; [exact H4|].
  split; [exact H5|].
    exact (EtwTrace_keeps_guids_distinct sample_kernel (ascii_bytes "Fabrikam") other_guid
           (ascii_bytes "UserLogout") 4 1 sample_fields sample_traced sample_two_traced
           STATUS_SUCCESS 0 1 sample_provider other_provider H1 H2 H3 H4 H5).
Defined.

(** X14 at a sample input: the builder cached by the sample call. *)
Lemma reachable_builders_witness :
  (reachable sample_kernel sample_traced)
  /\ (sample_provider ∈ g_ProviderCache sample_traced)
  /\ (sample_event_traced ∈ m_events sample_provider)
  /\ (Type' (m_eventMetadataDesc sample_event_traced) =
   EVENT_DATA_DESCRIPTOR_TYPE_EVENT_METADATA
   /\ Ptr (m_eventMetadataDesc sample_event_traced) <> NULL
     /\ exists obj name : list Z,
         mem sample_traced !! Ptr (m_eventMetadataDesc sample_event_traced) = Some obj
         /\ Size (m_eventMetadataDesc sample_event_traced) = Z.of_nat (length obj)
           /\ le_value (take 2 obj) = Z.of_nat (length obj)
             /\ EtwProviderEvent_Name sample_event_traced sample_traced =
               Done name sample_traced).
Proof.
  assert (H1 : reachable sample_kernel sample_traced).
  { apply (reachable_EtwTrace sample_kernel sample_boot (ascii_bytes "Contoso")
             sample_guid (ascii_bytes "UserLogin") 4 1 sample_fields STATUS_SUCCESS).
    - apply reachable_boot. reflexivity.
    - vm_compute; reflexivity. }
  assert (H2 : sample_provider ∈ g_ProviderCache sample_traced)
    by (apply (list_elem_of_lookup_2 _ 0%nat); vm_compute; reflexivity).
  assert (H3 : sample_event_traced ∈ m_events sample_provider)
    by (apply (list_elem_of_lookup_2 _ 0%nat); vm_compute; reflexivity).
  split; [exact H1|].
  split; [exact H2|].
  split; [exact H3|].
    exact (reachable_builders sample_kernel sample_traced sample_provider
           sample_event_traced H1 H2 H3).
Defined.

(** X15 at a sample input: the sample call. *)
Lemma EtwTrace_succeeds_witness :
  (well_behaved sample_kernel)
  /\ (irql sample_boot <= PASSIVE_LEVEL)
  /\ (cache_unique sample_boot)
  /\ (Z.of_nat (strlen (ascii_bytes "Contoso") + 1 + 2) < 65536)
  /\ (Z.of_nat (serialized_length (ascii_bytes "UserLogin") sample_fields) < 65536)
  /\ (fields_readable sample_kernel sample_boot sample_fields)
  /\ (exists s' : machine,
     EtwTrace sample_kernel (ascii_bytes "Contoso") sample_guid
       (ascii_bytes "UserLogin") 4 1 sample_fields sample_boot =
     Done STATUS_SUCCESS s').
Proof.
  assert (H1 : well_behaved sample_kernel)
    by (repeat split; intros; reflexivity).
  assert (H2 : irql sample_boot <= PASSIVE_LEVEL)
    by (vm_compute; discriminate).
  assert (H3 : cache_unique sample_boot)
    by (intros this Hin; by apply elem_of_nil in Hin).
  assert (H4 : Z.of_nat (strlen (ascii_bytes "Contoso") + 1 + 2) < 65536)
    by (vm_compute; reflexivity).
  assert (H5 : Z.of_nat (serialized_length (ascii_bytes "UserLogin") sample_fields) < 65536)
    by (vm_compute; reflexivity).
  assert (H6 : fields_readable sample_kernel sample_boot sample_fields).
  { intros fn ty v Hin. apply list_elem_of_singleton in Hin.
    injection Hin as Hfn Hty Hv. subst. vm_compute. eexists. reflexivity. }
  split; [exact H1|].
  split; [exact H2|].
  split; [exact H3|].
  split; [exact H4|].
  split; [exact H5|].
  split; [exact H6|].
    exact (EtwTrace_succeeds sample_kernel (ascii_bytes "Contoso") sample_guid
           (ascii_bytes "UserLogin") 4 1 sample_fields sample_boot H1 H2 H3 H4 H5 H6).
Defined.

(** X16 at a sample input: the builder for "UserLogin" initialised in the
    sample boot state and destructed. *)
Lemma EtwProviderEvent_Destruct_Initialize_witness :
  (EtwProviderEvent_Initialize sample_kernel (ascii_bytes "UserLogin") sample_fields
     EtwProviderEvent_new sample_boot =
   Done (STATUS_SUCCESS, sample_event) sample_added)
  /\ (exists s2 : machine,
     EtwProviderEvent_Destruct sample_event sample_added = Done () s2
     /\ mem s2 = mem sample_boot /\ EtwProviderEvent_Destruct sample_event s2 = Undefined).
Proof.
  assert (H1 : EtwProviderEvent_Initialize sample_kernel (ascii_bytes "UserLogin") sample_fields
                 EtwProviderEvent_new sample_boot =
               Done (STATUS_SUCCESS, sample_event) sample_added)
    by (vm_compute; reflexivity).
  split; [exact H1|].
    exact (EtwProviderEvent_Destruct_Initialize sample_kernel (ascii_bytes "UserLogin")
           sample_fields EtwProviderEvent_new sample_event sample_boot sample_added H1).
Defined.

(** X17 at a sample input: the provider cached by the sample call. *)
Lemma EtwProvider_Destruct_frees_witness :
  (provider_owns sample_traced sample_provider)
  /\ (exists s' : machine,
     EtwProvider_Destruct sample_provider sample_traced =
     Done
       (if m_regHandle sample_provider =? 0 then [] else [m_regHandle sample_provider])
       s'
     /\ s' = set_mem (mem s') sample_traced
       /\ forall q : Z,
           mem s' !! q =
           (if decide (q ∈ freed_by_Destruct sample_provider) is left _
            then None
            else mem sample_traced !! q)).
Proof.
  assert (H1 : provider_owns sample_traced sample_provider).
  { assert (Hf : freed_by_Destruct sample_provider = [1002; 1001])
      by (vm_compute; reflexivity).
    unfold provider_owns. rewrite Hf. split.
    - apply NoDup_cons. split; [|apply NoDup_singleton].
      intros Hin. apply list_elem_of_singleton in Hin. discriminate.
    - intros q Hq. apply elem_of_cons in Hq as [->|Hq];
        [|apply list_elem_of_singleton in Hq as ->];
        (split; [discriminate | vm_compute; eexists; reflexivity]). }
  split; [exact H1|].
    exact (EtwProvider_Destruct_frees sample_provider sample_traced H1).
Defined.

(** X18 at a sample input: the provider "Contoso" initialised, given the event
    "UserLogin" and destructed. *)
Lemma EtwProvider_Destruct_restores_witness :
  (provider_built sample_kernel sample_boot sample_built_provider sample_built)
  /\ (exists s' : machine,
     EtwProvider_Destruct sample_built_provider sample_built =
     Done
       (if m_regHandle sample_built_provider =? 0
        then []
        else [m_regHandle sample_built_provider])
       s'
     /\ mem s' = mem sample_boot).
Proof.
  assert (H1 : provider_built sample_kernel sample_boot sample_built_provider sample_built).
  { apply (built_AddEvent sample_kernel sample_boot sample_initialized_provider
             sample_initialized (ascii_bytes "UserLogin") sample_fields STATUS_SUCCESS).
    - apply (built_Initialize sample_kernel sample_boot (ascii_bytes "Contoso")
               sample_guid).
      vm_compute; reflexivity.
    - vm_compute; reflexivity. }
  split; [exact H1|].
    exact (EtwProvider_Destruct_restores sample_kernel sample_boot sample_built_provider
           sample_built H1).
Defined.

(** X20 at a sample input: a flagged string field whose value is the address
    1000 of the caller's "hi". *)
Lemma CreateTraceProperty_flagged_string_witness :
  (Z.land flagged_string_type 255 = EtwFieldAnsiString)
  /\ (flagged_string_type <> EtwFieldAnsiString)
  /\ (has_nul (le_bytes 8 1000 ++ stack_beyond sample_kernel) = true)
  /\ (pool_grants sample_kernel (pool_requests sample_boot)
     (strlen (le_bytes 8 1000 ++ stack_beyond sample_kernel) + 1) =
   true)
  /\ (CreateTraceProperty sample_kernel flagged_string_type
     (field_pointer flagged_string_type 1000) sample_boot =
   Done
     {|
       Ptr := fresh_address (mem sample_boot);
       Size :=
         ULONG (Z.of_nat (strlen (le_bytes 8 1000 ++ stack_beyond sample_kernel) + 1));
       Type' := 0
     |}
     (allocated (fresh_address (mem sample_boot))
        (c_str (le_bytes 8 1000 ++ stack_beyond sample_kernel) ++ [0]) sample_boot)).
Proof.
  assert (H1 : Z.land flagged_string_type 255 = EtwFieldAnsiString)
    by (vm_compute; reflexivity).
  assert (H2 : flagged_string_type <> EtwFieldAnsiString)
    by (vm_compute; discriminate).
  assert (H3 : has_nul (le_bytes 8 1000 ++ stack_beyond sample_kernel) = true)
    by (vm_compute; reflexivity).
  assert (H4 : pool_grants sample_kernel (pool_requests sample_boot)
                 (strlen (le_bytes 8 1000 ++ stack_beyond sample_kernel) + 1) =
               true)
    by (reflexivity).
  split; [exact H1|].
  split; [exact H2|].
  split; [exact H3|].
  split; [exact H4|].
    exact (CreateTraceProperty_flagged_string sample_kernel flagged_string_type 1000
           sample_boot H1 H2 H3 H4).
Defined.
